(** * KCI BNI City station analytics: the synthetic-data generators of
      [backend.py], embedded in Rocq.

    The five category endpoints of [backend.py] draw from Python's
    process-wide [random] generator and compute with Python [int]s
    (unbounded, here [Z]) and Python [float]s (IEEE 754 binary64, here
    Rocq's primitive [float], which is the same format with the same
    round-to-nearest-even operations).  Exceptions are results of an error
    monad that also threads the state of the random generator.  The
    combined endpoint [get_all_data] runs the five generators and derives
    its insight values and dashboard summary from their reports. *)

From Stdlib Require Import ZArith List String Ascii Bool Lia Floats DecimalString.
From Stdlib Require Import Permutation Sorted.
Import ListNotations.

Set Warnings "-inexact-float".

Local Open Scope Z_scope.

(** ** Exceptions and results *)

Inductive exn : Type :=
| ZeroDivisionError
| OverflowError
| ValueError
| IndexError
| StopIteration.

Inductive result (A : Type) : Type :=
| Ok (a : A)
| Raise (e : exn).

Arguments Ok {A} a.
Arguments Raise {A} e.

(** ** Python numbers *)

Module Py.

(** [float(z)] for a Python int: the nearest binary64 value, ties to even
    (exact up to 2^53). *)
Definition float_of_int (z : Z) : float :=
  SF2Prim (binary_normalize prec emax z 0 false).

(** [int(x)] for a float: truncation toward zero; infinities raise
    OverflowError and NaN raises ValueError. *)
Definition int_of_float (x : float) : result Z :=
  match Prim2SF x with
  | S754_zero _ => Ok 0
  | S754_finite s m e => Ok (cond_Zopp s (Z.shiftl (Zpos m) e))
  | S754_infinity _ => Raise OverflowError
  | S754_nan => Raise ValueError
  end.

(** The integer [z] as an unrounded binary operand [z * 2^0]. *)
Definition SF_of_int (z : Z) : spec_float :=
  match z with
  | Z0 => S754_zero false
  | Zpos p => S754_finite false p 0
  | Zneg p => S754_finite true p 0
  end.

(** [a / b] on two ints (true division): the correctly rounded quotient,
    ZeroDivisionError when [b] is zero, OverflowError when the quotient
    does not fit a float. *)
Definition int_truediv (a b : Z) : result float :=
  if b =? 0 then Raise ZeroDivisionError
  else match SFdiv prec emax (SF_of_int a) (SF_of_int b) with
       | S754_infinity _ => Raise OverflowError
       | q => Ok (SF2Prim q)
       end.

(** [x / y] on floats: IEEE division, except that Python raises on a zero
    divisor. *)
Definition float_truediv (x y : float) : result float :=
  if is_zero y then Raise ZeroDivisionError else Ok (x / y)%float.

(** The integer nearest to [m * 2^e * 10^nd], ties to even ([m >= 0]). *)
Definition scaled_round_half_even (m e : Z) (nd : N) : Z :=
  let num := m * 10 ^ Z.of_N nd in
  match e with
  | Zneg k =>
      let den := 2 ^ Zpos k in
      let q := num / den in
      let r := num mod den in
      match 2 * r ?= den with
      | Lt => q
      | Gt => q + 1
      | Eq => if Z.even q then q else q + 1
      end
  | _ => num * 2 ^ e
  end.

(** [round(x, nd)] for a float and [nd >= 0]: the exact value of [x] is
    rounded half-even to [nd] decimals, and the decimal obtained is
    converted back to the nearest float (CPython's dtoa/strtod round
    trip).  Infinities and NaN round to themselves. *)
Definition round (x : float) (nd : N) : float :=
  match Prim2SF x with
  | S754_finite s m e =>
      let n := scaled_round_half_even (Zpos m) e nd in
      match n with
      | Z0 => if s then neg_zero else zero
      | _ => SF2Prim (SFdiv prec emax
                        (SF_of_int (cond_Zopp s n))
                        (SF_of_int (10 ^ Z.of_N nd)))
      end
  | _ => x
  end.

(** A value that is an int on one path and a float on another. *)
Inductive number : Type :=
| Int (z : Z)
| Float (f : float).

Definition to_float (n : number) : float :=
  match n with
  | Int z => float_of_int z
  | Float f => f
  end.

Definition add (a b : number) : number :=
  match a, b with
  | Int x, Int y => Int (x + y)
  | _, _ => Float (to_float a + to_float b)%float
  end.

Definition truediv (a b : number) : result float :=
  match a, b with
  | Int x, Int y => int_truediv x y
  | _, _ => float_truediv (to_float a) (to_float b)
  end.

(** [a > b]: ints compare exactly, floats by IEEE comparison. *)
Definition gt (a b : number) : bool :=
  match a, b with
  | Int x, Int y => y <? x
  | _, _ => (to_float b <? to_float a)%float
  end.

(** [round(n, nd)]: an int is returned unchanged for [nd >= 0]. *)
Definition round_number (n : number) (nd : N) : number :=
  match n with
  | Int z => Int z
  | Float f => Float (round f nd)
  end.

(** [sum(xs)] over numbers, starting from the int 0 and adding from left
    to right.  (CPython 3.12 and later compensate the rounding errors of a
    float sum; the result is the same when at most two floats are added or
    when every partial sum is exact, which holds for every float sum of
    this program but the one behind [avg_gate_utilization_rate].) *)
Definition sum (xs : list number) : number :=
  fold_left add xs (Int 0).

(** [sum(xs)] over ints. *)
Definition isum (xs : list Z) : Z :=
  fold_left Z.add xs 0.

End Py.

(** ** Python strings and sequences *)

Module Str.

Local Open Scope string_scope.

(** [s.upper()] on ASCII letters. *)
Definition upper_char (c : ascii) : ascii :=
  let n := nat_of_ascii c in
  if (Nat.leb 97 n && Nat.leb n 122)%bool then ascii_of_nat (n - 32) else c.

Fixpoint upper (s : string) : string :=
  match s with
  | EmptyString => EmptyString
  | String c s' => String (upper_char c) (upper s')
  end.

(** [sub in s]. *)
Fixpoint contains (sub s : string) : bool :=
  if prefix sub s then true
  else match s with
       | EmptyString => false
       | String _ s' => contains sub s'
       end.

(** [s.replace(old, new)] for a non-empty [old]: every occurrence, left to
    right, without overlap.  [skip] counts the characters of a match that
    are still to be dropped. *)
Fixpoint replace_from (old new : string) (skip : nat) (s : string) : string :=
  match s with
  | EmptyString => EmptyString
  | String c s' =>
      match skip with
      | S k => replace_from old new k s'
      | O =>
          if prefix old s
          then new ++ replace_from old new (String.length old - 1) s'
          else String c (replace_from old new 0 s')
      end
  end.

Definition replace (old new s : string) : string :=
  replace_from old new 0 s.

(** [s.split(sep)] for a one-character separator; [cur] is the field read
    so far. *)
Fixpoint split_from (sep : ascii) (cur : string) (s : string) : list string :=
  match s with
  | EmptyString => [cur]
  | String c s' =>
      if Ascii.eqb c sep then cur :: split_from sep EmptyString s'
      else split_from sep (cur ++ String c EmptyString) s'
  end.

Definition split (sep : ascii) (s : string) : list string :=
  split_from sep EmptyString s.

(** [str(z)]. *)
Definition of_int (z : Z) : string :=
  NilZero.string_of_int (Z.to_int z).

(** [int(s)] on a plain decimal numeral; anything else raises ValueError. *)
Definition to_int (s : string) : result Z :=
  match NilZero.int_of_string s with
  | Some d => Ok (Z.of_int d)
  | None => Raise ValueError
  end.

End Str.

Module Seq.

(** [range(a, b)]. *)
Definition range (a b : Z) : list Z :=
  map (fun i => a + Z.of_nat i) (seq 0 (Z.to_nat (b - a))).

(** [l[i]] for [i >= 0]. *)
Definition index {A : Type} (l : list A) (i : nat) : result A :=
  match nth_error l i with
  | Some a => Ok a
  | None => Raise IndexError
  end.

(** [max(l, key=key)]: the first element whose key no later element
    exceeds; [gt] is Python's [>] on the keys. *)
Fixpoint max_from {A K : Type} (gt : K -> K -> bool) (key : A -> K)
    (best : A) (l : list A) : A :=
  match l with
  | [] => best
  | a :: l' => max_from gt key (if gt (key a) (key best) then a else best) l'
  end.

Definition max_by {A K : Type} (gt : K -> K -> bool) (key : A -> K)
    (l : list A) : result A :=
  match l with
  | [] => Raise ValueError
  | a :: l' => Ok (max_from gt key a l')
  end.

(** [next(x for x in l if p(x))]. *)
Definition next {A : Type} (p : A -> bool) (l : list A) : result A :=
  match find p l with
  | Some a => Ok a
  | None => Raise StopIteration
  end.

(** [min(l, key=key)]: the first element whose key no later element is
    below; [lt] is Python's [<] on the keys. *)
Definition min_by {A K : Type} (lt : K -> K -> bool) (key : A -> K)
    (l : list A) : result A :=
  match l with
  | [] => Raise ValueError
  | a :: l' => Ok (max_from lt key a l')
  end.

(** [sorted(l, key=key, reverse=True)] on int keys: descending, and stable
    (elements of equal key keep their order).  [insert_desc x l] puts [x],
    which precedes the elements of [l] in the input, in front of the
    first element whose key does not exceed its own. *)
Fixpoint insert_desc {A : Type} (key : A -> Z) (x : A) (l : list A) : list A :=
  match l with
  | [] => [x]
  | y :: l' =>
      if key y >? key x then y :: insert_desc key x l' else x :: y :: l'
  end.

Fixpoint sorted_desc {A : Type} (key : A -> Z) (l : list A) : list A :=
  match l with
  | [] => []
  | x :: l' => insert_desc key x (sorted_desc key l')
  end.

End Seq.

(** ** The random generator

    Python's [random] module keeps one process-wide generator.  Its state
    is threaded explicitly; the two primitives are the ones the module
    documents: [random()] returns a float in [0.0, 1.0) and [randint(a, b)]
    an int [N] with [a <= N <= b]. *)

Class Random : Type := {
  rng : Type;
  random : rng -> float * rng;
  randint : Z -> Z -> rng -> Z * rng;
  random_range : forall s,
    (0 <=? fst (random s))%float = true /\ (fst (random s) <? 1)%float = true;
  randint_range : forall a b s,
    a <= b -> a <= fst (randint a b s) <= b
}.

(** ** Computations that draw random numbers and may raise *)

Section Monad.

Context {R : Random}.

Definition M (A : Type) : Type := rng -> result (A * rng).

Definition ret {A : Type} (a : A) : M A :=
  fun s => Ok (a, s).

Definition bind {A B : Type} (m : M A) (f : A -> M B) : M B :=
  fun s =>
    match m s with
    | Ok (a, s') => f a s'
    | Raise e => Raise e
    end.

Definition lift {A : Type} (r : result A) : M A :=
  fun s =>
    match r with
    | Ok a => Ok (a, s)
    | Raise e => Raise e
    end.

Definition draw {A : Type} (f : rng -> A * rng) : M A :=
  fun s => Ok (f s).

(** [for x in l: out.append(body(x))]. *)
Fixpoint for_each {A B : Type} (l : list A) (body : A -> M B) : M (list B) :=
  match l with
  | [] => ret []
  | a :: l' =>
      bind (body a) (fun b =>
      bind (for_each l' body) (fun bs =>
      ret (b :: bs)))
  end.

End Monad.

Declare Scope monad_scope.
Delimit Scope monad_scope with monad.

Notation "x <- m ;; k" := (bind m (fun x => k))
  (at level 100, m at next level, right associativity) : monad_scope.
Notation "' p <- m ;; k" := (bind m (fun x => match x with p => k end))
  (at level 100, p pattern, m at next level, right associativity) : monad_scope.

Local Open Scope monad_scope.
Local Open Scope string_scope.

(** ** Response models (the pydantic classes of [backend.py]) *)

Module TrafficHourData.
Record t : Type := { hour : Z; count : Z; period : string }.
End TrafficHourData.

Module GateUtilizationData.
Record t : Type :=
  { gate_id : string; zone : string; count : Z; utilization_rate : float }.
End GateUtilizationData.

Module TrafficZoneData.
Record t : Type := { zone : string; count : Z; percentage : float }.
End TrafficZoneData.

Module DirectionBalanceData.
Record t : Type :=
  { zone : string; direction : string; count : Z; percentage : float }.
End DirectionBalanceData.

Module OperationalEfficiencySummary.
Record t : Type :=
  { morning_peak_transactions : Z;
    morning_peak_percentage : float;
    evening_peak_transactions : Z;
    evening_peak_percentage : float;
    avg_gate_utilization_rate : float;
    busiest_gate : string;
    busiest_zone : string }.
End OperationalEfficiencySummary.

Module OperationalEfficiencyResponse.
Record t : Type :=
  { date : string;
    total_transactions : Z;
    traffic_per_hour : list TrafficHourData.t;
    gate_utilization : list GateUtilizationData.t;
    traffic_by_zone : list TrafficZoneData.t;
    balance_direction : list DirectionBalanceData.t;
    summary : OperationalEfficiencySummary.t }.
End OperationalEfficiencyResponse.

Module AgeDistributionData.
Record t : Type := { age_range : string; count : Z; percentage : float }.
End AgeDistributionData.

Module OccupationDistributionData.
Record t : Type := { occupation : string; count : Z; percentage : float }.
End OccupationDistributionData.

Module GenderDistributionData.
Record t : Type := { gender : string; count : Z; percentage : float }.
End GenderDistributionData.

Module OriginStationData.
Record t : Type := { station : string; count : Z; percentage : float }.
End OriginStationData.

Module DemografiSummary.
Record t : Type :=
  { average_age : float;
    productive_age_passengers : Z;
    productive_age_percentage : float;
    worker_passengers : Z;
    worker_percentage : float;
    dominant_origin_station : string }.
End DemografiSummary.

Module DemografiResponse.
Record t : Type :=
  { date : string;
    total_passengers : Z;
    age_distribution : list AgeDistributionData.t;
    occupation_distribution : list OccupationDistributionData.t;
    gender_distribution : list GenderDistributionData.t;
    origin_station_distribution : list OriginStationData.t;
    summary : DemografiSummary.t }.
End DemografiResponse.

Module OriginDistributionData.
Record t : Type := { station : string; count : Z; percentage : float }.
End OriginDistributionData.

Module DirectionDistributionData.
Record t : Type := { direction : string; count : Z; percentage : float }.
End DirectionDistributionData.

Module TimeTravelData.
Record t : Type := { time_segment : string; count : Z; percentage : float }.
End TimeTravelData.

Module SegmentasiPerjalananSummary.
Record t : Type :=
  { top_origin_station : string;
    top_origin_count : Z;
    top_origin_percentage : float;
    dominant_direction : string;
    dominant_time_segment : string;
    dominant_time_percentage : float }.
End SegmentasiPerjalananSummary.

Module SegmentasiPerjalananResponse.
Record t : Type :=
  { date : string;
    total_transactions : Z;
    origin_distribution : list OriginDistributionData.t;
    direction_distribution : list DirectionDistributionData.t;
    time_travel_distribution : list TimeTravelData.t;
    summary : SegmentasiPerjalananSummary.t }.
End SegmentasiPerjalananResponse.

Module LoyaltySegmentData.
Record t : Type :=
  { segment : string; count : Z; percentage : float;
    min_freq : Z; max_freq : Z }.
End LoyaltySegmentData.

Module LoyaltyByOccupationData.
Record t : Type := { occupation : string; avg_frequency : float; count : Z }.
End LoyaltyByOccupationData.

Module SegmentasiLoyaltasSummary.
Record t : Type :=
  { high_loyalty_count : Z;
    high_loyalty_percentage : float;
    loyal_workers_count : Z;
    loyal_workers_percentage : float;
    most_loyal_occupation : string;
    most_loyal_occupation_avg_freq : float }.
End SegmentasiLoyaltasSummary.

Module SegmentasiLoyaltasResponse.
Record t : Type :=
  { date : string;
    total_passengers : Z;
    loyalty_segments : list LoyaltySegmentData.t;
    loyalty_by_occupation : list LoyaltyByOccupationData.t;
    summary : SegmentasiLoyaltasSummary.t }.
End SegmentasiLoyaltasResponse.

Module AgeLoyaltyCorrelationData.
Record t : Type := { age : Z; avg_loyalty_frequency : float; count : Z }.
End AgeLoyaltyCorrelationData.

Module HourGenderData.
Record t : Type :=
  { hour : Z; pria_count : Z; wanita_count : Z;
    pria_percentage : float; wanita_percentage : float }.
End HourGenderData.

Module OccupationZonePreferenceData.
Record t : Type :=
  { occupation : string; north_count : Z; west_count : Z;
    preference : string }.
End OccupationZonePreferenceData.

Module BehaviorCorrelationSummary.
Record t : Type :=
  { age_loyalty_insight : string;
    young_avg_loyalty : Py.number;
    senior_avg_loyalty : Py.number;
    dominant_gender_morning : string;
    dominant_gender_evening : string;
    strong_zone_preference_count : Z }.
End BehaviorCorrelationSummary.

Module BehaviorCorrelationResponse.
Record t : Type :=
  { date : string;
    age_loyalty_correlation : list AgeLoyaltyCorrelationData.t;
    hour_gender_distribution : list HourGenderData.t;
    occupation_zone_preference : list OccupationZonePreferenceData.t;
    summary : BehaviorCorrelationSummary.t }.
End BehaviorCorrelationResponse.

(** ** Data generation helpers *)

Section Generators.

Context {R : Random}.

(** The string [get_date()] returns: the current date, formatted. *)
Variable get_date : string.

(** [date or get_date()]: [None] and the empty string are both false. *)
Definition date_or_today (date : option string) : string :=
  match date with
  | Some d => if (d =? "")%string then get_date else d
  | None => get_date
  end.

(** [random.uniform(a, b)] is [a + (b - a) * random()]. *)
Definition uniform (a b : float) : M float :=
  r <- draw random ;;
  ret (a + (b - a) * r)%float.

Definition generate_daily_data (base_value : Z) (variance : float) : M Z :=
  u <- uniform (- variance)%float variance ;;
  lift (Py.int_of_float (Py.float_of_int base_value * (Py.float_of_int 1 + u))%float).

(** [round((count / total) * 100, nd)], the expression behind every
    percentage and rate of the reports. *)
Definition percent_of (count total : Z) (nd : N) : result float :=
  match Py.int_truediv count total with
  | Ok q => Ok (Py.round (q * Py.float_of_int 100)%float nd)
  | Raise e => Raise e
  end.

Definition percent (count total : Z) (nd : N) : M float :=
  lift (percent_of count total nd).

Definition between (lo x hi : Z) : bool := ((lo <=? x) && (x <=? hi))%Z.

(** ** Kategori 1: Operational Efficiency *)

Definition get_operational_efficiency (date : option string)
  : M OperationalEfficiencyResponse.t :=
  let target_date := date_or_today date in
  total_transactions <- draw (randint 4000 6000) ;;
  traffic_per_hour <- for_each (Seq.range 6 23) (fun hour =>
    '(base_count, period) <-
       (if between 7 hour 9 then
          b <- draw (randint 400 600) ;; ret (b, "Morning Peak")
        else if between 16 hour 19 then
          b <- draw (randint 400 600) ;; ret (b, "Evening Peak")
        else
          b <- draw (randint 50 200) ;; ret (b, "")) ;;
    count <- generate_daily_data base_count 0.15 ;;
    ret {| TrafficHourData.hour := hour;
           TrafficHourData.count := count;
           TrafficHourData.period := period |}) ;;
  let zones := ["North"; "West"] in
  gates_by_zone <- for_each zones (fun zone =>
    for_each (Seq.range 1 5) (fun i =>
      let gate_id := "TAP-" ++ Str.upper zone ++ "-00" ++ Str.of_int i in
      base_count <- (if (zone =? "North")%string
                     then draw (randint 450 650)
                     else draw (randint 400 600)) ;;
      count <- generate_daily_data base_count 0.2 ;;
      utilization_rate <- percent count total_transactions 2 ;;
      ret {| GateUtilizationData.gate_id := gate_id;
             GateUtilizationData.zone := zone;
             GateUtilizationData.count := count;
             GateUtilizationData.utilization_rate := utilization_rate |})) ;;
  let gate_utilization := List.concat gates_by_zone in
  let zone_count z :=
    Py.isum (map GateUtilizationData.count
               (filter (fun g => (GateUtilizationData.zone g =? z)%string)
                       gate_utilization)) in
  let north_count := zone_count "North" in
  let west_count := zone_count "West" in
  north_percentage <- percent north_count total_transactions 1 ;;
  west_percentage <- percent west_count total_transactions 1 ;;
  let traffic_by_zone :=
    [ {| TrafficZoneData.zone := "TAP-NORTH";
         TrafficZoneData.count := north_count;
         TrafficZoneData.percentage := north_percentage |};
      {| TrafficZoneData.zone := "TAP-WEST";
         TrafficZoneData.count := west_count;
         TrafficZoneData.percentage := west_percentage |} ] in
  balance_by_zone <- for_each traffic_by_zone (fun zone_data =>
    let zone_name := Str.replace "TAP-" "" (TrafficZoneData.zone zone_data) in
    for_each ["IN"; "OUT"] (fun direction =>
      u <- uniform 0.45 0.55 ;;
      count <- lift (Py.int_of_float
                 (Py.float_of_int (TrafficZoneData.count zone_data) * u)%float) ;;
      percentage <- percent count (TrafficZoneData.count zone_data) 1 ;;
      ret {| DirectionBalanceData.zone := zone_name;
             DirectionBalanceData.direction := direction;
             DirectionBalanceData.count := count;
             DirectionBalanceData.percentage := percentage |})) ;;
  let balance_direction := List.concat balance_by_zone in
  let peak lo hi :=
    Py.isum (map TrafficHourData.count
               (filter (fun t => between lo (TrafficHourData.hour t) hi)
                       traffic_per_hour)) in
  let morning_peak := peak 7 9 in
  let evening_peak := peak 16 19 in
  avg_gate_util <- lift (Py.truediv
    (Py.sum (map (fun g => Py.Float (GateUtilizationData.utilization_rate g))
                 gate_utilization))
    (Py.Int (Z.of_nat (List.length gate_utilization)))) ;;
  morning_peak_percentage <- percent morning_peak total_transactions 1 ;;
  evening_peak_percentage <- percent evening_peak total_transactions 1 ;;
  busiest_gate <- lift (Seq.max_by Z.gtb GateUtilizationData.count gate_utilization) ;;
  busiest_zone <- lift (Seq.max_by Z.gtb TrafficZoneData.count traffic_by_zone) ;;
  let summary :=
    {| OperationalEfficiencySummary.morning_peak_transactions := morning_peak;
       OperationalEfficiencySummary.morning_peak_percentage := morning_peak_percentage;
       OperationalEfficiencySummary.evening_peak_transactions := evening_peak;
       OperationalEfficiencySummary.evening_peak_percentage := evening_peak_percentage;
       OperationalEfficiencySummary.avg_gate_utilization_rate := Py.round avg_gate_util 2;
       OperationalEfficiencySummary.busiest_gate := GateUtilizationData.gate_id busiest_gate;
       OperationalEfficiencySummary.busiest_zone := TrafficZoneData.zone busiest_zone |} in
  ret {| OperationalEfficiencyResponse.date := target_date;
         OperationalEfficiencyResponse.total_transactions := total_transactions;
         OperationalEfficiencyResponse.traffic_per_hour := traffic_per_hour;
         OperationalEfficiencyResponse.gate_utilization := gate_utilization;
         OperationalEfficiencyResponse.traffic_by_zone := traffic_by_zone;
         OperationalEfficiencyResponse.balance_direction := balance_direction;
         OperationalEfficiencyResponse.summary := summary |}.

(** ** Kategori 3: Profil Demografi Penumpang *)

(** [x in l] for a list of strings. *)
Definition str_in (x : string) (l : list string) : bool :=
  existsb (String.eqb x) l.

(** The list literals of [(label, random.randint(lo, hi))] pairs: the draws
    are made in list order when the literal is evaluated. *)
Definition draw_bases (spec : list (string * (Z * Z))) : M (list (string * Z)) :=
  for_each spec (fun '(label, (lo, hi)) =>
    b <- draw (randint lo hi) ;; ret (label, b)).

(** The term of one age-range label in the [average_age] sum: the midpoint
    of ["a-b"], and 60 for a label without a dash. *)
Definition age_midpoint (age_range : string) : M Py.number :=
  if Str.contains "-" age_range then
    lo_s <- lift (Seq.index (Str.split "-" age_range) 0) ;;
    lo <- lift (Str.to_int lo_s) ;;
    hi_s <- lift (Seq.index (Str.split "-" age_range) 1) ;;
    hi <- lift (Str.to_int hi_s) ;;
    m <- lift (Py.int_truediv (lo + hi) 2) ;;
    ret (Py.Float m)
  else ret (Py.Int 60).

Definition get_demografi (date : option string) : M DemografiResponse.t :=
  let target_date := date_or_today date in
  total_passengers <- draw (randint 3500 5000) ;;
  age_ranges <- draw_bases
    [ ("18-24", (300, 500)); ("25-34", (800, 1200)); ("35-44", (1000, 1500));
      ("45-54", (700, 1000)); ("55+", (200, 400)) ] ;;
  age_distribution <- for_each age_ranges (fun '(age_range, base_count) =>
    count <- generate_daily_data base_count 0.1 ;;
    percentage <- percent count total_passengers 1 ;;
    ret {| AgeDistributionData.age_range := age_range;
           AgeDistributionData.count := count;
           AgeDistributionData.percentage := percentage |}) ;;
  occupations <- draw_bases
    [ ("Karyawan Swasta", (1500, 2200)); ("PNS/BUMN", (600, 900));
      ("Pelajar/Mahasiswa", (400, 700)); ("Wiraswasta", (500, 800));
      ("Wisatawan", (100, 300)) ] ;;
  occupation_distribution <- for_each occupations (fun '(occupation, base_count) =>
    count <- generate_daily_data base_count 0.15 ;;
    percentage <- percent count total_passengers 1 ;;
    ret {| OccupationDistributionData.occupation := occupation;
           OccupationDistributionData.count := count;
           OccupationDistributionData.percentage := percentage |}) ;;
  pria_base <- lift (Py.int_of_float (Py.float_of_int total_passengers * 0.52)%float) ;;
  pria_count <- generate_daily_data pria_base 0.05 ;;
  let wanita_count := (total_passengers - pria_count)%Z in
  pria_percentage <- percent pria_count total_passengers 1 ;;
  wanita_percentage <- percent wanita_count total_passengers 1 ;;
  let gender_distribution :=
    [ {| GenderDistributionData.gender := "Pria";
         GenderDistributionData.count := pria_count;
         GenderDistributionData.percentage := pria_percentage |};
      {| GenderDistributionData.gender := "Wanita";
         GenderDistributionData.count := wanita_count;
         GenderDistributionData.percentage := wanita_percentage |} ] in
  stations <- draw_bases
    [ ("Bekasi", (700, 1000)); ("Cikarang", (400, 600)); ("Depok", (500, 700));
      ("Bogor", (400, 600)); ("Tangerang", (300, 500)); ("Sudirman", (300, 500));
      ("Karet", (300, 500)); ("Pasar Minggu", (100, 300));
      ("Tanah Abang", (200, 400)) ] ;;
  origin_station_distribution <- for_each stations (fun '(station, base_count) =>
    count <- generate_daily_data base_count 0.2 ;;
    percentage <- percent count total_passengers 1 ;;
    ret {| OriginStationData.station := station;
           OriginStationData.count := count;
           OriginStationData.percentage := percentage |}) ;;
  midpoints <- for_each age_ranges (fun '(age_range, _) => age_midpoint age_range) ;;
  avg_age <- lift (Py.truediv (Py.sum midpoints)
                              (Py.Int (Z.of_nat (List.length age_ranges)))) ;;
  let productive_age :=
    Py.isum (map AgeDistributionData.count
               (filter (fun a => str_in (AgeDistributionData.age_range a)
                                        ["25-34"; "35-44"])
                       age_distribution)) in
  let workers :=
    Py.isum (map OccupationDistributionData.count
               (filter (fun o => str_in (OccupationDistributionData.occupation o)
                                        ["Karyawan Swasta"; "PNS/BUMN"])
                       occupation_distribution)) in
  productive_age_percentage <- percent productive_age total_passengers 1 ;;
  worker_percentage <- percent workers total_passengers 1 ;;
  dominant <- lift (Seq.max_by Z.gtb OriginStationData.count
                               origin_station_distribution) ;;
  let summary :=
    {| DemografiSummary.average_age := Py.round avg_age 1;
       DemografiSummary.productive_age_passengers := productive_age;
       DemografiSummary.productive_age_percentage := productive_age_percentage;
       DemografiSummary.worker_passengers := workers;
       DemografiSummary.worker_percentage := worker_percentage;
       DemografiSummary.dominant_origin_station := OriginStationData.station dominant |} in
  ret {| DemografiResponse.date := target_date;
         DemografiResponse.total_passengers := total_passengers;
         DemografiResponse.age_distribution := age_distribution;
         DemografiResponse.occupation_distribution := occupation_distribution;
         DemografiResponse.gender_distribution := gender_distribution;
         DemografiResponse.origin_station_distribution := origin_station_distribution;
         DemografiResponse.summary := summary |}.

(** ** Kategori 4: Segmentasi Perjalanan *)

Definition get_segmentasi_perjalanan (date : option string)
  : M SegmentasiPerjalananResponse.t :=
  let target_date := date_or_today date in
  total_transactions <- draw (randint 4000 6000) ;;
  stations <- draw_bases
    [ ("Bekasi", (700, 1000)); ("Cikarang", (400, 600)); ("Depok", (500, 700));
      ("Bogor", (400, 600)); ("Tangerang", (300, 500)); ("Sudirman", (300, 500));
      ("Karet", (300, 500)); ("Pasar Minggu", (100, 300));
      ("Tanah Abang", (200, 400)) ] ;;
  origin_distribution <- for_each stations (fun '(station, base_count) =>
    count <- generate_daily_data base_count 0.2 ;;
    percentage <- percent count total_transactions 1 ;;
    ret {| OriginDistributionData.station := station;
           OriginDistributionData.count := count;
           OriginDistributionData.percentage := percentage |}) ;;
  in_base <- lift (Py.int_of_float (Py.float_of_int total_transactions * 0.51)%float) ;;
  in_count <- generate_daily_data in_base 0.03 ;;
  let out_count := (total_transactions - in_count)%Z in
  in_percentage <- percent in_count total_transactions 1 ;;
  out_percentage <- percent out_count total_transactions 1 ;;
  let direction_distribution :=
    [ {| DirectionDistributionData.direction := "IN";
         DirectionDistributionData.count := in_count;
         DirectionDistributionData.percentage := in_percentage |};
      {| DirectionDistributionData.direction := "OUT";
         DirectionDistributionData.count := out_count;
         DirectionDistributionData.percentage := out_percentage |} ] in
  morning_base <- draw (randint 1200 1800) ;;
  evening_base <- draw (randint 1200 1800) ;;
  off_peak_base <- draw (randint 600 1000) ;;
  morning_count <- generate_daily_data morning_base 0.15 ;;
  evening_count <- generate_daily_data evening_base 0.15 ;;
  off_peak_count <- generate_daily_data off_peak_base 0.2 ;;
  let time_travel_unset :=
    [ {| TimeTravelData.time_segment := "Morning (07:00-09:00)";
         TimeTravelData.count := morning_count;
         TimeTravelData.percentage := 0 |};
      {| TimeTravelData.time_segment := "Evening (16:00-19:00)";
         TimeTravelData.count := evening_count;
         TimeTravelData.percentage := 0 |};
      {| TimeTravelData.time_segment := "Off-Peak";
         TimeTravelData.count := off_peak_count;
         TimeTravelData.percentage := 0 |} ] in
  time_travel_distribution <- for_each time_travel_unset (fun tt =>
    percentage <- percent (TimeTravelData.count tt) total_transactions 1 ;;
    ret {| TimeTravelData.time_segment := TimeTravelData.time_segment tt;
           TimeTravelData.count := TimeTravelData.count tt;
           TimeTravelData.percentage := percentage |}) ;;
  top_origin <- lift (Seq.max_by Z.gtb OriginDistributionData.count
                                 origin_distribution) ;;
  dominant_direction <- lift (Seq.max_by Z.gtb DirectionDistributionData.count
                                         direction_distribution) ;;
  dominant_time <- lift (Seq.max_by Z.gtb TimeTravelData.count
                                    time_travel_distribution) ;;
  let summary :=
    {| SegmentasiPerjalananSummary.top_origin_station :=
         OriginDistributionData.station top_origin;
       SegmentasiPerjalananSummary.top_origin_count :=
         OriginDistributionData.count top_origin;
       SegmentasiPerjalananSummary.top_origin_percentage :=
         OriginDistributionData.percentage top_origin;
       SegmentasiPerjalananSummary.dominant_direction :=
         DirectionDistributionData.direction dominant_direction;
       SegmentasiPerjalananSummary.dominant_time_segment :=
         TimeTravelData.time_segment dominant_time;
       SegmentasiPerjalananSummary.dominant_time_percentage :=
         TimeTravelData.percentage dominant_time |} in
  ret {| SegmentasiPerjalananResponse.date := target_date;
         SegmentasiPerjalananResponse.total_transactions := total_transactions;
         SegmentasiPerjalananResponse.origin_distribution := origin_distribution;
         SegmentasiPerjalananResponse.direction_distribution := direction_distribution;
         SegmentasiPerjalananResponse.time_travel_distribution := time_travel_distribution;
         SegmentasiPerjalananResponse.summary := summary |}.

(** ** Kategori 5: Segmentasi Loyalitas *)

Definition get_segmentasi_loyaltas (date : option string)
  : M SegmentasiLoyaltasResponse.t :=
  let target_date := date_or_today date in
  total_passengers <- draw (randint 3500 5000) ;;
  high_base <- draw (randint 1200 1800) ;;
  medium_base <- draw (randint 1000 1500) ;;
  low_base <- draw (randint 800 1200) ;;
  high_count <- generate_daily_data high_base 0.15 ;;
  medium_count <- generate_daily_data medium_base 0.15 ;;
  low_count <- generate_daily_data low_base 0.2 ;;
  let loyalty_unset :=
    [ {| LoyaltySegmentData.segment := "High Loyalty (≥12x)";
         LoyaltySegmentData.count := high_count;
         LoyaltySegmentData.percentage := 0;
         LoyaltySegmentData.min_freq := 12;
         LoyaltySegmentData.max_freq := 14 |};
      {| LoyaltySegmentData.segment := "Medium Loyalty (7-11x)";
         LoyaltySegmentData.count := medium_count;
         LoyaltySegmentData.percentage := 0;
         LoyaltySegmentData.min_freq := 7;
         LoyaltySegmentData.max_freq := 11 |};
      {| LoyaltySegmentData.segment := "Low Loyalty (<7x)";
         LoyaltySegmentData.count := low_count;
         LoyaltySegmentData.percentage := 0;
         LoyaltySegmentData.min_freq := 1;
         LoyaltySegmentData.max_freq := 6 |} ] in
  let total_loyalty := Py.isum (map LoyaltySegmentData.count loyalty_unset) in
  loyalty_segments <- for_each loyalty_unset (fun ls =>
    percentage <- percent (LoyaltySegmentData.count ls) total_loyalty 1 ;;
    ret {| LoyaltySegmentData.segment := LoyaltySegmentData.segment ls;
           LoyaltySegmentData.count := LoyaltySegmentData.count ls;
           LoyaltySegmentData.percentage := percentage;
           LoyaltySegmentData.min_freq := LoyaltySegmentData.min_freq ls;
           LoyaltySegmentData.max_freq := LoyaltySegmentData.max_freq ls |}) ;;
  occupations_base <- for_each
    [ ("Karyawan Swasta", (8.0, 10.0)%float, (1500, 2200)%Z);
      ("PNS/BUMN", (8.5, 10.5)%float, (600, 900)%Z);
      ("Pelajar/Mahasiswa", (5.0, 7.0)%float, (400, 700)%Z);
      ("Wiraswasta", (6.0, 8.0)%float, (500, 800)%Z);
      ("Wisatawan", (2.0, 4.0)%float, (100, 300)%Z) ]
    (fun '(occupation, (flo, fhi), (lo, hi)) =>
      f <- uniform flo fhi ;;
      c <- draw (randint lo hi) ;;
      ret (occupation, Py.round f 1, c)) ;;
  loyalty_by_occupation <- for_each occupations_base
    (fun '(occupation, avg_freq, count) =>
      u <- uniform (-0.5) 0.5 ;;
      c <- generate_daily_data count 0.1 ;;
      ret {| LoyaltyByOccupationData.occupation := occupation;
             LoyaltyByOccupationData.avg_frequency := Py.round (avg_freq + u)%float 1;
             LoyaltyByOccupationData.count := c |}) ;;
  high_loyalty <- lift (Seq.next
    (fun ls => Str.contains "High" (LoyaltySegmentData.segment ls))
    loyalty_segments) ;;
  let loyal_workers :=
    Py.isum (map LoyaltyByOccupationData.count
               (filter (fun lo => str_in (LoyaltyByOccupationData.occupation lo)
                                         ["Karyawan Swasta"; "PNS/BUMN"])
                       loyalty_by_occupation)) in
  most_loyal_occupation <- lift (Seq.max_by (fun a b => (b <? a)%float)
    LoyaltyByOccupationData.avg_frequency loyalty_by_occupation) ;;
  loyal_workers_percentage <- percent loyal_workers total_passengers 1 ;;
  let summary :=
    {| SegmentasiLoyaltasSummary.high_loyalty_count :=
         LoyaltySegmentData.count high_loyalty;
       SegmentasiLoyaltasSummary.high_loyalty_percentage :=
         LoyaltySegmentData.percentage high_loyalty;
       SegmentasiLoyaltasSummary.loyal_workers_count := loyal_workers;
       SegmentasiLoyaltasSummary.loyal_workers_percentage := loyal_workers_percentage;
       SegmentasiLoyaltasSummary.most_loyal_occupation :=
         LoyaltyByOccupationData.occupation most_loyal_occupation;
       SegmentasiLoyaltasSummary.most_loyal_occupation_avg_freq :=
         LoyaltyByOccupationData.avg_frequency most_loyal_occupation |} in
  ret {| SegmentasiLoyaltasResponse.date := target_date;
         SegmentasiLoyaltasResponse.total_passengers := total_passengers;
         SegmentasiLoyaltasResponse.loyalty_segments := loyalty_segments;
         SegmentasiLoyaltasResponse.loyalty_by_occupation := loyalty_by_occupation;
         SegmentasiLoyaltasResponse.summary := summary |}.

(** ** Kategori Korelasi Behavior *)

Definition age_groups : list (Z * float) :=
  [ (22, 6.5%float); (28, 7.2%float); (35, 8.5%float); (45, 9.0%float);
    (55, 7.0%float) ].

Definition occupation_zone_base : list (string * float * float) :=
  [ ("Karyawan Swasta", 0.52, 0.48);
    ("PNS/BUMN", 0.60, 0.40);
    ("Pelajar/Mahasiswa", 0.48, 0.52);
    ("Wiraswasta", 0.50, 0.50);
    ("Wisatawan", 0.35, 0.65) ]%float.

(** The [if]/[elif]/[else] that labels an occupation's zone preference. *)
Definition zone_preference (north_ratio west_ratio : float) : string :=
  if (0.55 <? north_ratio)%float then "North"
  else if (0.55 <? west_ratio)%float then "West"
  else "Neutral".

(** [sum(item.avg_loyalty_frequency * item.count for item in items)]. *)
Definition loyalty_weight (items : list AgeLoyaltyCorrelationData.t) : Py.number :=
  Py.sum (map (fun item =>
                 Py.Float (AgeLoyaltyCorrelationData.avg_loyalty_frequency item
                           * Py.float_of_int (AgeLoyaltyCorrelationData.count item))%float)
              items).

(** [weight / count if count > 0 else 0]. *)
Definition guarded_average (weight : Py.number) (count : Z) : result Py.number :=
  if (0 <? count)%Z then
    match Py.truediv weight (Py.Int count) with
    | Ok q => Ok (Py.Float q)
    | Raise e => Raise e
    end
  else Ok (Py.Int 0).

(** ["Pria" if h.pria_percentage > 50 else "Wanita"]. *)
Definition dominant_gender (h : HourGenderData.t) : string :=
  if (Py.float_of_int 50 <? HourGenderData.pria_percentage h)%float
  then "Pria" else "Wanita".

Definition get_behavior_correlation (date : option string)
  : M BehaviorCorrelationResponse.t :=
  let target_date := date_or_today date in
  age_loyalty_correlation <- for_each age_groups (fun '(age, base_freq) =>
    base_count <- draw (randint 400 800) ;;
    count <- generate_daily_data base_count 0.2 ;;
    u <- uniform (-1.0) 1.0 ;;
    let avg_freq := Py.round (base_freq + u)%float 1 in
    ret {| AgeLoyaltyCorrelationData.age := age;
           AgeLoyaltyCorrelationData.avg_loyalty_frequency := avg_freq;
           AgeLoyaltyCorrelationData.count := count |}) ;;
  hour_gender_distribution <- for_each (Seq.range 6 23) (fun hour =>
    base_count <- draw (randint 50 600) ;;
    u <- uniform (-0.05) 0.05 ;;
    let pria_pct :=
      (if between 6 hour 11 then 0.55 + u
       else if between 16 hour 19 then 0.45 + u
       else 0.50 + u)%float in
    total <- generate_daily_data base_count 0.15 ;;
    pria_count <- lift (Py.int_of_float (Py.float_of_int total * pria_pct)%float) ;;
    let wanita_count := (total - pria_count)%Z in
    pria_percentage <- percent pria_count total 1 ;;
    wanita_percentage <- percent wanita_count total 1 ;;
    ret {| HourGenderData.hour := hour;
           HourGenderData.pria_count := pria_count;
           HourGenderData.wanita_count := wanita_count;
           HourGenderData.pria_percentage := pria_percentage;
           HourGenderData.wanita_percentage := wanita_percentage |}) ;;
  occupation_zone_preference <- for_each occupation_zone_base
    (fun '(occupation, north_ratio, west_ratio) =>
      base <- draw (randint 200 1000) ;;
      total <- generate_daily_data base 0.2 ;;
      north_count <- lift (Py.int_of_float (Py.float_of_int total * north_ratio)%float) ;;
      let west_count := (total - north_count)%Z in
      let pref := zone_preference north_ratio west_ratio in
      ret {| OccupationZonePreferenceData.occupation := occupation;
             OccupationZonePreferenceData.north_count := north_count;
             OccupationZonePreferenceData.west_count := west_count;
             OccupationZonePreferenceData.preference := pref |}) ;;
  let young := firstn 2 age_loyalty_correlation in
  let avg_young_loyalty := loyalty_weight young in
  let avg_young_count := Py.isum (map AgeLoyaltyCorrelationData.count young) in
  young_avg <- lift (guarded_average avg_young_loyalty avg_young_count) ;;
  let senior := skipn 3 age_loyalty_correlation in
  let avg_senior_loyalty := loyalty_weight senior in
  let avg_senior_count := Py.isum (map AgeLoyaltyCorrelationData.count senior) in
  senior_avg <- lift (guarded_average avg_senior_loyalty avg_senior_count) ;;
  morning <- lift (Seq.index hour_gender_distribution 1) ;;
  evening <- lift (Seq.index hour_gender_distribution 14) ;;
  let summary :=
    {| BehaviorCorrelationSummary.age_loyalty_insight :=
         if Py.gt senior_avg young_avg then "Positif" else "Negatif/Netral";
       BehaviorCorrelationSummary.young_avg_loyalty := Py.round_number young_avg 1;
       BehaviorCorrelationSummary.senior_avg_loyalty := Py.round_number senior_avg 1;
       BehaviorCorrelationSummary.dominant_gender_morning := dominant_gender morning;
       BehaviorCorrelationSummary.dominant_gender_evening := dominant_gender evening;
       BehaviorCorrelationSummary.strong_zone_preference_count :=
         Z.of_nat (List.length
           (filter (fun item =>
                      negb (OccupationZonePreferenceData.preference item =? "Neutral")%string)
                   occupation_zone_preference)) |} in
  ret {| BehaviorCorrelationResponse.date := target_date;
         BehaviorCorrelationResponse.age_loyalty_correlation := age_loyalty_correlation;
         BehaviorCorrelationResponse.hour_gender_distribution := hour_gender_distribution;
         BehaviorCorrelationResponse.occupation_zone_preference := occupation_zone_preference;
         BehaviorCorrelationResponse.summary := summary |}.

End Generators.

(** ** Combined data: [get_all_data]

    The endpoint fetches the five reports one after the other for one
    target date, passes each through a [transform_*_keys] function that
    renames its keys and computes an "insight" block, and assembles a
    dashboard summary.  Embedded here: the fetch, every operation of the
    transforms that can raise, the values the transforms compute and the
    texts built from strings and ints.  Not embedded: the renamed copies
    of the report fields (they are the fields of the reports), the texts
    that format a float, and the constant recommendation texts. *)

Module OpsEffInsight.
Record t : Type :=
  { pola_trafik : string;
    intensitas_peak : string;
    keseimbangan_gate : string;
    rekomendasi_optimalisasi : string }.
End OpsEffInsight.

Module DemogInsight.
Record t : Type :=
  { segmen_pasar_utama : string;
    pria_pct : float;
    wanita_pct : float;
    rasio_gender : string;
    stasiun_prioritas : string;
    rasio_usia : Py.number }.
End DemogInsight.

Module SegPerjInsight.
Record t : Type :=
  { in_pct : float;
    out_pct : float;
    morning_pct : float;
    evening_pct : float;
    tipe_penumpang : string;
    analisis_origin : string }.
End SegPerjInsight.

Module SegLoyInsight.
Record t : Type :=
  { persentase_loyal_tinggi : float;
    persentase_loyal_sedang : float;
    persentase_loyal_rendah : float;
    jumlah_loyal_tinggi : Z;
    jumlah_loyal_sedang : Z;
    jumlah_loyal_rendah : Z;
    strategi_loyal : string;
    rekomendasi_high : string;
    rekomendasi_medium : string;
    rekomendasi_low : string;
    most_loyal_occ : string;
    most_loyal_freq : float;
    persentase_dari_total : list float }.
End SegLoyInsight.

Module BehCorrInsight.
Record t : Type :=
  { young_avg : float;
    senior_avg : float;
    korelasi_usia : string;
    morning_gender_dom : string;
    evening_gender_dom : string;
    jumlah_preferensi_kuat : Z;
    pola_gender_waktu : string;
    analisis_zona_pola : string;
    promosi_morning : string;
    promosi_sore : string }.
End BehCorrInsight.

Module DashboardSummary.
Record t : Type :=
  { total_transaksi : Z;
    total_penumpang_unik : Z;
    high_loyalty_persentase : float;
    gate_tersibuk : string;
    gate_id_full : string;
    morning_peak_persentase : float;
    evening_peak_persentase : float;
    usia : float;
    stasiun_asal_dominan : string;
    stasiun_asal_persentase : float }.
End DashboardSummary.

Module AllData.
Record t : Type :=
  { tanggal : string;
    dashboard_summary : DashboardSummary.t;
    efisiensi_operasional : OperationalEfficiencyResponse.t * OpsEffInsight.t;
    demografi : DemografiResponse.t * DemogInsight.t;
    segmentasi_perjalanan : SegmentasiPerjalananResponse.t * SegPerjInsight.t;
    segmentasi_loyaltas : SegmentasiLoyaltasResponse.t * SegLoyInsight.t;
    korelasi_perilaku : BehaviorCorrelationResponse.t * BehCorrInsight.t }.
End AllData.

(** Sequencing of results: the first exception wins. *)
Definition and_then {A B : Type} (r : result A) (k : A -> result B) : result B :=
  match r with
  | Ok a => k a
  | Raise e => Raise e
  end.

(** [[f(x) for x in l]] for an [f] that may raise. *)
Fixpoint map_result {A B : Type} (f : A -> result B) (l : list A)
  : result (list B) :=
  match l with
  | [] => Ok []
  | a :: l' =>
      and_then (f a) (fun b =>
      and_then (map_result f l') (fun bs => Ok (b :: bs)))
  end.

Definition transform_ops_eff_keys (data : OperationalEfficiencyResponse.t)
  : result OpsEffInsight.t :=
  let summary := OperationalEfficiencyResponse.summary data in
  let morning_pct := OperationalEfficiencySummary.morning_peak_percentage summary in
  let evening_pct := OperationalEfficiencySummary.evening_peak_percentage summary in
  let pola_trafik :=
    if (Py.float_of_int 35 <? morning_pct)%float then "morning_peak"
    else if (Py.float_of_int 35 <? evening_pct)%float then "evening_peak"
    else "neutral" in
  let gate_utils :=
    map GateUtilizationData.utilization_rate
      (OperationalEfficiencyResponse.gate_utilization data) in
  and_then (Seq.min_by PrimFloat.ltb (fun u => u) gate_utils) (fun min_util =>
  and_then (Seq.max_by (fun a b => (b <? a)%float) (fun u => u) gate_utils)
    (fun max_util =>
  let selisih_util := (max_util - min_util)%float in
  let '(keseimbangan_gate, rekomendasi_gate) :=
    if (Py.float_of_int 15 <? selisih_util)%float
    then ("tidak_seimbang", "Re-allocate petugas dari gate sepi ke gate sibuk")
    else ("seimbang", "Distribusi petugas sudah optimal") in
  let total_peak := (morning_pct + evening_pct)%float in
  let intensitas_peak :=
    if (Py.float_of_int 65 <? total_peak)%float then "sangat_tinggi"
    else if (Py.float_of_int 50 <? total_peak)%float then "tinggi"
    else "sedang" in
  Ok {| OpsEffInsight.pola_trafik := pola_trafik;
        OpsEffInsight.intensitas_peak := intensitas_peak;
        OpsEffInsight.keseimbangan_gate := keseimbangan_gate;
        OpsEffInsight.rekomendasi_optimalisasi := rekomendasi_gate |})).

Definition transform_demog_keys (data : DemografiResponse.t)
  : result DemogInsight.t :=
  let summary := DemografiResponse.summary data in
  let productive_pct := DemografiSummary.productive_age_percentage summary in
  let worker_pct := DemografiSummary.worker_percentage summary in
  let segmen_pasar_utama :=
    if (Py.float_of_int 60 <? productive_pct)%float then "Usia Produktif Dominan"
    else if (Py.float_of_int 70 <? worker_pct)%float then "Pekerja Dominan"
    else "Campuran Beragam" in
  let gender_data := DemografiResponse.gender_distribution data in
  and_then (Seq.next (fun g => GenderDistributionData.gender g =? "Pria")
              gender_data) (fun pria =>
  and_then (Seq.next (fun g => GenderDistributionData.gender g =? "Wanita")
              gender_data) (fun wanita =>
  let pria_pct := GenderDistributionData.percentage pria in
  let wanita_pct := GenderDistributionData.percentage wanita in
  let rasio_gender :=
    if (abs (pria_pct - wanita_pct) <? Py.float_of_int 10)%float then "Seimbang"
    else if (wanita_pct <? pria_pct)%float then "Pria Dominan"
    else "Wanita Dominan" in
  let origin_stations := DemografiResponse.origin_station_distribution data in
  let top_3_stations :=
    firstn 3 (Seq.sorted_desc OriginStationData.count origin_stations) in
  let stasiun_prioritas :=
    String.concat ", " (map OriginStationData.station top_3_stations) in
  let productive_count := DemografiSummary.productive_age_passengers summary in
  let non_productive :=
    (DemografiResponse.total_passengers data - productive_count)%Z in
  and_then
    (if (0 <? non_productive)%Z
     then and_then (Py.int_truediv productive_count non_productive) (fun q =>
          Ok (Py.Float (q * Py.float_of_int 100)%float))
     else Ok (Py.Int 0)) (fun rasio_usia =>
  Ok {| DemogInsight.segmen_pasar_utama := segmen_pasar_utama;
        DemogInsight.pria_pct := pria_pct;
        DemogInsight.wanita_pct := wanita_pct;
        DemogInsight.rasio_gender := rasio_gender;
        DemogInsight.stasiun_prioritas := stasiun_prioritas;
        DemogInsight.rasio_usia := rasio_usia |}))).

Definition transform_seg_perj_keys (data : SegmentasiPerjalananResponse.t)
  : result SegPerjInsight.t :=
  let dir_data := SegmentasiPerjalananResponse.direction_distribution data in
  and_then (Seq.next (fun d => DirectionDistributionData.direction d =? "IN")
              dir_data) (fun d_in =>
  and_then (Seq.next (fun d => DirectionDistributionData.direction d =? "OUT")
              dir_data) (fun d_out =>
  let in_pct := DirectionDistributionData.percentage d_in in
  let out_pct := DirectionDistributionData.percentage d_out in
  let time_data := SegmentasiPerjalananResponse.time_travel_distribution data in
  and_then (Seq.next (fun t => Str.contains "Morning" (TimeTravelData.time_segment t))
              time_data) (fun morning =>
  and_then (Seq.next (fun t => Str.contains "Evening" (TimeTravelData.time_segment t))
              time_data) (fun evening =>
  let origin_stations := SegmentasiPerjalananResponse.origin_distribution data in
  let top_stations :=
    firstn 3 (Seq.sorted_desc OriginDistributionData.count origin_stations) in
  Ok {| SegPerjInsight.in_pct := in_pct;
        SegPerjInsight.out_pct := out_pct;
        SegPerjInsight.morning_pct := TimeTravelData.percentage morning;
        SegPerjInsight.evening_pct := TimeTravelData.percentage evening;
        SegPerjInsight.tipe_penumpang :=
          if ((Py.float_of_int 40 <? in_pct) && (Py.float_of_int 40 <? out_pct))%float
          then "Komuter harian (2-way)" else "Pengguna sekali jalan";
        SegPerjInsight.analisis_origin :=
          "Top 3 stasiun asal: "
          ++ String.concat ", " (map OriginDistributionData.station top_stations)
          ++ " menyumbang "
          ++ Str.of_int (Py.isum (map OriginDistributionData.count top_stations))
          ++ " transaksi" |})))).

Definition transform_seg_loy_keys (data : SegmentasiLoyaltasResponse.t)
  : result SegLoyInsight.t :=
  let seg_data := SegmentasiLoyaltasResponse.loyalty_segments data in
  and_then (Seq.next (fun s => Str.contains "High" (LoyaltySegmentData.segment s))
              seg_data) (fun high_seg =>
  and_then (Seq.next (fun s => Str.contains "Medium" (LoyaltySegmentData.segment s))
              seg_data) (fun med_seg =>
  and_then (Seq.next (fun s => Str.contains "Low" (LoyaltySegmentData.segment s))
              seg_data) (fun low_seg =>
  let high_loy := LoyaltySegmentData.percentage high_seg in
  let med_loy := LoyaltySegmentData.percentage med_seg in
  let low_loy := LoyaltySegmentData.percentage low_seg in
  let high_count := LoyaltySegmentData.count high_seg in
  let med_count := LoyaltySegmentData.count med_seg in
  let low_count := LoyaltySegmentData.count low_seg in
  let '(strategi_loyal, rekomendasi_high) :=
    if (Py.float_of_int 40 <? high_loy)%float
    then ("Fokus retensi penumpang high loyalty",
          "Tiered membership program dengan exclusive benefits (priority access, discount)")
    else if (Py.float_of_int 30 <? high_loy)%float
    then ("Kombinasi retensi & akuisisi",
          "Loyalty rewards + first-time promo untuk low loyalty")
    else ("Fokus akuisisi & upgrade",
          "Agresive acquisition campaign + upgrade program medium ke high") in
  let occ_loy := SegmentasiLoyaltasResponse.loyalty_by_occupation data in
  and_then (Seq.max_by (fun a b => (b <? a)%float)
              LoyaltyByOccupationData.avg_frequency occ_loy) (fun most_loyal =>
  let total_penumpang := SegmentasiLoyaltasResponse.total_passengers data in
  and_then (map_result
              (fun o => percent_of (LoyaltyByOccupationData.count o)
                          total_penumpang 1) occ_loy) (fun persentase =>
  Ok {| SegLoyInsight.persentase_loyal_tinggi := high_loy;
        SegLoyInsight.persentase_loyal_sedang := med_loy;
        SegLoyInsight.persentase_loyal_rendah := low_loy;
        SegLoyInsight.jumlah_loyal_tinggi := high_count;
        SegLoyInsight.jumlah_loyal_sedang := med_count;
        SegLoyInsight.jumlah_loyal_rendah := low_count;
        SegLoyInsight.strategi_loyal := strategi_loyal;
        SegLoyInsight.rekomendasi_high := rekomendasi_high;
        SegLoyInsight.rekomendasi_medium :=
          "Upgrade program: Target " ++ Str.of_int med_count
          ++ " penumpang Medium untuk naik ke High tier";
        SegLoyInsight.rekomendasi_low :=
          "Acquisition campaign: Target " ++ Str.of_int low_count
          ++ " penumpang Low dengan first-time promo & welcome discount";
        SegLoyInsight.most_loyal_occ :=
          LoyaltyByOccupationData.occupation most_loyal;
        SegLoyInsight.most_loyal_freq :=
          LoyaltyByOccupationData.avg_frequency most_loyal;
        SegLoyInsight.persentase_dari_total := persentase |}))))).

(** [sum(a["avg_loyalty_frequency"] for a in group) / len(group)]. *)
Definition mean_frequency (group : list AgeLoyaltyCorrelationData.t)
  : result float :=
  Py.truediv
    (Py.sum (map (fun a => Py.Float (AgeLoyaltyCorrelationData.avg_loyalty_frequency a))
               group))
    (Py.Int (Z.of_nat (List.length group))).

Definition transform_beh_corr_keys (data : BehaviorCorrelationResponse.t)
  : result BehCorrInsight.t :=
  let age_data := BehaviorCorrelationResponse.age_loyalty_correlation data in
  and_then (mean_frequency
              (filter (fun a => (AgeLoyaltyCorrelationData.age a <? 30)%Z) age_data))
    (fun young_avg =>
  and_then (mean_frequency
              (filter (fun a => (45 <=? AgeLoyaltyCorrelationData.age a)%Z) age_data))
    (fun senior_avg =>
  let korelasi_usia :=
    if (young_avg <? senior_avg)%float then "Positif"
    else if (0.5 <? abs (senior_avg - young_avg))%float then "Negatif"
    else "Netral" in
  let hour_gender := BehaviorCorrelationResponse.hour_gender_distribution data in
  let morning_hours :=
    filter (fun h => between 6 (HourGenderData.hour h) 11) hour_gender in
  let evening_hours :=
    filter (fun h => between 16 (HourGenderData.hour h) 19) hour_gender in
  let morning_pria := Py.isum (map HourGenderData.pria_count morning_hours) in
  let morning_wanita := Py.isum (map HourGenderData.wanita_count morning_hours) in
  let morning_gender_dom :=
    if (morning_pria >? morning_wanita)%Z then "Pria" else "Wanita" in
  let evening_pria := Py.isum (map HourGenderData.pria_count evening_hours) in
  let evening_wanita := Py.isum (map HourGenderData.wanita_count evening_hours) in
  let evening_gender_dom :=
    if (evening_wanita >? evening_pria)%Z then "Wanita" else "Pria" in
  let zone_prefs := BehaviorCorrelationResponse.occupation_zone_preference data in
  let strong_prefs :=
    filter (fun z => negb (OccupationZonePreferenceData.preference z =? "Neutral"))
      zone_prefs in
  let jumlah_preferensi_kuat := Z.of_nat (List.length strong_prefs) in
  Ok {| BehCorrInsight.young_avg := young_avg;
        BehCorrInsight.senior_avg := senior_avg;
        BehCorrInsight.korelasi_usia := korelasi_usia;
        BehCorrInsight.morning_gender_dom := morning_gender_dom;
        BehCorrInsight.evening_gender_dom := evening_gender_dom;
        BehCorrInsight.jumlah_preferensi_kuat := jumlah_preferensi_kuat;
        BehCorrInsight.pola_gender_waktu :=
          "Pagi dominan " ++ morning_gender_dom ++ ", sore dominan "
          ++ evening_gender_dom;
        BehCorrInsight.analisis_zona_pola :=
          Str.of_int jumlah_preferensi_kuat
          ++ " pekerjaan menunjukkan preferensi zona kuat";
        BehCorrInsight.promosi_morning :=
          "Target " ++ morning_gender_dom
          ++ " dengan quick breakfast & coffee promo";
        BehCorrInsight.promosi_sore :=
          "Target " ++ evening_gender_dom
          ++ " dengan family meal deals & retail discount" |})).

(** The numbers and names of the dashboard summary. *)
Definition dashboard_summary (ops_eff : OperationalEfficiencyResponse.t)
    (demog : DemografiResponse.t) (seg_perj : SegmentasiPerjalananResponse.t)
    (seg_loy_indo : SegLoyInsight.t) : DashboardSummary.t :=
  let ops_summary := OperationalEfficiencyResponse.summary ops_eff in
  let perj_summary := SegmentasiPerjalananResponse.summary seg_perj in
  {| DashboardSummary.total_transaksi :=
       OperationalEfficiencyResponse.total_transactions ops_eff;
     DashboardSummary.total_penumpang_unik :=
       DemografiResponse.total_passengers demog;
     DashboardSummary.high_loyalty_persentase :=
       SegLoyInsight.persentase_loyal_tinggi seg_loy_indo;
     DashboardSummary.gate_tersibuk :=
       Str.replace "TAP-" "" (OperationalEfficiencySummary.busiest_gate ops_summary);
     DashboardSummary.gate_id_full :=
       OperationalEfficiencySummary.busiest_gate ops_summary;
     DashboardSummary.morning_peak_persentase :=
       OperationalEfficiencySummary.morning_peak_percentage ops_summary;
     DashboardSummary.evening_peak_persentase :=
       OperationalEfficiencySummary.evening_peak_percentage ops_summary;
     DashboardSummary.usia :=
       DemografiSummary.average_age (DemografiResponse.summary demog);
     DashboardSummary.stasiun_asal_dominan :=
       SegmentasiPerjalananSummary.top_origin_station perj_summary;
     DashboardSummary.stasiun_asal_persentase :=
       SegmentasiPerjalananSummary.top_origin_percentage perj_summary |}.

Section Combined.

Context {R : Random}.

Variable get_date : string.

Definition get_all_data (date : option string) : M AllData.t :=
  let target_date := date_or_today get_date date in
  ops_eff <- get_operational_efficiency get_date (Some target_date) ;;
  demog <- get_demografi get_date (Some target_date) ;;
  seg_perj <- get_segmentasi_perjalanan get_date (Some target_date) ;;
  seg_loy <- get_segmentasi_loyaltas get_date (Some target_date) ;;
  beh_corr <- get_behavior_correlation get_date (Some target_date) ;;
  ops_eff_indo <- lift (transform_ops_eff_keys ops_eff) ;;
  demog_indo <- lift (transform_demog_keys demog) ;;
  seg_perj_indo <- lift (transform_seg_perj_keys seg_perj) ;;
  seg_loy_indo <- lift (transform_seg_loy_keys seg_loy) ;;
  beh_corr_indo <- lift (transform_beh_corr_keys beh_corr) ;;
  ret {| AllData.tanggal := target_date;
         AllData.dashboard_summary :=
           dashboard_summary ops_eff demog seg_perj seg_loy_indo;
         AllData.efisiensi_operasional := (ops_eff, ops_eff_indo);
         AllData.demografi := (demog, demog_indo);
         AllData.segmentasi_perjalanan := (seg_perj, seg_perj_indo);
         AllData.segmentasi_loyaltas := (seg_loy, seg_loy_indo);
         AllData.korelasi_perilaku := (beh_corr, beh_corr_indo) |}.

End Combined.

(** ** A scripted random source

    A generator that replays a script of variates, for running the
    endpoints on chosen draws: [random()] pops the next float (clipped to
    [0, 1)), [randint(a, b)] pops the next int and reduces it into
    [a..b].  An exhausted script yields [0.0] and [a]. *)

Module Scripted.

Record state : Type := { floats : list float; ints : list Z }.

Definition clip (f : float) : float :=
  if ((0 <=? f) && (f <? 1))%float then f else 0%float.

Definition next_random (s : state) : float * state :=
  match floats s with
  | [] => (0%float, s)
  | f :: fs => (clip f, {| floats := fs; ints := ints s |})
  end.

Definition next_randint (a b : Z) (s : state) : Z * state :=
  match ints s with
  | [] => (a, s)
  | k :: ks => (a + k mod (b - a + 1), {| floats := floats s; ints := ks |})
  end.

Lemma clip_range (f : float) :
  (0 <=? clip f)%float = true /\ (clip f <? 1)%float = true.
Proof.
  unfold clip.
  destruct ((0 <=? f)%float && (f <? 1)%float) eqn:E.
  - apply andb_true_iff in E. exact E.
  - split; reflexivity.
Qed.

Lemma next_random_range (s : state) :
  (0 <=? fst (next_random s))%float = true
  /\ (fst (next_random s) <? 1)%float = true.
Proof.
  unfold next_random. destruct (floats s); cbn [fst].
  - split; reflexivity.
  - apply clip_range.
Qed.

Lemma next_randint_range (a b : Z) (s : state) :
  a <= b -> a <= fst (next_randint a b s) <= b.
Proof.
  intros Hab. unfold next_randint. destruct (ints s) as [|k ks]; cbn [fst].
  - lia.
  - pose proof (Z.mod_pos_bound k (b - a + 1)). lia.
Qed.

#[export] Instance source : Random :=
  {| rng := state;
     random := next_random;
     randint := next_randint;
     random_range := next_random_range;
     randint_range := next_randint_range |}.

Definition script (fs : list float) (ks : list Z) : state :=
  {| floats := fs; ints := ks |}.

End Scripted.

(** * Verification *)

(** ** Ranges of binary64 results

    The embedded arithmetic is IEEE 754; the bounds below are read off the
    reference implementation [SpecFloat], to which the primitive operations
    are tied by [FloatAxioms]. *)

Module FloatBounds.

Local Open Scope Z_scope.

(** Number of binary digits. *)
Lemma digits2_pos_size (p : positive) : digits2_pos p = Pos.size p.
Proof. induction p; simpl; congruence. Qed.

Lemma Zdigits2_log2 (n : Z) : 0 < n -> Zdigits2 n = Z.log2 n + 1.
Proof.
  destruct n as [|p|p]; try lia. intros _.
  unfold Zdigits2. rewrite digits2_pos_size.
  destruct p; simpl; rewrite ?Pos2Z.inj_succ; try reflexivity; lia.
Qed.

Lemma Zdigits2_nonneg (n : Z) : 0 <= Zdigits2 n.
Proof. destruct n; simpl; lia. Qed.

Lemma Zdigits2_0 : Zdigits2 0 = 0.
Proof. reflexivity. Qed.

Lemma Zdigits2_bounds (n : Z) :
  0 < n -> 2 ^ (Zdigits2 n - 1) <= n < 2 ^ Zdigits2 n.
Proof.
  intros H. rewrite Zdigits2_log2 by assumption.
  replace (Z.log2 n + 1 - 1) with (Z.log2 n) by lia.
  replace (Z.log2 n + 1) with (Z.succ (Z.log2 n)) by lia.
  apply Z.log2_spec. assumption.
Qed.

Lemma Zdigits2_unique (n d : Z) :
  0 < d -> 2 ^ (d - 1) <= n < 2 ^ d -> Zdigits2 n = d.
Proof.
  intros Hd H.
  assert (0 < n) by (pose proof (Z.pow_pos_nonneg 2 (d - 1)); lia).
  rewrite Zdigits2_log2 by assumption.
  rewrite (Z.log2_unique n (d - 1)); try lia.
  replace (Z.succ (d - 1)) with d by lia. assumption.
Qed.

Lemma Zdigits2_shiftr (n k : Z) :
  0 <= n -> 0 <= k -> Zdigits2 (Z.shiftr n k) = Z.max 0 (Zdigits2 n - k).
Proof.
  intros Hn Hk.
  destruct (Z.eq_dec n 0) as [->|Hn0].
  - rewrite Z.shiftr_0_l. simpl. lia.
  - assert (0 < n) by lia.
    destruct (Z.eq_dec (Z.shiftr n k) 0) as [E|E].
    + rewrite E. simpl.
      apply Z.shiftr_eq_0_iff in E. destruct E as [E|[_ E]]; try lia.
      rewrite Zdigits2_log2 by assumption. lia.
    + assert (0 <= Z.shiftr n k) by (apply Z.shiftr_nonneg; lia).
      rewrite !Zdigits2_log2 by lia.
      rewrite Z.log2_shiftr by assumption.
      assert (k <= Z.log2 n).
      { destruct (Z.le_gt_cases k (Z.log2 n)); trivial.
        exfalso. apply E. apply Z.shiftr_eq_0; lia. }
      lia.
Qed.

Lemma Zdigits2_shiftl (n k : Z) :
  0 < n -> 0 <= k -> Zdigits2 (Z.shiftl n k) = Zdigits2 n + k.
Proof.
  intros Hn Hk.
  assert (0 < Z.shiftl n k).
  { rewrite Z.shiftl_mul_pow2 by assumption.
    pose proof (Z.pow_pos_nonneg 2 k). nia. }
  rewrite !Zdigits2_log2 by assumption.
  rewrite Z.log2_shiftl by assumption. lia.
Qed.

Lemma Zdigits2_succ (n : Z) :
  0 <= n -> Zdigits2 n <= Zdigits2 (n + 1) <= Zdigits2 n + 1.
Proof.
  intros Hn.
  destruct (Z.eq_dec n 0) as [->|Hn0]; [simpl; lia|].
  rewrite !Zdigits2_log2 by lia.
  pose proof (Z.log2_succ_le n).
  pose proof (Z.log2_le_mono n (n + 1)).
  replace (Z.succ n) with (n + 1) in * by lia. lia.
Qed.

Lemma Zdigits2_mul (a b : Z) :
  0 < a -> 0 < b ->
  Zdigits2 a + Zdigits2 b - 1 <= Zdigits2 (a * b) <= Zdigits2 a + Zdigits2 b.
Proof.
  intros Ha Hb.
  assert (0 < a * b) by nia.
  rewrite !Zdigits2_log2 by assumption.
  pose proof (Z.log2_mul_below a b Ha Hb).
  pose proof (Z.log2_mul_above a b).
  lia.
Qed.

Lemma Zdigits2_le (a b : Z) : 0 <= a <= b -> Zdigits2 a <= Zdigits2 b.
Proof.
  intros [Ha Hab].
  destruct (Z.eq_dec a 0) as [->|?]; [apply Zdigits2_nonneg|].
  rewrite !Zdigits2_log2 by lia.
  pose proof (Z.log2_le_mono a b). lia.
Qed.

(** Right shifts of the rounding record. *)

Lemma shr_1_m (mrs : shr_record) :
  0 <= shr_m mrs -> shr_m (shr_1 mrs) = Z.shiftr (shr_m mrs) 1.
Proof.
  destruct mrs as [m r s]. simpl. intros Hm.
  rewrite <- Z.div2_spec.
  destruct m as [|[p|p|]|p]; simpl; try lia; reflexivity.
Qed.

Lemma iter_pos_nat {A} (f : A -> A) (p : positive) (x : A) :
  iter_pos f p x = Nat.iter (Pos.to_nat p) f x.
Proof.
  revert x. induction p as [p IH|p IH|]; intros x; cbn [iter_pos].
  - rewrite !IH, Pos2Nat.inj_xI.
    replace (S (2 * Pos.to_nat p))%nat
      with (Pos.to_nat p + (Pos.to_nat p + 1))%nat by lia.
    rewrite !Nat.iter_add. reflexivity.
  - rewrite !IH, Pos2Nat.inj_xO.
    replace (2 * Pos.to_nat p)%nat
      with (Pos.to_nat p + Pos.to_nat p)%nat by lia.
    rewrite Nat.iter_add. reflexivity.
  - reflexivity.
Qed.

Lemma shr_iter_m (n : nat) (mrs : shr_record) :
  0 <= shr_m mrs ->
  shr_m (Nat.iter n shr_1 mrs) = Z.shiftr (shr_m mrs) (Z.of_nat n).
Proof.
  intros Hm. induction n as [|n IH].
  - simpl. rewrite Z.shiftr_0_r. reflexivity.
  - rewrite Nat.iter_succ.
    rewrite shr_1_m.
    + rewrite IH. rewrite Z.shiftr_shiftr by lia. f_equal. lia.
    + rewrite IH. apply Z.shiftr_nonneg. assumption.
Qed.

Lemma shr_m_spec (mrs : shr_record) (e k : Z) :
  0 <= shr_m mrs ->
  shr_m (fst (shr mrs e k)) = Z.shiftr (shr_m mrs) (Z.max 0 k)
  /\ snd (shr mrs e k) = e + Z.max 0 k.
Proof.
  intros Hm. destruct k as [|p|p]; simpl.
  - rewrite Z.shiftr_0_r. split; [reflexivity|lia].
  - rewrite iter_pos_nat, shr_iter_m by assumption.
    rewrite positive_nat_Z. split; [reflexivity|lia].
  - rewrite Z.shiftr_0_r. split; [reflexivity|lia].
Qed.

Lemma shr_record_of_loc_m (m : Z) (l : location) :
  shr_m (shr_record_of_loc m l) = m.
Proof. destruct l as [|[]]; reflexivity. Qed.

Lemma shr_fexp_spec (m e : Z) (l : location) :
  0 <= m ->
  let k := Z.max 0 (fexp prec emax (Zdigits2 m + e) - e) in
  shr_m (fst (shr_fexp prec emax m e l)) = Z.shiftr m k
  /\ snd (shr_fexp prec emax m e l) = e + k.
Proof.
  intros Hm k. unfold shr_fexp.
  pose proof (shr_m_spec (shr_record_of_loc m l) e
                (fexp prec emax (Zdigits2 m + e) - e)) as H.
  rewrite shr_record_of_loc_m in H. apply H. assumption.
Qed.

Lemma round_nearest_even_cases (m : Z) (l : location) :
  round_nearest_even m l = m \/ round_nearest_even m l = m + 1.
Proof.
  destruct l as [|[]]; simpl; auto. destruct (Z.even m); auto.
Qed.


Lemma fexp_eq (x : Z) : fexp prec emax x = Z.max (x - 53) (-1074).
Proof. reflexivity. Qed.

Lemma Zdigits2_eq_0 (n : Z) : 0 <= n -> Zdigits2 n = 0 -> n = 0.
Proof.
  intros Hn H. destruct (Z.eq_dec n 0); trivial.
  rewrite Zdigits2_log2 in H by lia. pose proof (Z.log2_nonneg n). lia.
Qed.

(** Rounding a value [M * 2^E] with location [l]: the result keeps the sign
    and the binade of the value, up to the carry into the next binade, and
    never overflows below [2^1023]. *)
Lemma binary_round_aux_range (s : bool) (M E : Z) (l : location) :
  let g := Zdigits2 M + E in
  0 <= M -> E <= fexp prec emax g -> g <= 1023 ->
  match binary_round_aux prec emax s M E l with
  | S754_zero s' => s' = s /\ (0 < M -> g <= -1074)
  | S754_finite s' m e =>
      s' = s /\ bounded prec emax m e = true
      /\ Zdigits2 (Zpos m) + e <= Z.max (g + 1) (-1073)
      /\ (0 < M -> -1021 <= g -> g <= Zdigits2 (Zpos m) + e)
  | _ => False
  end.
Proof.
  intros g HM HE Hg. unfold binary_round_aux.
  pose proof (shr_fexp_spec M E l HM) as [H1m H1e].
  fold g in H1m, H1e.
  destruct (shr_fexp prec emax M E l) as [mrs1 e1].
  cbn [fst snd] in H1m, H1e.
  set (m1 := shr_m mrs1) in *.
  set (m2 := round_nearest_even m1 (loc_of_shr_record mrs1)).
  assert (Hm1 : 0 <= m1) by (rewrite H1m; apply Z.shiftr_nonneg; lia).
  assert (Hm2 : 0 <= m2).
  { destruct (round_nearest_even_cases m1 (loc_of_shr_record mrs1)) as [H|H];
      fold m2 in H; lia. }
  pose proof (shr_fexp_spec m2 e1 loc_Exact Hm2) as [H3m H3e].
  destruct (shr_fexp prec emax m2 e1 loc_Exact) as [mrs3 e3].
  cbn [fst snd] in H3m, H3e.
  set (m3 := shr_m mrs3) in *.
  assert (Hm3 : 0 <= m3) by (rewrite H3m; apply Z.shiftr_nonneg; lia).
  assert (Hd1 : Zdigits2 m1 = Z.max 0 (Zdigits2 M - Z.max 0 (fexp prec emax g - E))).
  { rewrite H1m. apply Zdigits2_shiftr; lia. }
  assert (Hd2 : Zdigits2 m1 <= Zdigits2 m2 <= Zdigits2 m1 + 1).
  { destruct (round_nearest_even_cases m1 (loc_of_shr_record mrs1)) as [H|H];
      fold m2 in H; rewrite H.
    - lia.
    - apply Zdigits2_succ. assumption. }
  assert (Hd3 : Zdigits2 m3 = Z.max 0 (Zdigits2 m2 - Z.max 0 (fexp prec emax (Zdigits2 m2 + e1) - e1))).
  { rewrite H3m. apply Zdigits2_shiftr; lia. }
  rewrite !fexp_eq in *.
  assert (HD : 0 < M -> 1 <= Zdigits2 M).
  { intros H. rewrite Zdigits2_log2 by assumption.
    pose proof (Z.log2_nonneg M). lia. }
  pose proof (Zdigits2_nonneg M) as HDn.
  pose proof (Zdigits2_nonneg m2) as Hd2n.
  destruct m3 as [|p3|p3] eqn:Em3; try lia.
  - split; [reflexivity|]. intros HM'. specialize (HD HM').
    change (Zdigits2 0) with 0 in Hd3. lia.
  - assert (He3 : (e3 <=? emax - prec) = true).
    { apply Z.leb_le. change (emax - prec) with 971. lia. }
    rewrite He3. split; [reflexivity|].
    split.
    + unfold bounded, canonical_mantissa. rewrite He3, andb_true_r.
      apply Z.eqb_eq. rewrite fexp_eq.
      change (Zpos (digits2_pos p3)) with (Zdigits2 (Zpos p3)). lia.
    + split; [lia|]. intros HM'. specialize (HD HM'). lia.
Qed.

Lemma binary_round_aux_exact (s : bool) (M : positive) (E : Z) :
  let g := Zdigits2 (Zpos M) + E in
  E <= fexp prec emax g -> g <= 1023 ->
  match binary_round_aux prec emax s (Zpos M) E loc_Exact with
  | S754_zero s' => s' = s /\ g <= -1074
  | S754_finite s' m e =>
      s' = s /\ bounded prec emax m e = true
      /\ Zdigits2 (Zpos m) + e <= Z.max (g + 1) (-1073)
      /\ (-1021 <= g -> g <= Zdigits2 (Zpos m) + e)
  | _ => False
  end.
Proof.
  intros g HE Hg.
  pose proof (binary_round_aux_range s (Zpos M) E loc_Exact
                ltac:(lia) HE Hg) as H.
  fold g in H.
  destruct (binary_round_aux prec emax s (Zpos M) E loc_Exact)
    as [s'|s'| |s' m e]; try contradiction.
  - destruct H as [H1 H2]. split; [assumption|]. apply H2. lia.
  - destruct H as (H1 & H2 & H3 & H4).
    repeat split; try assumption. intros H. apply H4; [lia|assumption].
Qed.

Lemma iter_xO_shiftl (m d : positive) :
  Zpos (Pos.iter xO m d) = Z.shiftl (Zpos m) (Zpos d).
Proof.
  induction d as [|d IH] using Pos.peano_ind.
  - reflexivity.
  - rewrite Pos.iter_succ, Pos2Z.inj_xO, IH.
    rewrite !Z.shiftl_mul_pow2 by lia.
    rewrite Pos2Z.inj_succ, Z.pow_succ_r by lia. lia.
Qed.

Lemma shl_align_spec (m : positive) (e e' : Z) :
  Zpos (fst (shl_align m e e')) = Z.shiftl (Zpos m) (Z.max 0 (e - e'))
  /\ snd (shl_align m e e') = Z.min e e'.
Proof.
  unfold shl_align. destruct (e' - e) as [|d|d] eqn:E; cbn [fst snd].
  - replace (Z.max 0 (e - e')) with 0 by lia. rewrite Z.shiftl_0_r. lia.
  - replace (Z.max 0 (e - e')) with 0 by lia. rewrite Z.shiftl_0_r. lia.
  - replace (Z.max 0 (e - e')) with (Zpos d) by lia.
    rewrite iter_xO_shiftl. lia.
Qed.

Lemma binary_round_exact (s : bool) (M : positive) (E : Z) :
  let g := Zdigits2 (Zpos M) + E in
  g <= 1023 ->
  match binary_round prec emax s M E with
  | S754_zero s' => s' = s /\ g <= -1074
  | S754_finite s' m e =>
      s' = s /\ bounded prec emax m e = true
      /\ Zdigits2 (Zpos m) + e <= Z.max (g + 1) (-1073)
      /\ (-1021 <= g -> g <= Zdigits2 (Zpos m) + e)
  | _ => False
  end.
Proof.
  intros g Hg. unfold binary_round.
  change (Zpos (digits2_pos M)) with (Zdigits2 (Zpos M)). fold g.
  pose proof (shl_align_spec M E (fexp prec emax g)) as [Hm He].
  destruct (shl_align M E (fexp prec emax g)) as [mz ez].
  cbn [fst snd] in Hm, He.
  assert (Hgz : Zdigits2 (Zpos mz) + ez = g).
  { rewrite Hm, Zdigits2_shiftl by lia. unfold g in *. lia. }
  pose proof (binary_round_aux_exact s mz ez) as H.
  cbv zeta in H. rewrite Hgz in H. rewrite fexp_eq in *. apply H; lia.
Qed.

(** The binade [Zdigits2 m + e] of a finite float [m * 2^e]. *)
Definition binade (m : positive) (e : Z) : Z := Zdigits2 (Zpos m) + e.

Lemma bounded_fexp (m : positive) (e : Z) :
  bounded prec emax m e = true ->
  e = fexp prec emax (binade m e) /\ e <= 971.
Proof.
  unfold bounded, canonical_mantissa. intros H.
  apply andb_true_iff in H. destruct H as [H1 H2].
  apply Z.eqb_eq in H1. apply Z.leb_le in H2.
  unfold binade. change (Zdigits2 (Zpos m)) with (Zpos (digits2_pos m)).
  change (emax - prec) with 971 in H2. lia.
Qed.

Lemma SFmul_finite (sx sy : bool) (mx my : positive) (ex ey : Z) :
  bounded prec emax mx ex = true -> bounded prec emax my ey = true ->
  let gx := binade mx ex in
  let gy := binade my ey in
  gx + gy <= 1023 ->
  match SFmul prec emax (S754_finite sx mx ex) (S754_finite sy my ey) with
  | S754_zero s' => s' = xorb sx sy /\ gx + gy <= -1073
  | S754_finite s' m e =>
      s' = xorb sx sy
      /\ binade m e <= Z.max (gx + gy + 1) (-1073)
      /\ (-1020 <= gx + gy -> gx + gy - 1 <= binade m e)
  | _ => False
  end.
Proof.
  intros Hx Hy gx gy Hg. unfold SFmul.
  apply bounded_fexp in Hx, Hy. destruct Hx as [Hx _], Hy as [Hy _].
  rewrite fexp_eq in Hx, Hy. fold gx in Hx. fold gy in Hy.
  pose proof (Zdigits2_mul (Zpos mx) (Zpos my) ltac:(lia) ltac:(lia)) as Hd.
  change (Zpos mx * Zpos my) with (Zpos (mx * my)) in Hd.
  assert (H1x : 1 <= Zdigits2 (Zpos mx)) by (simpl; lia).
  assert (H1y : 1 <= Zdigits2 (Zpos my)) by (simpl; lia).
  unfold binade in *.
  pose proof (binary_round_aux_exact (xorb sx sy) (mx * my) (ex + ey)) as H.
  cbv zeta in H. rewrite fexp_eq in H.
  specialize (H ltac:(lia) ltac:(lia)).
  destruct (binary_round_aux prec emax (xorb sx sy) (Zpos (mx * my)) (ex + ey) loc_Exact)
    as [s'|s'| |s' m e]; try contradiction.
  - destruct H as [Hs Hz]. split; [assumption|lia].
  - destruct H as (Hs & _ & Hu & Hl).
    split; [assumption|]. split; lia.
Qed.


Lemma binary_normalize_exact (S E : Z) :
  let g := Zdigits2 S + E in
  g <= 1023 ->
  match binary_normalize prec emax S E false with
  | S754_zero s' => (S = 0 /\ s' = false) \/ (S <> 0 /\ g <= -1074)
  | S754_finite s' m e =>
      S <> 0 /\ s' = (S <? 0) /\ bounded prec emax m e = true
      /\ binade m e <= Z.max (g + 1) (-1073)
      /\ (-1021 <= g -> g <= binade m e)
  | _ => False
  end.
Proof.
  intros g Hg. unfold binary_normalize.
  destruct S as [|p|p].
  - left. split; reflexivity.
  - pose proof (binary_round_exact false p E Hg) as H.
    destruct (binary_round prec emax false p E) as [s'|s'| |s' m e];
      try contradiction.
    + right. split; [lia|]. apply H.
    + destruct H as (Hs & Hb & Hu & Hl).
      repeat split; try assumption; lia.
  - pose proof (binary_round_exact true p E Hg) as H.
    destruct (binary_round prec emax true p E) as [s'|s'| |s' m e];
      try contradiction.
    + right. split; [lia|]. apply H.
    + destruct H as (Hs & Hb & Hu & Hl).
      repeat split; try assumption; lia.
Qed.

Lemma SFadd_finite (sx sy : bool) (mx my : positive) (ex ey : Z) :
  let ez := Z.min ex ey in
  SFadd prec emax (S754_finite sx mx ex) (S754_finite sy my ey)
  = binary_normalize prec emax
      (cond_Zopp sx (Z.shiftl (Zpos mx) (ex - ez))
       + cond_Zopp sy (Z.shiftl (Zpos my) (ey - ez))) ez false.
Proof.
  intros ez. unfold SFadd. fold ez.
  pose proof (shl_align_spec mx ex ez) as [Hx _].
  pose proof (shl_align_spec my ey ez) as [Hy _].
  rewrite Hx, Hy.
  replace (Z.max 0 (ex - ez)) with (ex - ez) by lia.
  replace (Z.max 0 (ey - ez)) with (ey - ez) by lia.
  reflexivity.
Qed.

Lemma Zdigits2_aligned (m : positive) (e ez : Z) :
  ez <= e -> Zdigits2 (Z.shiftl (Zpos m) (e - ez)) = binade m e - ez.
Proof.
  intros H. rewrite Zdigits2_shiftl by lia. unfold binade. lia.
Qed.

Lemma Zdigits2_lt_pow2 (n k : Z) : 0 <= k -> 0 <= n < 2 ^ k -> Zdigits2 n <= k.
Proof.
  intros Hk [Hn H].
  destruct (Z.eq_dec n 0) as [->|?]; [simpl; lia|].
  rewrite Zdigits2_log2 by lia.
  apply Z.log2_lt_pow2 in H; lia.
Qed.

Lemma Zdigits2_ge_pow2 (n k : Z) : 0 <= k -> 2 ^ k <= n -> k + 1 <= Zdigits2 n.
Proof.
  intros Hk H.
  assert (0 < n) by (pose proof (Z.pow_pos_nonneg 2 k); lia).
  rewrite Zdigits2_log2 by lia.
  apply Z.log2_le_pow2 in H; lia.
Qed.

Lemma Zdigits2_add (a b : Z) :
  0 < a -> 0 < b ->
  Z.max (Zdigits2 a) (Zdigits2 b) <= Zdigits2 (a + b)
  <= Z.max (Zdigits2 a) (Zdigits2 b) + 1.
Proof.
  intros Ha Hb. split.
  - apply Z.max_lub; apply Zdigits2_le; lia.
  - pose proof (Zdigits2_bounds a Ha) as [_ Ha'].
    pose proof (Zdigits2_bounds b Hb) as [_ Hb'].
    pose proof (Zdigits2_nonneg a). pose proof (Zdigits2_nonneg b).
    apply Zdigits2_lt_pow2; [lia|].
    split; [lia|].
    set (k := Z.max (Zdigits2 a) (Zdigits2 b)).
    rewrite Z.pow_add_r by lia. change (2 ^ 1) with 2.
    assert (2 ^ Zdigits2 a <= 2 ^ k) by (apply Z.pow_le_mono_r; lia).
    assert (2 ^ Zdigits2 b <= 2 ^ k) by (apply Z.pow_le_mono_r; lia).
    lia.
Qed.

Lemma Zdigits2_sub (a b : Z) :
  0 < b < a ->
  Zdigits2 (a - b) <= Zdigits2 a
  /\ (Zdigits2 b <= Zdigits2 a - 2 -> Zdigits2 a - 1 <= Zdigits2 (a - b)).
Proof.
  intros [Hb Hab]. split.
  - apply Zdigits2_le. lia.
  - intros Hd.
    pose proof (Zdigits2_bounds a ltac:(lia)) as [Ha' _].
    pose proof (Zdigits2_bounds b Hb) as [_ Hb'].
    assert (H1 : 1 <= Zdigits2 b).
    { rewrite Zdigits2_log2 by lia. pose proof (Z.log2_nonneg b). lia. }
    assert (H2 : 2 ^ Zdigits2 b <= 2 ^ (Zdigits2 a - 2))
      by (apply Z.pow_le_mono_r; lia).
    assert (H3 : 2 ^ (Zdigits2 a - 1) = 2 * 2 ^ (Zdigits2 a - 2)).
    { replace (Zdigits2 a - 1) with (Z.succ (Zdigits2 a - 2)) by lia.
      apply Z.pow_succ_r. lia. }
    pose proof (Zdigits2_ge_pow2 (a - b) (Zdigits2 a - 2)). lia.
Qed.


Lemma shiftl_pos (m : positive) (k : Z) : 0 <= k -> 0 < Z.shiftl (Zpos m) k.
Proof.
  intros Hk. rewrite Z.shiftl_mul_pow2 by assumption.
  pose proof (Z.pow_pos_nonneg 2 k). nia.
Qed.

Lemma Zdigits2_opp (n : Z) : Zdigits2 (- n) = Zdigits2 n.
Proof. destruct n; reflexivity. Qed.

(** Ranges of floats, by sign and binade: [fpos l h] is a positive finite
    float in [2^(l-1), 2^h); [fsgn g h] is a float in (-2^g, 2^h). *)
Definition fpos (l h : Z) (x : spec_float) : Prop :=
  match x with
  | S754_finite false m e => l <= binade m e <= h
  | _ => False
  end.

Definition fsgn (g h : Z) (x : spec_float) : Prop :=
  match x with
  | S754_zero _ => True
  | S754_finite false m e => binade m e <= h
  | S754_finite true m e => binade m e <= g
  | _ => False
  end.

Definition fnn (h : Z) (x : spec_float) : Prop :=
  match x with
  | S754_zero _ => True
  | S754_finite false m e => binade m e <= h
  | _ => False
  end.

Definition fneg (g : Z) (x : spec_float) : Prop :=
  match x with
  | S754_finite true m e => binade m e <= g
  | _ => False
  end.

Lemma fnn_fsgn (g h : Z) (x : spec_float) : fnn h x -> fsgn g h x.
Proof. destruct x as [| | |[] m e]; simpl; tauto. Qed.

Lemma fpos_fnn (l h : Z) (x : spec_float) : fpos l h x -> fnn h x.
Proof. destruct x as [| | |[] m e]; simpl; try tauto; lia. Qed.

Lemma fpos_weaken (l h l' h' : Z) (x : spec_float) :
  l' <= l -> h <= h' -> fpos l h x -> fpos l' h' x.
Proof. destruct x as [| | |[] m e]; simpl; try tauto; lia. Qed.

Lemma binade_lower (m : positive) (e : Z) :
  bounded prec emax m e = true -> -1073 <= binade m e.
Proof.
  intros H. apply bounded_fexp in H. destruct H as [H _].
  rewrite fexp_eq in H. unfold binade in *.
  assert (1 <= Zdigits2 (Zpos m)) by (simpl; lia). lia.
Qed.

(** A positive float plus a float of either sign that is at least two
    binades smaller when negative. *)
Lemma SFadd_pos_sgn (l h g h2 : Z) (x y : spec_float) :
  valid_binary x = true -> valid_binary y = true ->
  fpos l h x -> fsgn g h2 y ->
  g <= l - 2 -> -1019 <= l -> h <= 1020 -> h2 <= 1020 ->
  fpos (l - 1) (Z.max h h2 + 2) (SFadd prec emax x y).
Proof.
  intros Vx Vy Hx Hy Hg Hl Hh Hh2.
  destruct x as [| | |[] mx ex]; try contradiction.
  destruct y as [sy|sy| |sy my ey]; try contradiction.
  - simpl. simpl in Hx. lia.
  - simpl in Hx, Vx, Vy.
    pose proof (binade_lower _ _ Vy) as Hly.
    rewrite SFadd_finite.
    set (ez := Z.min ex ey).
    set (ax := Z.shiftl (Zpos mx) (ex - ez)).
    set (ay := Z.shiftl (Zpos my) (ey - ez)).
    assert (Hax : 0 < ax) by (apply shiftl_pos; lia).
    assert (Hay : 0 < ay) by (apply shiftl_pos; lia).
    assert (Hdx : Zdigits2 ax = binade mx ex - ez)
      by (apply Zdigits2_aligned; lia).
    assert (Hdy : Zdigits2 ay = binade my ey - ez)
      by (apply Zdigits2_aligned; lia).
    destruct sy; simpl in Hy; cbn [cond_Zopp].
    + assert (Hlt : ay < ax).
      { pose proof (Zdigits2_bounds ax Hax) as [Ha _].
        pose proof (Zdigits2_bounds ay Hay) as [_ Hb].
        assert (2 ^ Zdigits2 ay <= 2 ^ (Zdigits2 ax - 1))
          by (apply Z.pow_le_mono_r; lia).
        lia. }
      pose proof (Zdigits2_sub ax ay ltac:(lia)) as [Hs1 Hs2].
      pose proof (binary_normalize_exact (ax + - ay) ez) as H.
      cbv zeta in H.
      replace (ax + - ay) with (ax - ay) in * by lia.
      specialize (H ltac:(lia)).
      destruct (binary_normalize prec emax (ax - ay) ez false)
        as [s'|s'| |s' m e]; try contradiction.
      * destruct H as [[H _]|[_ H]]; lia.
      * destruct H as (_ & Hs & _ & Hu & Hlo).
        replace (ax - ay <? 0) with false in Hs by (symmetry; apply Z.ltb_ge; lia).
        subst s'. simpl. lia.
    + pose proof (Zdigits2_add ax ay Hax Hay) as Hs.
      pose proof (binary_normalize_exact (ax + ay) ez) as H.
      cbv zeta in H. specialize (H ltac:(lia)).
      destruct (binary_normalize prec emax (ax + ay) ez false)
        as [s'|s'| |s' m e]; try contradiction.
      * destruct H as [[H _]|[_ H]]; lia.
      * destruct H as (_ & Hsg & _ & Hu & Hlo).
        replace (ax + ay <? 0) with false in Hsg by (symmetry; apply Z.ltb_ge; lia).
        subst s'. simpl. lia.
Qed.

(** A negative float plus a non-negative one. *)
Lemma SFadd_neg_nn (g h : Z) (x y : spec_float) :
  valid_binary x = true -> valid_binary y = true ->
  fneg g x -> fnn h y ->
  -1000 <= g <= 1000 -> -1000 <= h <= 1000 ->
  fsgn (g + 1) (h + 1) (SFadd prec emax x y).
Proof.
  intros Vx Vy Hx Hy Hg Hh.
  destruct x as [| | |[] mx ex]; try contradiction.
  destruct y as [sy|sy| |[] my ey]; try contradiction.
  - simpl. simpl in Hx. lia.
  - simpl in Hx, Hy, Vx, Vy.
    rewrite SFadd_finite. cbn [cond_Zopp].
    set (ez := Z.min ex ey).
    set (ax := Z.shiftl (Zpos mx) (ex - ez)).
    set (ay := Z.shiftl (Zpos my) (ey - ez)).
    assert (Hax : 0 < ax) by (apply shiftl_pos; lia).
    assert (Hay : 0 < ay) by (apply shiftl_pos; lia).
    assert (Hdx : Zdigits2 ax = binade mx ex - ez)
      by (apply Zdigits2_aligned; lia).
    assert (Hdy : Zdigits2 ay = binade my ey - ez)
      by (apply Zdigits2_aligned; lia).
    assert (Hd : Zdigits2 (- ax + ay) <= Z.max (Zdigits2 ax) (Zdigits2 ay)).
    { destruct (Z.lt_trichotomy ax ay) as [Hc|[Hc|Hc]].
      - replace (- ax + ay) with (ay - ax) by lia.
        pose proof (Zdigits2_sub ay ax ltac:(lia)) as [H _]. lia.
      - replace (- ax + ay) with 0 by lia. simpl.
        pose proof (Zdigits2_nonneg ax). lia.
      - replace (- ax + ay) with (- (ax - ay)) by lia.
        rewrite Zdigits2_opp.
        pose proof (Zdigits2_sub ax ay ltac:(lia)) as [H _]. lia. }
    assert (Hdn : - ax + ay < 0 -> Zdigits2 (- ax + ay) <= Zdigits2 ax).
    { intros Hc. replace (- ax + ay) with (- (ax - ay)) by lia.
      rewrite Zdigits2_opp.
      pose proof (Zdigits2_sub ax ay ltac:(lia)) as [H _]. lia. }
    assert (Hdp : 0 < - ax + ay -> Zdigits2 (- ax + ay) <= Zdigits2 ay).
    { intros Hc. replace (- ax + ay) with (ay - ax) by lia.
      pose proof (Zdigits2_sub ay ax ltac:(lia)) as [H _]. lia. }
    pose proof (binary_normalize_exact (- ax + ay) ez) as H.
    cbv zeta in H. specialize (H ltac:(lia)).
    destruct (binary_normalize prec emax (- ax + ay) ez false)
      as [s'|s'| |s' m e]; try contradiction.
    + exact I.
    + destruct H as (Hne & Hs & _ & Hu & _).
      destruct (Z.ltb_spec (- ax + ay) 0) as [Hc|Hc]; subst s'; simpl.
      * specialize (Hdn Hc). lia.
      * specialize (Hdp ltac:(lia)). lia.
Qed.


Lemma SFmul_pos_pos (l1 h1 l2 h2 : Z) (x y : spec_float) :
  valid_binary x = true -> valid_binary y = true ->
  fpos l1 h1 x -> fpos l2 h2 y ->
  -1020 <= l1 + l2 -> h1 + h2 <= 1023 ->
  fpos (l1 + l2 - 1) (h1 + h2 + 1) (SFmul prec emax x y).
Proof.
  intros Vx Vy Hx Hy Hl Hh.
  destruct x as [| | |[] mx ex]; try contradiction.
  destruct y as [| | |[] my ey]; try contradiction.
  simpl in Hx, Hy, Vx, Vy.
  pose proof (SFmul_finite false false mx my ex ey Vx Vy) as H.
  cbv zeta in H. specialize (H ltac:(lia)).
  destruct (SFmul prec emax (S754_finite false mx ex) (S754_finite false my ey))
    as [s'|s'| |s' m e]; try contradiction.
  - lia.
  - destruct H as (Hs & Hu & Hlo). subst s'. simpl. lia.
Qed.

Lemma SFmul_pos_nn (l1 h1 h2 : Z) (x y : spec_float) :
  valid_binary x = true -> valid_binary y = true ->
  fpos l1 h1 x -> fnn h2 y ->
  -1074 <= h1 + h2 <= 1023 ->
  fnn (h1 + h2 + 1) (SFmul prec emax x y).
Proof.
  intros Vx Vy Hx Hy Hh.
  destruct x as [| | |[] mx ex]; try contradiction.
  destruct y as [sy| | |[] my ey]; try contradiction.
  - exact I.
  - simpl in Hx, Hy, Vx, Vy.
    pose proof (SFmul_finite false false mx my ex ey Vx Vy) as H.
    cbv zeta in H. specialize (H ltac:(lia)).
    destruct (SFmul prec emax (S754_finite false mx ex) (S754_finite false my ey))
      as [s'|s'| |s' m e]; try contradiction.
    + exact I.
    + destruct H as (Hs & Hu & Hlo). subst s'. simpl. lia.
Qed.

(** The same ranges on primitive floats. *)
Definition Fpos (l h : Z) (x : float) : Prop := fpos l h (Prim2SF x).
Definition Fnn (h : Z) (x : float) : Prop := fnn h (Prim2SF x).
Definition Fneg (g : Z) (x : float) : Prop := fneg g (Prim2SF x).
Definition Fsgn (g h : Z) (x : float) : Prop := fsgn g h (Prim2SF x).

Lemma mul_pos_pos (l1 h1 l2 h2 : Z) (x y : float) :
  Fpos l1 h1 x -> Fpos l2 h2 y ->
  -1020 <= l1 + l2 -> h1 + h2 <= 1023 ->
  Fpos (l1 + l2 - 1) (h1 + h2 + 1) (x * y)%float.
Proof.
  unfold Fpos. intros. rewrite mul_spec.
  apply SFmul_pos_pos; auto using Prim2SF_valid.
Qed.

Lemma mul_pos_nn (l1 h1 h2 : Z) (x y : float) :
  Fpos l1 h1 x -> Fnn h2 y ->
  -1074 <= h1 + h2 <= 1023 ->
  Fnn (h1 + h2 + 1) (x * y)%float.
Proof.
  unfold Fpos, Fnn. intros. rewrite mul_spec.
  apply (SFmul_pos_nn l1); auto using Prim2SF_valid.
Qed.

Lemma add_pos_sgn (l h g h2 : Z) (x y : float) :
  Fpos l h x -> Fsgn g h2 y ->
  g <= l - 2 -> -1019 <= l -> h <= 1020 -> h2 <= 1020 ->
  Fpos (l - 1) (Z.max h h2 + 2) (x + y)%float.
Proof.
  unfold Fpos, Fsgn. intros. rewrite add_spec.
  apply (SFadd_pos_sgn l h g h2); auto using Prim2SF_valid.
Qed.

Lemma add_neg_nn (g h : Z) (x y : float) :
  Fneg g x -> Fnn h y ->
  -1000 <= g <= 1000 -> -1000 <= h <= 1000 ->
  Fsgn (g + 1) (h + 1) (x + y)%float.
Proof.
  unfold Fneg, Fnn, Fsgn. intros. rewrite add_spec.
  apply SFadd_neg_nn; auto using Prim2SF_valid.
Qed.

(** A float [r] with [0 <= r < 1]. *)
Lemma unit_interval_nn (r : float) :
  (0 <=? r)%float = true -> (r <? 1)%float = true -> Fnn 0 r.
Proof.
  rewrite leb_spec, ltb_spec. unfold Fnn.
  pose proof (Prim2SF_valid r) as V.
  change (Prim2SF 0) with (S754_zero false).
  change (Prim2SF 1) with (S754_finite false 4503599627370496 (-52)).
  destruct (Prim2SF r) as [s|s| |s m e]; simpl.
  - trivial.
  - destruct s; discriminate.
  - discriminate.
  - destruct s; [discriminate|]. intros _.
    unfold SFltb, SFcompare. simpl in V.
    apply bounded_fexp in V. destruct V as [V _]. rewrite fexp_eq in V.
    destruct (Z.compare_spec e (-52)) as [He|He|He]; try discriminate.
    + destruct (Pos.compare_cont Eq m 4503599627370496) eqn:C; try discriminate.
      intros _.
      assert (C' : Zpos m < 4503599627370496) by exact C.
      clear C.
      assert (Hd : Zdigits2 (Zpos m) <= 52).
      { apply Zdigits2_lt_pow2; [lia|]. split; [lia|].
        apply Z.lt_le_trans with 4503599627370496; [exact C'|].
        vm_compute. discriminate. }
      unfold binade in *. lia.
    + intros _. lia.
Qed.


(** Division of two integer operands never overflows while the dividend
    stays below [2^1023]. *)
Lemma Zdigits2_div (a b : Z) :
  0 < b -> 0 <= a -> Zdigits2 a - Zdigits2 b <= Zdigits2 (a / b) <= Zdigits2 a.
Proof.
  intros Hb Ha. split.
  - destruct (Z.le_gt_cases (Zdigits2 a) (Zdigits2 b)) as [Hc|Hc].
    + pose proof (Zdigits2_nonneg (a / b)). lia.
    + assert (Ha0 : 0 < a).
      { destruct (Z.eq_dec a 0) as [->|]; [|lia].
        simpl in Hc. pose proof (Zdigits2_nonneg b). lia. }
      pose proof (Zdigits2_bounds a Ha0) as [Hal _].
      pose proof (Zdigits2_bounds b Hb) as [_ Hbu].
      assert (H1b : 1 <= Zdigits2 b).
      { rewrite Zdigits2_log2 by assumption. pose proof (Z.log2_nonneg b). lia. }
      set (k := Zdigits2 a - 1 - Zdigits2 b) in *.
      assert (Hk : 0 <= k) by (unfold k; lia).
      assert (Hp : 2 ^ (Zdigits2 a - 1) = 2 ^ k * 2 ^ Zdigits2 b).
      { rewrite <- Z.pow_add_r by lia. f_equal. unfold k. lia. }
      assert (Hq : 2 ^ k <= a / b).
      { apply Z.div_le_lower_bound; [assumption|].
        pose proof (Z.pow_pos_nonneg 2 k ltac:(lia) Hk). nia. }
      pose proof (Zdigits2_ge_pow2 (a / b) k Hk Hq). unfold k in *. lia.
  - apply Zdigits2_le. split.
    + apply Z.div_pos; assumption.
    + apply Z.div_le_upper_bound; [assumption|]. nia.
Qed.

Lemma SFdiv_int_finite (sa sb : bool) (pa pb : positive) :
  Zdigits2 (Zpos pa) <= 1023 ->
  match SFdiv prec emax (S754_finite sa pa 0) (S754_finite sb pb 0) with
  | S754_zero _ => True
  | S754_finite _ m e => bounded prec emax m e = true
  | _ => False
  end.
Proof.
  intros Ha. unfold SFdiv, SFdiv_core_binary.
  set (d1 := Zdigits2 (Zpos pa)) in *.
  set (d2 := Zdigits2 (Zpos pb)).
  assert (H1 : 1 <= d1) by (unfold d1; simpl; lia).
  assert (H2 : 1 <= d2) by (unfold d2; simpl; lia).
  replace (d1 + 0 - (d2 + 0)) with (d1 - d2) by lia.
  change (0 - 0) with 0.
  set (e' := Z.min (fexp prec emax (d1 - d2)) 0).
  set (mm := match 0 - e' with
             | Zpos _ => Z.shiftl (Zpos pa) (0 - e')
             | Z0 => Zpos pa
             | Zneg _ => 0
             end).
  assert (Hmm : mm = Z.shiftl (Zpos pa) (- e')).
  { unfold mm. assert (He : e' <= 0) by (unfold e'; lia).
    replace (0 - e') with (- e') by lia.
    destruct (- e') eqn:E;
      [rewrite Z.shiftl_0_r; reflexivity | reflexivity | lia]. }
  assert (He : e' <= 0) by (unfold e'; lia).
  assert (Hmp : 0 < mm) by (rewrite Hmm; apply shiftl_pos; lia).
  assert (Hdm : Zdigits2 mm = d1 - e').
  { rewrite Hmm, Zdigits2_shiftl by lia. unfold d1. lia. }
  pose proof (Z.div_eucl_eq mm (Zpos pb) ltac:(lia)) as Heq.
  pose proof (Z.mod_pos_bound mm (Zpos pb) ltac:(lia)) as Hmod.
  assert (Hq : fst (Z.div_eucl mm (Zpos pb)) = mm / Zpos pb) by reflexivity.
  destruct (Z.div_eucl mm (Zpos pb)) as [q r]. cbn [fst] in Hq.
  pose proof (Zdigits2_div mm (Zpos pb) ltac:(lia) ltac:(lia)) as Hdq.
  rewrite <- Hq in Hdq. fold d2 in Hdq.
  assert (Hq0 : 0 <= q) by (rewrite Hq; apply Z.div_pos; lia).
  pose proof (Zdigits2_nonneg q) as Hqn.
  pose proof (binary_round_aux_range (xorb sa sb) q e'
                (new_location (Zpos pb) r) Hq0) as H.
  cbv zeta in H. rewrite fexp_eq in H.
  unfold e' in *. rewrite fexp_eq in *.
  specialize (H ltac:(lia) ltac:(lia)).
  destruct (binary_round_aux prec emax (xorb sa sb) q
              (Z.min (Z.max (d1 - d2 - 53) (-1074)) 0)
              (new_location (Zpos pb) r)) as [s'|s'| |s' m e];
    try contradiction; try exact I.
  apply H.
Qed.

(** Conversions between ints and floats. *)

Lemma float_of_int_pos (l h z : Z) :
  1 <= l -> h <= 1022 -> 2 ^ (l - 1) <= z < 2 ^ h ->
  Fpos l (h + 1) (Py.float_of_int z).
Proof.
  intros Hl Hh [Hz1 Hz2].
  assert (Hz : 0 < z) by (pose proof (Z.pow_pos_nonneg 2 (l - 1)); lia).
  assert (Hd1 : l <= Zdigits2 z).
  { pose proof (Zdigits2_ge_pow2 z (l - 1)). lia. }
  assert (Hh0 : 0 <= h).
  { destruct (Z.le_gt_cases 0 h) as [|Hn]; trivial.
    rewrite Z.pow_neg_r in Hz2 by assumption. lia. }
  assert (Hd2 : Zdigits2 z <= h).
  { apply Zdigits2_lt_pow2; lia. }
  unfold Fpos, Py.float_of_int.
  pose proof (binary_normalize_exact z 0) as H. cbv zeta in H.
  specialize (H ltac:(lia)).
  destruct (binary_normalize prec emax z 0 false) as [s'|s'| |s' m e] eqn:E;
    try contradiction.
  - destruct H as [[H _]|[_ H]]; lia.
  - destruct H as (_ & Hs & Hb & Hu & Hlo).
    rewrite Prim2SF_SF2Prim by exact Hb.
    replace (z <? 0) with false in Hs by (symmetry; apply Z.ltb_ge; lia).
    subst s'. simpl. lia.
Qed.

Lemma float_of_int_nonzero (z : Z) :
  1 <= z < 2 ^ 1000 -> is_zero (Py.float_of_int z) = false.
Proof.
  intros Hz.
  pose proof (Zdigits2_bounds z ltac:(lia)) as Hb.
  assert (Hd : 1 <= Zdigits2 z <= 1000).
  { split.
    - rewrite Zdigits2_log2 by lia. pose proof (Z.log2_nonneg z). lia.
    - apply Zdigits2_lt_pow2; lia. }
  pose proof (float_of_int_pos (Zdigits2 z) (Zdigits2 z) z
                ltac:(lia) ltac:(lia) Hb) as H.
  unfold Fpos in H. unfold is_zero. rewrite eqb_spec.
  change (Prim2SF 0) with (S754_zero false).
  destruct (Prim2SF (Py.float_of_int z)) as [| | |[] m e];
    try contradiction.
  reflexivity.
Qed.

Lemma int_of_float_pos (l h : Z) (x : float) :
  Fpos l h x -> 1 <= l ->
  exists n, Py.int_of_float x = Ok n /\ 2 ^ (l - 1) <= n < 2 ^ h.
Proof.
  unfold Fpos, Py.int_of_float. intros H Hl.
  destruct (Prim2SF x) as [| | |[] m e]; try contradiction.
  cbn [fpos] in H. unfold binade in H. cbn [cond_Zopp].
  exists (Z.shiftl (Zpos m) e). split; [reflexivity|].
  assert (Hd : Zdigits2 (Z.shiftl (Zpos m) e) = Zdigits2 (Zpos m) + e).
  { destruct (Z.le_gt_cases 0 e) as [He|He].
    - apply Zdigits2_shiftl; lia.
    - replace e with (- - e) at 1 by lia. rewrite Z.shiftl_opp_r.
      rewrite Zdigits2_shiftr by lia. lia. }
  assert (Hp : 0 < Z.shiftl (Zpos m) e).
  { destruct (Z.eq_dec (Z.shiftl (Zpos m) e) 0) as [E0|E0].
    - rewrite E0 in Hd. change (Zdigits2 0) with 0 in Hd. lia.
    - pose proof (Z.shiftl_nonneg (Zpos m) e). lia. }
  pose proof (Zdigits2_bounds _ Hp) as [B1 B2]. rewrite Hd in B1, B2.
  split.
  - apply Z.le_trans with (2 ^ (Zdigits2 (Zpos m) + e - 1)); [|assumption].
    apply Z.pow_le_mono_r; lia.
  - apply Z.lt_le_trans with (2 ^ (Zdigits2 (Zpos m) + e)); [assumption|].
    apply Z.pow_le_mono_r; lia.
Qed.

Lemma int_of_float_nonneg (l h : Z) (x : float) :
  Fpos l h x -> 0 <= h ->
  exists n, Py.int_of_float x = Ok n /\ 0 <= n < 2 ^ h.
Proof.
  unfold Fpos, Py.int_of_float. intros H Hh.
  destruct (Prim2SF x) as [| | |[] m e]; try contradiction.
  cbn [fpos] in H. unfold binade in H. cbn [cond_Zopp].
  exists (Z.shiftl (Zpos m) e). split; [reflexivity|].
  assert (Hn : 0 <= Z.shiftl (Zpos m) e) by (apply Z.shiftl_nonneg; lia).
  split; [assumption|].
  destruct (Z.eq_dec (Z.shiftl (Zpos m) e) 0) as [E0|E0].
  - rewrite E0. apply Z.pow_pos_nonneg; lia.
  - assert (Hd : Zdigits2 (Z.shiftl (Zpos m) e) <= Z.max 0 (Zdigits2 (Zpos m) + e)).
    { destruct (Z.le_gt_cases 0 e) as [He|He].
      - rewrite Zdigits2_shiftl by lia. lia.
      - replace e with (- - e) at 1 by lia. rewrite Z.shiftl_opp_r.
        rewrite Zdigits2_shiftr by lia. lia. }
    pose proof (Zdigits2_bounds (Z.shiftl (Zpos m) e) ltac:(lia)) as [_ B2].
    apply Z.lt_le_trans with (2 ^ Zdigits2 (Z.shiftl (Zpos m) e)); [assumption|].
    apply Z.pow_le_mono_r; lia.
Qed.

Lemma int_of_float_sgn (g h : Z) (x : float) :
  Fsgn g h x -> exists n, Py.int_of_float x = Ok n.
Proof.
  unfold Fsgn, Py.int_of_float. intros H.
  destruct (Prim2SF x) as [| | |s m e]; try contradiction; eauto.
Qed.

Lemma Fpos_Fsgn (l h g : Z) (x : float) : Fpos l h x -> Fsgn g h x.
Proof.
  unfold Fpos, Fsgn. destruct (Prim2SF x) as [| | |[] m e]; simpl; try tauto; lia.
Qed.

Lemma Fnn_Fsgn (g h : Z) (x : float) : Fnn h x -> Fsgn g h x.
Proof. apply fnn_fsgn. Qed.

Lemma Fpos_weaken (l h l' h' : Z) (x : float) :
  l' <= l -> h <= h' -> Fpos l h x -> Fpos l' h' x.
Proof. apply fpos_weaken. Qed.

Lemma int_truediv_ok (a b : Z) :
  b <> 0 -> Z.abs a < 2 ^ 1023 ->
  exists q, Py.int_truediv a b = Ok q.
Proof.
  intros Hb Ha. unfold Py.int_truediv.
  replace (b =? 0) with false by (symmetry; apply Z.eqb_neq; assumption).
  destruct a as [|pa|pa], b as [|pb|pb]; try contradiction;
    cbn [Py.SF_of_int];
    try (simpl; eexists; reflexivity).
  all: match goal with
       | |- context [SFdiv prec emax (S754_finite ?sa ?pa 0) (S754_finite ?sb ?pb 0)] =>
           pose proof (SFdiv_int_finite sa sb pa pb) as H;
           destruct (SFdiv prec emax (S754_finite sa pa 0) (S754_finite sb pb 0));
           [eexists; reflexivity
           | exfalso; apply H; apply Zdigits2_lt_pow2; simpl in Ha; lia
           | exfalso; apply H; apply Zdigits2_lt_pow2; simpl in Ha; lia
           | eexists; reflexivity]
       end.
Qed.

End FloatBounds.

(** ** Total-correctness triples

    [returns m Q]: from every state of the random generator, [m] returns
    normally with a value satisfying [Q]. *)

Section Triples.

Context {R : Random}.

Local Open Scope Z_scope.

Definition returns {A : Type} (m : M A) (Q : A -> Prop) : Prop :=
  forall s, exists a s', m s = Ok (a, s') /\ Q a.

Lemma returns_elim {A : Type} (m : M A) (Q : A -> Prop) s a s' :
  returns m Q -> m s = Ok (a, s') -> Q a.
Proof.
  intros H E. destruct (H s) as (a' & s'' & E' & HQ).
  rewrite E in E'. injection E' as -> _. exact HQ.
Qed.

Lemma returns_conseq {A : Type} (m : M A) (P Q : A -> Prop) :
  returns m P -> (forall a, P a -> Q a) -> returns m Q.
Proof.
  intros H HPQ s. destruct (H s) as (a & s' & E & HP). eauto.
Qed.

Lemma returns_conj {A : Type} (m : M A) (P Q : A -> Prop) :
  returns m P -> returns m Q -> returns m (fun a => P a /\ Q a).
Proof.
  intros HP HQ s. destruct (HP s) as (a & s' & E & Ha).
  exists a, s'. split; [assumption|]. split; [assumption|].
  exact (returns_elim m Q s a s' HQ E).
Qed.

Lemma returns_ret {A : Type} (a : A) (Q : A -> Prop) :
  Q a -> returns (ret a) Q.
Proof. intros H s. exists a, s. split; [reflexivity|assumption]. Qed.

Lemma returns_bind {A B : Type} (m : M A) (f : A -> M B)
    (P : A -> Prop) (Q : B -> Prop) :
  returns m P -> (forall a, P a -> returns (f a) Q) -> returns (bind m f) Q.
Proof.
  intros Hm Hf s. destruct (Hm s) as (a & s1 & E & HP).
  destruct (Hf a HP s1) as (b & s2 & E2 & HQ).
  exists b, s2. unfold bind. rewrite E. split; assumption.
Qed.

Lemma returns_lift {A : Type} (r : result A) (a : A) (Q : A -> Prop) :
  r = Ok a -> Q a -> returns (lift r) Q.
Proof.
  intros -> H s. exists a, s. split; [reflexivity|assumption].
Qed.

Lemma returns_draw {A : Type} (f : rng -> A * rng) (Q : A -> Prop) :
  (forall s, Q (fst (f s))) -> returns (draw f) Q.
Proof.
  intros H s. exists (fst (f s)), (snd (f s)). split; [|apply H].
  unfold draw. destruct (f s); reflexivity.
Qed.

Lemma returns_for_each {A B : Type} (P : A -> B -> Prop) (l : list A)
    (body : A -> M B) :
  (forall a, In a l -> returns (body a) (P a)) ->
  returns (for_each l body) (Forall2 P l).
Proof.
  induction l as [|a l IH]; intros H; cbn [for_each].
  - apply returns_ret. constructor.
  - eapply returns_bind; [apply H; left; reflexivity|].
    intros b Hb.
    eapply returns_bind; [apply IH; intros; apply H; right; assumption|].
    intros bs Hbs. apply returns_ret. constructor; assumption.
Qed.

(** *** The random primitives *)

Lemma randint_spec (a b : Z) :
  a <= b -> returns (draw (randint a b)) (fun z => a <= z <= b).
Proof. intros H. apply returns_draw. intros s. apply randint_range, H. Qed.

Lemma random_spec : returns (draw random) (FloatBounds.Fnn 0).
Proof.
  apply returns_draw. intros s.
  destruct (random_range s). apply FloatBounds.unit_interval_nn; assumption.
Qed.

Lemma uniform_total (a b : float) : returns (uniform a b) (fun _ => True).
Proof.
  unfold uniform. eapply returns_bind; [apply random_spec|].
  intros r _. apply returns_ret. exact I.
Qed.

(** [uniform(a, b)] from a negative [a]: the draw stays above [a]'s
    binade. *)
Lemma uniform_neg (g ld hd : Z) (a b : float) :
  FloatBounds.Fneg g a -> FloatBounds.Fpos ld hd (b - a)%float ->
  -1000 <= g <= 1000 -> -1000 <= hd <= 999 ->
  returns (uniform a b) (FloatBounds.Fsgn (g + 1) (hd + 2)).
Proof.
  intros Ha Hd Hg Hh. unfold uniform.
  eapply returns_bind; [apply random_spec|].
  intros r Hr. apply returns_ret.
  replace (hd + 2) with (hd + 0 + 1 + 1) by lia.
  apply FloatBounds.add_neg_nn; try assumption; try lia.
  apply (FloatBounds.mul_pos_nn ld); try assumption; lia.
Qed.

(** [uniform(a, b)] from a positive [a]. *)
Lemma uniform_pos (la ha ld hd : Z) (a b : float) :
  FloatBounds.Fpos la ha a -> FloatBounds.Fpos ld hd (b - a)%float ->
  -1019 <= la -> ha <= 1020 -> -1000 <= hd <= 1000 ->
  returns (uniform a b) (FloatBounds.Fpos (la - 1) (Z.max ha (hd + 1) + 2)).
Proof.
  intros Ha Hd Hl Hh Hhd. unfold uniform.
  eapply returns_bind; [apply random_spec|].
  intros r Hr. apply returns_ret.
  apply (FloatBounds.add_pos_sgn la ha (la - 2)); try assumption; try lia.
  apply FloatBounds.Fnn_Fsgn.
  replace (hd + 1) with (hd + 0 + 1) by lia.
  apply (FloatBounds.mul_pos_nn ld); try assumption; lia.
Qed.

(** The variances this program uses are below one quarter. *)
Definition small_variance (v : float) : Prop :=
  FloatBounds.Fneg (-2) (- v)%float
  /\ FloatBounds.Fpos (-60) 0 (v - - v)%float.

Lemma generate_daily_data_binade (base_value lb hb : Z) (variance : float) :
  small_variance variance -> 2 <= lb -> hb <= 1000 ->
  2 ^ (lb - 1) <= base_value < 2 ^ hb ->
  returns (generate_daily_data base_value variance)
          (fun n => 2 ^ (lb - 2) <= n < 2 ^ (hb + 6)).
Proof.
  intros [Hn Hd] Hlb Hhb Hbase. unfold generate_daily_data.
  eapply returns_bind.
  { apply (uniform_neg (-2) (-60) 0); try assumption; lia. }
  cbv beta. intros u Hu.
  assert (H1 : FloatBounds.Fpos 1 2 (Py.float_of_int 1)).
  { apply (FloatBounds.float_of_int_pos 1 1); simpl; lia. }
  assert (Hw : FloatBounds.Fpos 0 4 (Py.float_of_int 1 + u)%float).
  { apply (FloatBounds.add_pos_sgn 1 2 (-1) 2); try assumption; try lia. }
  assert (HB : FloatBounds.Fpos lb (hb + 1) (Py.float_of_int base_value)).
  { apply FloatBounds.float_of_int_pos; try assumption; lia. }
  pose proof (FloatBounds.mul_pos_pos _ _ _ _ _ _ HB Hw
                ltac:(lia) ltac:(lia)) as Hx.
  destruct (FloatBounds.int_of_float_pos _ _ _ Hx ltac:(lia)) as (n & En & Hn').
  eapply returns_lift; [exact En|].
  replace (lb + 0 - 1 - 1) with (lb - 2) in Hn' by lia.
  replace (hb + 1 + 4 + 1) with (hb + 6) in Hn' by lia.
  exact Hn'.
Qed.

(** A jittered count stays within a factor of its base: in particular it
    is positive. *)
Lemma generate_daily_data_range (base_value : Z) (variance : float) :
  small_variance variance -> 2 <= base_value < 2 ^ 900 ->
  returns (generate_daily_data base_value variance)
          (fun n => base_value < 4 * n /\ n < 128 * base_value).
Proof.
  intros Hv Hb.
  set (d := Zdigits2 base_value).
  pose proof (FloatBounds.Zdigits2_bounds base_value ltac:(lia)) as Hd.
  fold d in Hd.
  assert (Hd2 : 2 <= d <= 900).
  { split.
    - pose proof (FloatBounds.Zdigits2_ge_pow2 base_value 1). fold d in H.
      apply H; simpl; lia.
    - apply FloatBounds.Zdigits2_lt_pow2; lia. }
  eapply returns_conseq.
  { apply (generate_daily_data_binade base_value d d); try assumption; lia. }
  cbv beta. intros n [Hn1 Hn2].
  assert (E1 : 2 ^ (d - 1) = 2 * 2 ^ (d - 2)).
  { replace (d - 1) with (Z.succ (d - 2)) by lia. apply Z.pow_succ_r. lia. }
  assert (E2 : 2 ^ d = 4 * 2 ^ (d - 2)).
  { replace d with (Z.succ (Z.succ (d - 2))) at 1 by lia.
    rewrite !Z.pow_succ_r by lia. lia. }
  assert (E3 : 2 ^ (d + 6) = 64 * 2 ^ d).
  { rewrite Z.pow_add_r by lia. change (2 ^ 6) with 64. lia. }
  lia.
Qed.

Lemma percent_spec (count total : Z) (nd : N) :
  total <> 0 -> Z.abs count < 2 ^ 1023 ->
  returns (percent count total nd)
          (fun p => percent_of count total nd = Ok p).
Proof.
  intros Ht Hc.
  destruct (FloatBounds.int_truediv_ok count total Ht Hc) as (q & Eq).
  unfold percent.
  assert (E : percent_of count total nd
              = Ok (Py.round (q * Py.float_of_int 100)%float nd)).
  { unfold percent_of. rewrite Eq. reflexivity. }
  eapply returns_lift; [exact E|exact E].
Qed.

(** [int(z * c)] for a positive int [z] and a positive float [c]. *)
Lemma int_of_product (z lz hz lc hc : Z) (c : float) :
  1 <= lz -> hz <= 900 -> 2 ^ (lz - 1) <= z < 2 ^ hz ->
  FloatBounds.Fpos lc hc c -> -100 <= lc -> hc <= 100 -> 0 <= hz + hc ->
  exists n, Py.int_of_float (Py.float_of_int z * c)%float = Ok n
            /\ 0 <= n < 2 ^ (hz + hc + 2)
            /\ (2 <= lz + lc -> 2 ^ (lz + lc - 2) <= n).
Proof.
  intros Hlz Hhz Hz Hc Hlc Hhc Hh.
  assert (HB : FloatBounds.Fpos lz (hz + 1) (Py.float_of_int z)).
  { apply FloatBounds.float_of_int_pos; try assumption; lia. }
  pose proof (FloatBounds.mul_pos_pos _ _ _ _ _ _ HB Hc
                ltac:(lia) ltac:(lia)) as Hx.
  destruct (FloatBounds.int_of_float_nonneg _ _ _ Hx ltac:(lia))
    as (n & En & Hn).
  exists n. split; [assumption|].
  replace (hz + 1 + hc + 1) with (hz + hc + 2) in Hn by lia.
  split; [assumption|]. intros H2.
  destruct (FloatBounds.int_of_float_pos _ _ _ Hx ltac:(lia)) as (n' & En' & Hn').
  rewrite En in En'. injection En' as <-.
  replace (lz + lc - 1 - 1) with (lz + lc - 2) in Hn' by lia. lia.
Qed.

End Triples.

(** ** Specifications of the generators

    Each endpoint returns from every state of the random generator, and
    the report it returns has the shape and the ranges stated by its
    postcondition. *)

Ltac float_range :=
  unfold small_variance, FloatBounds.Fneg, FloatBounds.Fpos,
    FloatBounds.Fsgn, FloatBounds.Fnn;
  vm_compute; repeat split; intro; discriminate.

Ltac spec_ranges :=
  repeat (constructor; [cbn [fst snd]; lia|]); constructor.

Ltac invert_Forall2 :=
  repeat match goal with
         | H : Forall2 _ (_ :: _) _ |- _ => inversion H; subst; clear H
         | H : Forall2 _ [] _ |- _ => inversion H; subst; clear H
         end.

Section Specifications.

Context {R : Random}.

Variable get_date : string.

Local Open Scope Z_scope.
Local Open Scope string_scope.
Local Open Scope monad_scope.

Lemma small_variance_015 : small_variance 0.15.
Proof. float_range. Qed.
Lemma small_variance_02 : small_variance 0.2.
Proof. float_range. Qed.
Lemma small_variance_01 : small_variance 0.1.
Proof. float_range. Qed.
Lemma small_variance_005 : small_variance 0.05.
Proof. float_range. Qed.
Lemma small_variance_003 : small_variance 0.03.
Proof. float_range. Qed.



(** *** Lists *)

Lemma isum_cons (x : Z) (l : list Z) : Py.isum (x :: l) = x + Py.isum l.
Proof.
  unfold Py.isum. cbn [fold_left]. 
  assert (H : forall l a, fold_left Z.add l a = a + fold_left Z.add l 0).
  { clear. induction l as [|y l IH]; intros a; cbn [fold_left]; [lia|].
    rewrite (IH (a + y)), (IH (0 + y)). lia. }
  rewrite (H l (0 + x)). lia.
Qed.

Lemma isum_app (l1 l2 : list Z) : Py.isum (l1 ++ l2) = Py.isum l1 + Py.isum l2.
Proof.
  induction l1 as [|x l1 IH]; [reflexivity|].
  cbn [app]. rewrite !isum_cons, IH. lia.
Qed.

Lemma isum_bounds (lo hi : Z) (l : list Z) :
  Forall (fun x => lo <= x <= hi) l ->
  lo * Z.of_nat (List.length l) <= Py.isum l <= hi * Z.of_nat (List.length l).
Proof.
  induction 1 as [|x l Hx _ IH].
  - cbn. lia.
  - rewrite isum_cons. cbn [List.length]. rewrite Nat2Z.inj_succ. lia.
Qed.

Lemma filter_all {A : Type} (p : A -> bool) (l : list A) :
  Forall (fun x => p x = true) l -> filter p l = l.
Proof.
  induction 1 as [|x l Hx _ IH]; [reflexivity|].
  cbn [filter]. rewrite Hx, IH. reflexivity.
Qed.

Lemma filter_none {A : Type} (p : A -> bool) (l : list A) :
  Forall (fun x => p x = false) l -> filter p l = [].
Proof.
  induction 1 as [|x l Hx _ IH]; [reflexivity|].
  cbn [filter]. rewrite Hx, IH. reflexivity.
Qed.

Lemma Forall2_right {A B : Type} (P : A -> B -> Prop) (Q : B -> Prop)
    (l : list A) (l' : list B) :
  Forall2 P l l' -> (forall a b, P a b -> Q b) -> Forall Q l'.
Proof. induction 1; intros HQ; constructor; eauto. Qed.

Lemma Forall_map_iff {A B : Type} (f : A -> B) (Q : B -> Prop) (l : list A) :
  Forall (fun x => Q (f x)) l -> Forall Q (map f l).
Proof. induction 1; cbn [map]; constructor; assumption. Qed.

Lemma filter_length_le {A : Type} (p : A -> bool) (l : list A) :
  (List.length (filter p l) <= List.length l)%nat.
Proof.
  induction l as [|x l IH]; cbn [filter List.length]; [lia|].
  destruct (p x); cbn [List.length]; lia.
Qed.

Lemma Forall_filter {A : Type} (p : A -> bool) (Q : A -> Prop) (l : list A) :
  Forall Q l -> Forall Q (filter p l).
Proof.
  induction 1 as [|x l Hx _ IH]; cbn [filter]; [constructor|].
  destruct (p x); [constructor|]; assumption.
Qed.

(** The sum of a selection of counts that all lie in [0 .. hi]. *)
Lemma isum_filter_bounds {A : Type} (count : A -> Z) (p : A -> bool)
    (hi : Z) (l : list A) :
  Forall (fun x => 0 <= count x <= hi) l ->
  0 <= Py.isum (map count (filter p l)) <= hi * Z.of_nat (List.length l).
Proof.
  intros H.
  pose proof (isum_bounds 0 hi (map count (filter p l))
                (Forall_map_iff count _ _ (Forall_filter p _ l H))) as Hb.
  rewrite length_map in Hb.
  pose proof (filter_length_le p l) as Hl.
  assert (Hc : 0 <= hi \/ l = []).
  { destruct H as [|x l [Hx1 Hx2] _]; [right; reflexivity|left; lia]. }
  destruct Hc as [Hh|Hl0].
  - nia.
  - subst l. cbn in *. lia.
Qed.

Lemma sum_floats (l : list float) (f : float) :
  exists f', fold_left Py.add (map Py.Float l) (Py.Float f) = Py.Float f'.
Proof.
  revert f. induction l as [|x l IH]; intros f; cbn [map fold_left].
  - eauto.
  - cbn [Py.add]. apply IH.
Qed.

Lemma sum_floats_nonempty (x : float) (l : list float) :
  exists f, Py.sum (Py.Float x :: map Py.Float l) = Py.Float f.
Proof. unfold Py.sum. cbn [fold_left Py.add]. apply sum_floats. Qed.

Lemma truediv_float_int (f : float) (n : Z) :
  1 <= n < 2 ^ 1000 ->
  Py.truediv (Py.Float f) (Py.Int n) = Ok (f / Py.float_of_int n)%float.
Proof.
  intros Hn. cbn [Py.truediv Py.to_float]. unfold Py.float_truediv.
  rewrite FloatBounds.float_of_int_nonzero by assumption. reflexivity.
Qed.


Lemma Forall2_concat_prod {A B C : Type} (P : A -> B -> C -> Prop)
    (la : list A) (lb : list B) (ll : list (list C)) :
  Forall2 (fun a l => Forall2 (P a) lb l) la ll ->
  Forall2 (fun ab c => P (fst ab) (snd ab) c) (list_prod la lb) (List.concat ll).
Proof.
  induction 1 as [|a l la ll Hl _ IH]; cbn [list_prod List.concat].
  - constructor.
  - apply Forall2_app; [|exact IH].
    clear IH. induction Hl; cbn [map]; constructor; assumption.
Qed.

Lemma max_by_ok {A K : Type} (gt : K -> K -> bool) (key : A -> K)
    (a : A) (l : list A) :
  exists b, Seq.max_by gt key (a :: l) = Ok b.
Proof. cbn [Seq.max_by]. eauto. Qed.

Lemma average_ok {A : Type} (f : A -> float) (l : list A) :
  l <> [] -> (List.length l <= 1000)%nat ->
  exists avg,
    Py.truediv (Py.sum (map (fun g => Py.Float (f g)) l))
               (Py.Int (Z.of_nat (List.length l))) = Ok avg.
Proof.
  intros Hne Hlen. destruct l as [|a l]; [contradiction|].
  rewrite <- (map_map f Py.Float).
  cbn [map]. destruct (sum_floats_nonempty (f a) (map f l)) as (x & Ex).
  rewrite Ex. rewrite truediv_float_int; [eauto|].
  assert (1000 < 2 ^ 1000) by (apply Z.pow_gt_lin_r; lia).
  cbn [List.length] in *. lia.
Qed.

(** *** Kategori 1 *)

Definition hour_ok (hour : Z) (t : TrafficHourData.t) : Prop :=
  TrafficHourData.hour t = hour
  /\ TrafficHourData.period t
     = (if between 7 hour 9 then "Morning Peak"
        else if between 16 hour 19 then "Evening Peak" else "")
  /\ 12 < TrafficHourData.count t < 76800.

Definition gate_ok (total : Z) (zone : string) (i : Z)
    (g : GateUtilizationData.t) : Prop :=
  GateUtilizationData.gate_id g = "TAP-" ++ Str.upper zone ++ "-00" ++ Str.of_int i
  /\ GateUtilizationData.zone g = zone
  /\ 100 < GateUtilizationData.count g < 83200
  /\ percent_of (GateUtilizationData.count g) total 2
     = Ok (GateUtilizationData.utilization_rate g).

Definition zone_gates (zone : string) (gates : list GateUtilizationData.t)
  : list GateUtilizationData.t :=
  filter (fun g => GateUtilizationData.zone g =? zone) gates.

Definition zone_ok (total : Z) (gates : list GateUtilizationData.t)
    (label zone : string) (z : TrafficZoneData.t) : Prop :=
  TrafficZoneData.zone z = label
  /\ TrafficZoneData.count z
     = Py.isum (map GateUtilizationData.count (zone_gates zone gates))
  /\ 400 < TrafficZoneData.count z < 332800
  /\ percent_of (TrafficZoneData.count z) total 1
     = Ok (TrafficZoneData.percentage z).

Definition balance_ok (zone_data : TrafficZoneData.t) (direction : string)
    (b : DirectionBalanceData.t) : Prop :=
  DirectionBalanceData.zone b
  = Str.replace "TAP-" "" (TrafficZoneData.zone zone_data)
  /\ DirectionBalanceData.direction b = direction
  /\ (exists u,
        FloatBounds.Fpos (-2) 1 u
        /\ Py.int_of_float
             (Py.float_of_int (TrafficZoneData.count zone_data) * u)%float
           = Ok (DirectionBalanceData.count b))
  /\ 0 < DirectionBalanceData.count b
  /\ percent_of (DirectionBalanceData.count b)
                (TrafficZoneData.count zone_data) 1
     = Ok (DirectionBalanceData.percentage b).

Definition peak_count (lo hi : Z) (hours : list TrafficHourData.t) : Z :=
  Py.isum (map TrafficHourData.count
             (filter (fun t => between lo (TrafficHourData.hour t) hi) hours)).

Definition operational_summary_ok (r : OperationalEfficiencyResponse.t) : Prop :=
  let s := OperationalEfficiencyResponse.summary r in
  let total := OperationalEfficiencyResponse.total_transactions r in
  let hours := OperationalEfficiencyResponse.traffic_per_hour r in
  let gates := OperationalEfficiencyResponse.gate_utilization r in
  OperationalEfficiencySummary.morning_peak_transactions s = peak_count 7 9 hours
  /\ percent_of (peak_count 7 9 hours) total 1
     = Ok (OperationalEfficiencySummary.morning_peak_percentage s)
  /\ OperationalEfficiencySummary.evening_peak_transactions s = peak_count 16 19 hours
  /\ percent_of (peak_count 16 19 hours) total 1
     = Ok (OperationalEfficiencySummary.evening_peak_percentage s)
  /\ (exists avg,
        Py.truediv
          (Py.sum (map (fun g => Py.Float (GateUtilizationData.utilization_rate g)) gates))
          (Py.Int (Z.of_nat (List.length gates))) = Ok avg
        /\ OperationalEfficiencySummary.avg_gate_utilization_rate s = Py.round avg 2)
  /\ (exists g,
        Seq.max_by Z.gtb GateUtilizationData.count gates = Ok g
        /\ OperationalEfficiencySummary.busiest_gate s = GateUtilizationData.gate_id g)
  /\ (exists z,
        Seq.max_by Z.gtb TrafficZoneData.count
          (OperationalEfficiencyResponse.traffic_by_zone r) = Ok z
        /\ OperationalEfficiencySummary.busiest_zone s = TrafficZoneData.zone z).

Definition operational_post (date : option string)
    (r : OperationalEfficiencyResponse.t) : Prop :=
  let total := OperationalEfficiencyResponse.total_transactions r in
  let gates := OperationalEfficiencyResponse.gate_utilization r in
  let zones := OperationalEfficiencyResponse.traffic_by_zone r in
  OperationalEfficiencyResponse.date r = date_or_today get_date date
  /\ 4000 <= total <= 6000
  /\ Forall2 hour_ok (Seq.range 6 23)
       (OperationalEfficiencyResponse.traffic_per_hour r)
  /\ Forall2 (fun zi g => gate_ok total (fst zi) (snd zi) g)
       (list_prod ["North"; "West"] (Seq.range 1 5)) gates
  /\ Forall2 (fun lz z => zone_ok total gates (fst lz) (snd lz) z)
       [("TAP-NORTH", "North"); ("TAP-WEST", "West")] zones
  /\ Forall2 (fun zd b => balance_ok (fst zd) (snd zd) b)
       (list_prod zones ["IN"; "OUT"])
       (OperationalEfficiencyResponse.balance_direction r)
  /\ operational_summary_ok r.

Lemma hour_loop_spec :
  returns
    (for_each (Seq.range 6 23)
       (fun hour : Z =>
        x <-
        (if between 7 hour 9
         then b <- draw (randint 400 600);; ret (b, "Morning Peak")
         else
          if between 16 hour 19
          then b <- draw (randint 400 600);; ret (b, "Evening Peak")
          else b <- draw (randint 50 200);; ret (b, ""));;
        (let (base_count, period) := x in
         count <- generate_daily_data base_count 0.15;;
         ret
           {|
             TrafficHourData.hour := hour;
             TrafficHourData.count := count;
             TrafficHourData.period := period
           |})))%monad
    (Forall2 hour_ok (Seq.range 6 23)).
Proof.
  apply returns_for_each. intros hour _.
  eapply returns_bind
    with (P := fun x =>
       snd x = (if between 7 hour 9 then "Morning Peak"
                else if between 16 hour 19 then "Evening Peak" else "")
       /\ 50 <= fst x <= 600).
  { destruct (between 7 hour 9); [|destruct (between 16 hour 19)];
      (eapply returns_bind; [apply randint_spec; lia|]);
      cbv beta; intros b Hb; apply returns_ret; cbn [fst snd];
      (split; [reflexivity|lia]). }
  intros [base period] [Hp Hb]. cbn [fst snd] in Hp, Hb.
  eapply returns_bind.
  { apply generate_daily_data_range; [apply small_variance_015|lia]. }
  cbv beta. intros count [Hc1 Hc2]. apply returns_ret.
  unfold hour_ok. cbn [TrafficHourData.hour TrafficHourData.period TrafficHourData.count].
  repeat split; try assumption; lia.
Qed.

Lemma gate_loop_spec (total : Z) (zone : string) :
  total <> 0 ->
  returns
    (for_each (Seq.range 1 5)
          (fun i : Z =>
           base_count <-
           (if zone =? "North"
            then draw (randint 450 650)
            else draw (randint 400 600));;
           count <- generate_daily_data base_count 0.2;;
           utilization_rate <- percent count total 2;;
           ret
             {|
               GateUtilizationData.gate_id :=
                 "TAP-" ++ Str.upper zone ++ "-00" ++ Str.of_int i;
               GateUtilizationData.zone := zone;
               GateUtilizationData.count := count;
               GateUtilizationData.utilization_rate := utilization_rate
             |}))%monad
    (Forall2 (gate_ok total zone) (Seq.range 1 5)).
Proof.
  intros Ht. apply returns_for_each. intros i _.
  eapply returns_bind with (P := fun b => 400 <= b <= 650).
  { destruct (zone =? "North"); eapply returns_conseq;
      try (apply randint_spec; lia); cbv beta; intros; lia. }
  intros base Hb.
  eapply returns_bind.
  { apply generate_daily_data_range; [apply small_variance_02|lia]. }
  cbv beta. intros count [Hc1 Hc2].
  eapply returns_bind.
  { apply percent_spec; [assumption|lia]. }
  cbv beta. intros rate Hrate. apply returns_ret.
  unfold gate_ok.
  cbn [GateUtilizationData.gate_id GateUtilizationData.zone
       GateUtilizationData.count GateUtilizationData.utilization_rate].
  repeat split; try assumption; lia.
Qed.



Lemma zone_gates_north (total : Z) (gsN gsW : list GateUtilizationData.t) :
  Forall2 (gate_ok total "North") (Seq.range 1 5) gsN ->
  Forall2 (gate_ok total "West") (Seq.range 1 5) gsW ->
  zone_gates "North" (gsN ++ gsW) = gsN /\ zone_gates "West" (gsN ++ gsW) = gsW.
Proof.
  intros HN HW. unfold zone_gates. rewrite !filter_app.
  assert (EN : Forall (fun g => GateUtilizationData.zone g = "North") gsN).
  { eapply Forall2_right; [exact HN|]. intros a b H. apply H. }
  assert (EW : Forall (fun g => GateUtilizationData.zone g = "West") gsW).
  { eapply Forall2_right; [exact HW|]. intros a b H. apply H. }
  assert (A1 : Forall (fun g => (GateUtilizationData.zone g =? "North") = true) gsN).
  { eapply Forall_impl; [|exact EN]. cbv beta. intros g Hg. rewrite Hg. reflexivity. }
  assert (A2 : Forall (fun g => (GateUtilizationData.zone g =? "North") = false) gsW).
  { eapply Forall_impl; [|exact EW]. cbv beta. intros g Hg. rewrite Hg. reflexivity. }
  assert (A3 : Forall (fun g => (GateUtilizationData.zone g =? "West") = false) gsN).
  { eapply Forall_impl; [|exact EN]. cbv beta. intros g Hg. rewrite Hg. reflexivity. }
  assert (A4 : Forall (fun g => (GateUtilizationData.zone g =? "West") = true) gsW).
  { eapply Forall_impl; [|exact EW]. cbv beta. intros g Hg. rewrite Hg. reflexivity. }
  rewrite (filter_all _ gsN A1), (filter_none _ gsW A2),
          (filter_none _ gsN A3), (filter_all _ gsW A4).
  rewrite app_nil_r. split; reflexivity.
Qed.

Lemma zone_count_bounds (total : Z) (zone : string)
    (gs : list GateUtilizationData.t) :
  Forall2 (gate_ok total zone) (Seq.range 1 5) gs ->
  400 < Py.isum (map GateUtilizationData.count gs) < 332800.
Proof.
  intros H.
  assert (Hl : List.length gs = 4%nat).
  { apply Forall2_length in H. rewrite <- H. reflexivity. }
  assert (Hb : Forall (fun x => 101 <= x <= 83199)
                 (map GateUtilizationData.count gs)).
  { apply Forall_map_iff. eapply Forall2_right; [exact H|].
    cbv beta. intros a b (_ & _ & Hc & _). lia. }
  apply isum_bounds in Hb. rewrite length_map, Hl in Hb. lia.
Qed.

Lemma balance_loop_spec (zone_data : TrafficZoneData.t) :
  400 < TrafficZoneData.count zone_data < 332800 ->
  returns
    (for_each ["IN"; "OUT"]
       (fun direction : string =>
          u <- uniform 0.45 0.55;;
          count <- lift (Py.int_of_float
                     (Py.float_of_int (TrafficZoneData.count zone_data) * u)%float);;
          percentage <- percent count (TrafficZoneData.count zone_data) 1;;
          ret {| DirectionBalanceData.zone :=
                   Str.replace "TAP-" "" (TrafficZoneData.zone zone_data);
                 DirectionBalanceData.direction := direction;
                 DirectionBalanceData.count := count;
                 DirectionBalanceData.percentage := percentage |}))%monad
    (Forall2 (balance_ok zone_data) ["IN"; "OUT"]).
Proof.
  intros Hz. apply returns_for_each. intros direction _.
  eapply returns_bind.
  { apply (uniform_pos (-1) (-1) (-3) (-3)); try lia; float_range. }
  cbv beta. intros u Hu. change (Z.max (-1) (-3 + 1) + 2) with 1 in Hu.
  change (-1 - 1) with (-2) in Hu.
  destruct (int_of_product (TrafficZoneData.count zone_data) 9 19 (-2) 1 u)
    as (n & En & Hn & Hlow); try assumption; try lia.
  eapply returns_bind with (P := fun n' => n' = n);
    [eapply returns_lift; [exact En|reflexivity]|].
  cbv beta. intros n' ->.
  specialize (Hlow ltac:(lia)). change (2 ^ (9 + -2 - 2)) with 32 in Hlow.
  change (2 ^ (19 + 1 + 2)) with 4194304 in Hn.
  eapply returns_bind; [apply percent_spec; lia|].
  cbv beta. intros p Hp. apply returns_ret.
  unfold balance_ok.
  cbn [DirectionBalanceData.zone DirectionBalanceData.direction
       DirectionBalanceData.count DirectionBalanceData.percentage].
  repeat split; try assumption; try lia.
  exists u. split; assumption.
Qed.

Lemma get_operational_efficiency_spec (date : option string) :
  returns (get_operational_efficiency get_date date) (operational_post date).
Proof.
  unfold get_operational_efficiency.
  eapply returns_bind; [apply (randint_spec 4000 6000); lia|].
  cbv beta. intros total Htotal.
  eapply returns_bind; [apply hour_loop_spec|].
  intros tph Htph.
  eapply returns_bind.
  { apply (returns_for_each
             (fun zone gs => Forall2 (gate_ok total zone) (Seq.range 1 5) gs)).
    intros zone _. apply gate_loop_spec. lia. }
  intros gbz Hgbz.
  pose proof (Forall2_concat_prod _ _ _ _ Hgbz) as Hgates.
  inversion Hgbz as [|? gsN ? l1 HgN Hrest]; subst; clear Hgbz.
  inversion Hrest as [|? gsW ? l2 HgW Hnil]; subst; clear Hrest.
  inversion Hnil; subst; clear Hnil.
  cbn [List.concat] in *. rewrite app_nil_r in *.
  destruct (zone_gates_north total gsN gsW HgN HgW) as [EN EW].
  pose proof (zone_count_bounds _ _ _ HgN) as HcN.
  pose proof (zone_count_bounds _ _ _ HgW) as HcW.
  fold (zone_gates "North" (gsN ++ gsW)). fold (zone_gates "West" (gsN ++ gsW)).
  set (gates := (gsN ++ gsW)%list) in *.
  set (north_count := Py.isum (map GateUtilizationData.count (zone_gates "North" gates))).
  set (west_count := Py.isum (map GateUtilizationData.count (zone_gates "West" gates))).
  assert (HnN : 400 < north_count < 332800)
    by (unfold north_count; rewrite EN; exact HcN).
  assert (HnW : 400 < west_count < 332800)
    by (unfold west_count; rewrite EW; exact HcW).
  eapply returns_bind; [apply percent_spec; lia|]. cbv beta. intros pN HpN.
  eapply returns_bind; [apply percent_spec; lia|]. cbv beta. intros pW HpW.
  set (zN := {| TrafficZoneData.zone := "TAP-NORTH";
                TrafficZoneData.count := north_count;
                TrafficZoneData.percentage := pN |}).
  set (zW := {| TrafficZoneData.zone := "TAP-WEST";
                TrafficZoneData.count := west_count;
                TrafficZoneData.percentage := pW |}).
  eapply returns_bind.
  { apply (returns_for_each
             (fun zd bs => Forall2 (balance_ok zd) ["IN"; "OUT"] bs)).
    intros zd Hin. apply balance_loop_spec.
    destruct Hin as [<-|[<-|[]]]; cbn [TrafficZoneData.count]; assumption. }
  intros bbz Hbbz. apply Forall2_concat_prod in Hbbz.
  assert (Hlen : List.length gates = 8%nat).
  { apply Forall2_length in Hgates. rewrite <- Hgates. reflexivity. }
  destruct (average_ok GateUtilizationData.utilization_rate gates)
    as (avg & Eavg).
  { intros E. rewrite E in Hlen. discriminate. }
  { lia. }
  eapply returns_bind with (P := fun a => a = avg);
    [eapply returns_lift; [exact Eavg|reflexivity]|].
  cbv beta. intros ? ->.
  assert (Hh : Forall (fun t => 0 <= TrafficHourData.count t <= 76800) tph).
  { eapply Forall2_right; [exact Htph|]. cbv beta.
    intros a b (_ & _ & Hc). lia. }
  assert (Hlh : List.length tph = 17%nat).
  { apply Forall2_length in Htph. rewrite <- Htph. reflexivity. }
  fold (peak_count 7 9 tph). fold (peak_count 16 19 tph).
  pose proof (isum_filter_bounds TrafficHourData.count
                (fun t => between 7 (TrafficHourData.hour t) 9) _ _ Hh) as Hm.
  pose proof (isum_filter_bounds TrafficHourData.count
                (fun t => between 16 (TrafficHourData.hour t) 19) _ _ Hh) as He.
  fold (peak_count 7 9 tph) in Hm. fold (peak_count 16 19 tph) in He.
  rewrite Hlh in Hm, He.
  eapply returns_bind; [apply percent_spec; lia|]. cbv beta. intros pm Hpm.
  eapply returns_bind; [apply percent_spec; lia|]. cbv beta. intros pe Hpe.
  assert (Hg1 : exists g, Seq.max_by Z.gtb GateUtilizationData.count gates = Ok g).
  { destruct gates as [|g0 gs]; [discriminate|]. apply max_by_ok. }
  destruct Hg1 as (bg & Ebg).
  eapply returns_bind with (P := fun a => a = bg);
    [eapply returns_lift; [exact Ebg|reflexivity]|].
  cbv beta. intros ? ->.
  destruct (max_by_ok Z.gtb TrafficZoneData.count zN [zW]) as (bz & Ebz).
  eapply returns_bind with (P := fun a => a = bz);
    [eapply returns_lift; [exact Ebz|reflexivity]|].
  cbv beta. intros ? ->.
  apply returns_ret.
  unfold operational_post, operational_summary_ok.
  cbn [OperationalEfficiencyResponse.date
       OperationalEfficiencyResponse.total_transactions
       OperationalEfficiencyResponse.traffic_per_hour
       OperationalEfficiencyResponse.gate_utilization
       OperationalEfficiencyResponse.traffic_by_zone
       OperationalEfficiencyResponse.balance_direction
       OperationalEfficiencyResponse.summary
       OperationalEfficiencySummary.morning_peak_transactions
       OperationalEfficiencySummary.morning_peak_percentage
       OperationalEfficiencySummary.evening_peak_transactions
       OperationalEfficiencySummary.evening_peak_percentage
       OperationalEfficiencySummary.avg_gate_utilization_rate
       OperationalEfficiencySummary.busiest_gate
       OperationalEfficiencySummary.busiest_zone].
  split; [reflexivity|]. split; [assumption|]. split; [assumption|].
  split; [assumption|].
  split.
  { constructor; [|constructor; [|constructor]];
      unfold zone_ok; cbn [fst snd TrafficZoneData.zone TrafficZoneData.count
                           TrafficZoneData.percentage zN zW];
      repeat split; try assumption; try reflexivity; lia. }
  split; [assumption|].
  repeat split; try assumption; eauto.
Qed.
(** *** Buckets: a label, a jittered count and its percentage *)

Definition base_ok (spec : string * (Z * Z)) (b : string * Z) : Prop :=
  fst b = fst spec /\ fst (snd spec) <= snd b <= snd (snd spec).

Lemma draw_bases_spec (spec : list (string * (Z * Z))) :
  Forall (fun e => fst (snd e) <= snd (snd e)) spec ->
  returns (draw_bases spec) (Forall2 base_ok spec).
Proof.
  intros H. unfold draw_bases. apply returns_for_each.
  intros [label [lo hi]] Hin.
  rewrite Forall_forall in H. specialize (H _ Hin). cbn [fst snd] in H.
  eapply returns_bind; [apply randint_spec; assumption|].
  cbv beta. intros b Hb. apply returns_ret.
  unfold base_ok. cbn [fst snd]. split; [reflexivity|assumption].
Qed.

Definition bucket_ok {T : Type} (label : T -> string) (count : T -> Z)
    (percentage : T -> float) (total : Z) (spec : string * (Z * Z)) (t : T)
  : Prop :=
  label t = fst spec
  /\ fst (snd spec) < 4 * count t
  /\ count t < 128 * snd (snd spec)
  /\ percent_of (count t) total 1 = Ok (percentage t).

Lemma bucket_loop_spec {T : Type} (mk : string -> Z -> float -> T)
    (label : T -> string) (count : T -> Z) (percentage : T -> float)
    (total : Z) (variance : float)
    (spec : list (string * (Z * Z))) (bases : list (string * Z)) :
  (forall l c p, label (mk l c p) = l /\ count (mk l c p) = c
                 /\ percentage (mk l c p) = p) ->
  small_variance variance -> total <> 0 ->
  Forall (fun e => 2 <= fst (snd e) /\ snd (snd e) <= 100000) spec ->
  Forall2 base_ok spec bases ->
  returns
    (for_each bases (fun '(l, base_count) =>
       c <- generate_daily_data base_count variance ;;
       p <- percent c total 1 ;;
       ret (mk l c p)))
    (Forall2 (bucket_ok label count percentage total) spec).
Proof.
  intros Hmk Hv Ht Hspec Hb.
  induction Hb as [|e b spec bases Hbe Hb IH]; cbn [for_each].
  - apply returns_ret. constructor.
  - inversion Hspec as [|? ? He Hspec']; subst.
    destruct e as [sl [lo hi]], b as [l base], Hbe as [Hl Hr].
    cbn [fst snd] in *. subst l.
    eapply returns_bind.
    { eapply returns_bind.
      { apply generate_daily_data_range; [assumption|].
        lia. }
      cbv beta. intros c [Hc1 Hc2].
      eapply returns_bind; [apply percent_spec; [assumption|lia]|].
      cbv beta. intros p Hp. apply returns_ret.
      instantiate (1 := bucket_ok label count percentage total (sl, (lo, hi))).
      destruct (Hmk sl c p) as (E1 & E2 & E3).
      unfold bucket_ok. rewrite E1, E2, E3. cbn [fst snd].
      repeat split; try assumption; lia. }
    intros t Ht'.
    eapply returns_bind; [apply IH; assumption|].
    intros ts Hts. apply returns_ret. constructor; assumption.
Qed.


Lemma Forall2_base_labels (spec : list (string * (Z * Z)))
    (bases : list (string * Z)) :
  Forall2 base_ok spec bases -> map fst bases = map fst spec.
Proof.
  induction 1 as [|e b spec bases [H _] _ IH]; cbn [map]; [reflexivity|].
  rewrite H, IH. reflexivity.
Qed.

Lemma bucket_counts_bounded {T : Type} (label : T -> string) (count : T -> Z)
    (percentage : T -> float) (total : Z)
    (spec : list (string * (Z * Z))) (ts : list T) :
  Forall (fun e => 2 <= fst (snd e) /\ snd (snd e) <= 100000) spec ->
  Forall2 (bucket_ok label count percentage total) spec ts ->
  Forall (fun t => 0 <= count t <= 12800000) ts.
Proof.
  intros Hs H. induction H as [|e t spec ts (_ & H1 & H2 & _) _ IH].
  - constructor.
  - inversion Hs as [|? ? [He1 He2] Hs']; subst.
    constructor; [lia|]. apply IH. assumption.
Qed.

(** *** Kategori 3 *)

Definition age_spec : list (string * (Z * Z)) :=
  [ ("18-24", (300, 500)); ("25-34", (800, 1200)); ("35-44", (1000, 1500));
    ("45-54", (700, 1000)); ("55+", (200, 400)) ].

Definition occupation_spec : list (string * (Z * Z)) :=
  [ ("Karyawan Swasta", (1500, 2200)); ("PNS/BUMN", (600, 900));
    ("Pelajar/Mahasiswa", (400, 700)); ("Wiraswasta", (500, 800));
    ("Wisatawan", (100, 300)) ].

Definition station_spec : list (string * (Z * Z)) :=
  [ ("Bekasi", (700, 1000)); ("Cikarang", (400, 600)); ("Depok", (500, 700));
    ("Bogor", (400, 600)); ("Tangerang", (300, 500)); ("Sudirman", (300, 500));
    ("Karet", (300, 500)); ("Pasar Minggu", (100, 300));
    ("Tanah Abang", (200, 400)) ].

Definition selected_count {T : Type} (label : T -> string) (count : T -> Z)
    (labels : list string) (ts : list T) : Z :=
  Py.isum (map count (filter (fun t => str_in (label t) labels) ts)).

Definition demografi_summary_ok (r : DemografiResponse.t) : Prop :=
  let s := DemografiResponse.summary r in
  let total := DemografiResponse.total_passengers r in
  let productive :=
    selected_count AgeDistributionData.age_range AgeDistributionData.count
      ["25-34"; "35-44"] (DemografiResponse.age_distribution r) in
  let workers :=
    selected_count OccupationDistributionData.occupation
      OccupationDistributionData.count ["Karyawan Swasta"; "PNS/BUMN"]
      (DemografiResponse.occupation_distribution r) in
  DemografiSummary.average_age s = 39.9%float
  /\ DemografiSummary.productive_age_passengers s = productive
  /\ percent_of productive total 1
     = Ok (DemografiSummary.productive_age_percentage s)
  /\ DemografiSummary.worker_passengers s = workers
  /\ percent_of workers total 1 = Ok (DemografiSummary.worker_percentage s)
  /\ (exists st,
        Seq.max_by Z.gtb OriginStationData.count
          (DemografiResponse.origin_station_distribution r) = Ok st
        /\ DemografiSummary.dominant_origin_station s = OriginStationData.station st).

Definition gender_ok (total : Z) (gs : list GenderDistributionData.t) : Prop :=
  exists pria wanita,
    gs = [pria; wanita]
    /\ GenderDistributionData.gender pria = "Pria"
    /\ GenderDistributionData.gender wanita = "Wanita"
    /\ 0 < GenderDistributionData.count pria
    /\ GenderDistributionData.count wanita
       = total - GenderDistributionData.count pria
    /\ percent_of (GenderDistributionData.count pria) total 1
       = Ok (GenderDistributionData.percentage pria)
    /\ percent_of (GenderDistributionData.count wanita) total 1
       = Ok (GenderDistributionData.percentage wanita).

Definition demografi_post (date : option string) (r : DemografiResponse.t)
  : Prop :=
  let total := DemografiResponse.total_passengers r in
  DemografiResponse.date r = date_or_today get_date date
  /\ 3500 <= total <= 5000
  /\ Forall2 (bucket_ok AgeDistributionData.age_range AgeDistributionData.count
                AgeDistributionData.percentage total)
       age_spec (DemografiResponse.age_distribution r)
  /\ Forall2 (bucket_ok OccupationDistributionData.occupation
                OccupationDistributionData.count
                OccupationDistributionData.percentage total)
       occupation_spec (DemografiResponse.occupation_distribution r)
  /\ gender_ok total (DemografiResponse.gender_distribution r)
  /\ Forall2 (bucket_ok OriginStationData.station OriginStationData.count
                OriginStationData.percentage total)
       station_spec (DemografiResponse.origin_station_distribution r)
  /\ demografi_summary_ok r.

Lemma selected_count_bounds {T : Type} (label : T -> string) (count : T -> Z)
    (labels : list string) (ts : list T) (n : nat) :
  Forall (fun t => 0 <= count t <= 12800000) ts ->
  List.length ts = n ->
  0 <= selected_count label count labels ts <= 12800000 * Z.of_nat n.
Proof.
  intros H <-. unfold selected_count. apply isum_filter_bounds. assumption.
Qed.

Lemma midpoints_spec (b1 b2 b3 b4 b5 : Z) :
  returns
    (for_each [("18-24", b1); ("25-34", b2); ("35-44", b3); ("45-54", b4); ("55+", b5)]
       (fun '(age_range, _) => age_midpoint age_range))
    (fun ms => ms = [Py.Float 21; Py.Float 29.5; Py.Float 39.5; Py.Float 49.5;
                     Py.Int 60]).
Proof.
  intros s. eexists _, s. split; [|reflexivity].
  vm_compute. reflexivity.
Qed.

Lemma get_demografi_spec (date : option string) :
  returns (get_demografi get_date date) (demografi_post date).
Proof.
  unfold get_demografi.
  eapply returns_bind; [apply (randint_spec 3500 5000); lia|].
  cbv beta. intros total Htotal.
  eapply returns_bind; [apply draw_bases_spec; spec_ranges|].
  intros ages Hages.
  eapply returns_bind.
  { apply (bucket_loop_spec AgeDistributionData.Build_t
             AgeDistributionData.age_range AgeDistributionData.count
             AgeDistributionData.percentage total 0.1 age_spec ages);
      [intros; repeat split | apply small_variance_01 | lia | spec_ranges
      | exact Hages]. }
  intros age_distribution Hage.
  eapply returns_bind; [apply draw_bases_spec; spec_ranges|].
  intros occs Hoccs.
  eapply returns_bind.
  { apply (bucket_loop_spec OccupationDistributionData.Build_t
             OccupationDistributionData.occupation
             OccupationDistributionData.count
             OccupationDistributionData.percentage total 0.15
             occupation_spec occs);
      [intros; repeat split | apply small_variance_015 | lia | spec_ranges
      | exact Hoccs]. }
  intros occupation_distribution Hocc.
  assert (H052 : FloatBounds.Fpos 0 0 0.52) by float_range.
  destruct (int_of_product total 12 13 0 0 0.52 ltac:(lia) ltac:(lia)
              ltac:(lia) H052 ltac:(lia) ltac:(lia) ltac:(lia))
    as (pb & Epb & Hpb & Hpl).
  specialize (Hpl ltac:(lia)).
  change (2 ^ (12 + 0 - 2)) with 1024 in Hpl.
  change (2 ^ (13 + 0 + 2)) with 32768 in Hpb.
  eapply returns_bind with (P := fun a => a = pb);
    [eapply returns_lift; [exact Epb|reflexivity]|].
  cbv beta. intros ? ->.
  eapply returns_bind.
  { apply generate_daily_data_range; [apply small_variance_005|lia]. }
  cbv beta. intros pria [Hp1 Hp2].
  eapply returns_bind; [apply percent_spec; lia|]. cbv beta. intros pp Hpp.
  eapply returns_bind; [apply percent_spec; lia|]. cbv beta. intros wp Hwp.
  eapply returns_bind; [apply draw_bases_spec; spec_ranges|].
  intros stations Hstations.
  eapply returns_bind.
  { apply (bucket_loop_spec OriginStationData.Build_t
             OriginStationData.station OriginStationData.count
             OriginStationData.percentage total 0.2 station_spec stations);
      [intros; repeat split | apply small_variance_02 | lia | spec_ranges
      | exact Hstations]. }
  intros origin Horigin.
  repeat match goal with
         | H : Forall2 base_ok (_ :: _) ages |- _ =>
             inversion H as [|? [? ?] ? ? [? _] ?]; subst; clear H
         | H : Forall2 base_ok (_ :: _) _ |- _ =>
             lazymatch type of H with
             | Forall2 _ _ occs => fail
             | Forall2 _ _ stations => fail
             | _ => inversion H as [|? [? ?] ? ? [? _] ?]; subst; clear H
             end
         | H : Forall2 base_ok [] _ |- _ => inversion H; subst; clear H
         end.
  cbn [fst] in *. subst.
  eapply returns_bind; [apply midpoints_spec|].
  cbv beta. intros ? ->.
  eapply returns_bind with (P := fun a => Py.round a 1 = 39.9%float).
  { eapply returns_lift; [vm_compute; reflexivity|vm_compute; reflexivity]. }
  cbv beta. intros avg Havg.
  assert (Ra : Forall (fun e => 2 <= fst (snd e) /\ snd (snd e) <= 100000)
                 age_spec) by spec_ranges.
  assert (Ro : Forall (fun e => 2 <= fst (snd e) /\ snd (snd e) <= 100000)
                 occupation_spec) by spec_ranges.
  pose proof (bucket_counts_bounded _ _ _ _ _ _ Ra Hage) as Ba.
  pose proof (bucket_counts_bounded _ _ _ _ _ _ Ro Hocc) as Bo.
  pose proof (Forall2_length Hage) as La.
  pose proof (Forall2_length Hocc) as Lo.
  pose proof (Forall2_length Horigin) as Ls.
  cbn [List.length age_spec occupation_spec station_spec] in La, Lo, Ls.
  fold (selected_count AgeDistributionData.age_range AgeDistributionData.count
          ["25-34"; "35-44"] age_distribution).
  fold (selected_count OccupationDistributionData.occupation
          OccupationDistributionData.count ["Karyawan Swasta"; "PNS/BUMN"]
          occupation_distribution).
  pose proof (selected_count_bounds AgeDistributionData.age_range
                AgeDistributionData.count ["25-34"; "35-44"] _ _ Ba
                (eq_sym La)) as Hprod.
  pose proof (selected_count_bounds OccupationDistributionData.occupation
                OccupationDistributionData.count
                ["Karyawan Swasta"; "PNS/BUMN"] _ _ Bo (eq_sym Lo)) as Hwork.
  eapply returns_bind; [apply percent_spec; lia|]. cbv beta. intros ppa Hppa.
  eapply returns_bind; [apply percent_spec; lia|]. cbv beta. intros pwk Hpwk.
  assert (Hd : exists st, Seq.max_by Z.gtb OriginStationData.count origin = Ok st).
  { destruct origin as [|o os]; [discriminate|]. apply max_by_ok. }
  destruct Hd as (st & Est).
  eapply returns_bind with (P := fun a => a = st);
    [eapply returns_lift; [exact Est|reflexivity]|].
  cbv beta. intros ? ->.
  apply returns_ret.
  unfold demografi_post, demografi_summary_ok, gender_ok.
  cbn [DemografiResponse.date DemografiResponse.total_passengers
       DemografiResponse.age_distribution
       DemografiResponse.occupation_distribution
       DemografiResponse.gender_distribution
       DemografiResponse.origin_station_distribution
       DemografiResponse.summary
       DemografiSummary.average_age
       DemografiSummary.productive_age_passengers
       DemografiSummary.productive_age_percentage
       DemografiSummary.worker_passengers
       DemografiSummary.worker_percentage
       DemografiSummary.dominant_origin_station].
  split; [reflexivity|]. split; [assumption|]. split; [assumption|].
  split; [assumption|].
  split.
  { eexists _, _. split; [reflexivity|].
    cbn [GenderDistributionData.gender GenderDistributionData.count
         GenderDistributionData.percentage].
    repeat split; try assumption; lia. }
  split; [assumption|].
  repeat split; try assumption. eauto.
Qed.
(** *** Kategori 4 *)

Definition time_spec : list (string * (Z * Z)) :=
  [ ("Morning (07:00-09:00)", (1200, 1800));
    ("Evening (16:00-19:00)", (1200, 1800));
    ("Off-Peak", (600, 1000)) ].

Definition direction_ok (total : Z) (ds : list DirectionDistributionData.t)
  : Prop :=
  exists d_in d_out,
    ds = [d_in; d_out]
    /\ DirectionDistributionData.direction d_in = "IN"
    /\ DirectionDistributionData.direction d_out = "OUT"
    /\ 0 < DirectionDistributionData.count d_in
    /\ DirectionDistributionData.count d_out
       = total - DirectionDistributionData.count d_in
    /\ percent_of (DirectionDistributionData.count d_in) total 1
       = Ok (DirectionDistributionData.percentage d_in)
    /\ percent_of (DirectionDistributionData.count d_out) total 1
       = Ok (DirectionDistributionData.percentage d_out).

Definition perjalanan_summary_ok (r : SegmentasiPerjalananResponse.t) : Prop :=
  let s := SegmentasiPerjalananResponse.summary r in
  (exists top,
     Seq.max_by Z.gtb OriginDistributionData.count
       (SegmentasiPerjalananResponse.origin_distribution r) = Ok top
     /\ SegmentasiPerjalananSummary.top_origin_station s
        = OriginDistributionData.station top
     /\ SegmentasiPerjalananSummary.top_origin_count s
        = OriginDistributionData.count top
     /\ SegmentasiPerjalananSummary.top_origin_percentage s
        = OriginDistributionData.percentage top)
  /\ (exists d,
       Seq.max_by Z.gtb DirectionDistributionData.count
         (SegmentasiPerjalananResponse.direction_distribution r) = Ok d
       /\ SegmentasiPerjalananSummary.dominant_direction s
          = DirectionDistributionData.direction d)
  /\ (exists t,
       Seq.max_by Z.gtb TimeTravelData.count
         (SegmentasiPerjalananResponse.time_travel_distribution r) = Ok t
       /\ SegmentasiPerjalananSummary.dominant_time_segment s
          = TimeTravelData.time_segment t
       /\ SegmentasiPerjalananSummary.dominant_time_percentage s
          = TimeTravelData.percentage t).

Definition perjalanan_post (date : option string)
    (r : SegmentasiPerjalananResponse.t) : Prop :=
  let total := SegmentasiPerjalananResponse.total_transactions r in
  SegmentasiPerjalananResponse.date r = date_or_today get_date date
  /\ 4000 <= total <= 6000
  /\ Forall2 (bucket_ok OriginDistributionData.station
                OriginDistributionData.count
                OriginDistributionData.percentage total)
       station_spec (SegmentasiPerjalananResponse.origin_distribution r)
  /\ direction_ok total (SegmentasiPerjalananResponse.direction_distribution r)
  /\ Forall2 (bucket_ok TimeTravelData.time_segment TimeTravelData.count
                TimeTravelData.percentage total)
       time_spec (SegmentasiPerjalananResponse.time_travel_distribution r)
  /\ perjalanan_summary_ok r.

Lemma get_segmentasi_perjalanan_spec (date : option string) :
  returns (get_segmentasi_perjalanan get_date date) (perjalanan_post date).
Proof.
  unfold get_segmentasi_perjalanan.
  eapply returns_bind; [apply (randint_spec 4000 6000); lia|].
  cbv beta. intros total Htotal.
  eapply returns_bind; [apply draw_bases_spec; spec_ranges|].
  intros stations Hstations.
  eapply returns_bind.
  { apply (bucket_loop_spec OriginDistributionData.Build_t
             OriginDistributionData.station OriginDistributionData.count
             OriginDistributionData.percentage total 0.2 station_spec stations);
      [intros; repeat split | apply small_variance_02 | lia | spec_ranges
      | exact Hstations]. }
  intros origin Horigin.
  assert (H051 : FloatBounds.Fpos 0 0 0.51) by float_range.
  destruct (int_of_product total 12 13 0 0 0.51 ltac:(lia) ltac:(lia)
              ltac:(lia) H051 ltac:(lia) ltac:(lia) ltac:(lia))
    as (ib & Eib & Hib & Hil).
  specialize (Hil ltac:(lia)).
  change (2 ^ (12 + 0 - 2)) with 1024 in Hil.
  change (2 ^ (13 + 0 + 2)) with 32768 in Hib.
  eapply returns_bind with (P := fun a => a = ib);
    [eapply returns_lift; [exact Eib|reflexivity]|].
  cbv beta. intros ? ->.
  eapply returns_bind.
  { apply generate_daily_data_range; [apply small_variance_003|lia]. }
  cbv beta. intros inc [Hi1 Hi2].
  eapply returns_bind; [apply percent_spec; lia|]. cbv beta. intros pi Hpi.
  eapply returns_bind; [apply percent_spec; lia|]. cbv beta. intros po Hpo.
  eapply returns_bind; [apply (randint_spec 1200 1800); lia|].
  cbv beta. intros mb Hmb.
  eapply returns_bind; [apply (randint_spec 1200 1800); lia|].
  cbv beta. intros eb Heb.
  eapply returns_bind; [apply (randint_spec 600 1000); lia|].
  cbv beta. intros ob Hob.
  eapply returns_bind.
  { apply generate_daily_data_range; [apply small_variance_015|lia]. }
  cbv beta. intros mc [Hm1 Hm2].
  eapply returns_bind.
  { apply generate_daily_data_range; [apply small_variance_015|lia]. }
  cbv beta. intros ec [He1 He2].
  eapply returns_bind.
  { apply generate_daily_data_range; [apply small_variance_02|lia]. }
  cbv beta. intros oc [Ho1 Ho2].
  eapply returns_bind.
  { apply (returns_for_each
             (fun t t' => exists p,
                percent_of (TimeTravelData.count t) total 1 = Ok p
                /\ t' = TimeTravelData.Build_t (TimeTravelData.time_segment t)
                          (TimeTravelData.count t) p)).
    intros t Hin.
    assert (Hc : 0 <= TimeTravelData.count t < 1000000).
    { destruct Hin as [<-|[<-|[<-|[]]]]; cbn [TimeTravelData.count]; lia. }
    eapply returns_bind; [apply percent_spec; lia|]. cbv beta. intros p Hp.
    apply returns_ret. eauto. }
  intros ttd Httd. clear Hstations. invert_Forall2.
  repeat match goal with
         | H : exists p, _ /\ _ |- _ => destruct H as (? & ? & ->)
         end.
  cbn [TimeTravelData.count TimeTravelData.time_segment] in *.
  assert (Ht : exists top,
             Seq.max_by Z.gtb OriginDistributionData.count origin = Ok top).
  { pose proof (Forall2_length Horigin) as L.
    destruct origin as [|o os]; [discriminate|]. apply max_by_ok. }
  destruct Ht as (top & Etop).
  eapply returns_bind with (P := fun a => a = top);
    [eapply returns_lift; [exact Etop|reflexivity]|].
  cbv beta. intros ? ->.
  match goal with
  | |- returns (bind (lift (Seq.max_by ?gt ?key (?a :: ?l))) _) _ =>
      destruct (max_by_ok gt key a l) as (dd & Edd)
  end.
  eapply returns_bind with (P := fun a => a = dd);
    [eapply returns_lift; [exact Edd|reflexivity]|].
  cbv beta. intros ? ->.
  match goal with
  | |- returns (bind (lift (Seq.max_by ?gt ?key (?a :: ?l))) _) _ =>
      destruct (max_by_ok gt key a l) as (dt & Edt)
  end.
  eapply returns_bind with (P := fun a => a = dt);
    [eapply returns_lift; [exact Edt|reflexivity]|].
  cbv beta. intros ? ->.
  apply returns_ret.
  unfold perjalanan_post, perjalanan_summary_ok, direction_ok.
  cbn [SegmentasiPerjalananResponse.date
       SegmentasiPerjalananResponse.total_transactions
       SegmentasiPerjalananResponse.origin_distribution
       SegmentasiPerjalananResponse.direction_distribution
       SegmentasiPerjalananResponse.time_travel_distribution
       SegmentasiPerjalananResponse.summary
       SegmentasiPerjalananSummary.top_origin_station
       SegmentasiPerjalananSummary.top_origin_count
       SegmentasiPerjalananSummary.top_origin_percentage
       SegmentasiPerjalananSummary.dominant_direction
       SegmentasiPerjalananSummary.dominant_time_segment
       SegmentasiPerjalananSummary.dominant_time_percentage].
  split; [reflexivity|]. split; [assumption|]. split; [assumption|].
  split.
  { eexists _, _. split; [reflexivity|].
    cbn [DirectionDistributionData.direction DirectionDistributionData.count
         DirectionDistributionData.percentage].
    repeat split; try assumption; lia. }
  split.
  { repeat constructor;
      cbn [fst snd TimeTravelData.time_segment TimeTravelData.count
           TimeTravelData.percentage]; try assumption; lia. }
  repeat split; eauto 6.
Qed.

Lemma next_head {A : Type} (p : A -> bool) (a : A) (l : list A) :
  p a = true -> Seq.next p (a :: l) = Ok a.
Proof. intros H. unfold Seq.next. cbn [find]. rewrite H. reflexivity. Qed.

(** *** Kategori 5 *)

Definition segment_spec : list (string * (Z * Z) * (Z * Z)) :=
  [ ("High Loyalty (≥12x)", (1200, 1800), (12, 14));
    ("Medium Loyalty (7-11x)", (1000, 1500), (7, 11));
    ("Low Loyalty (<7x)", (800, 1200), (1, 6)) ].

Definition segment_ok (total_loyalty : Z)
    (spec : string * (Z * Z) * (Z * Z)) (ls : LoyaltySegmentData.t) : Prop :=
  bucket_ok LoyaltySegmentData.segment LoyaltySegmentData.count
    LoyaltySegmentData.percentage total_loyalty (fst spec) ls
  /\ LoyaltySegmentData.min_freq ls = fst (snd spec)
  /\ LoyaltySegmentData.max_freq ls = snd (snd spec).

Definition occupation_loyalty_ok (spec : string * (Z * Z))
    (lo : LoyaltyByOccupationData.t) : Prop :=
  LoyaltyByOccupationData.occupation lo = fst spec
  /\ fst (snd spec) < 4 * LoyaltyByOccupationData.count lo
  /\ LoyaltyByOccupationData.count lo < 128 * snd (snd spec).

Definition loyaltas_summary_ok (r : SegmentasiLoyaltasResponse.t) : Prop :=
  let s := SegmentasiLoyaltasResponse.summary r in
  let workers :=
    selected_count LoyaltyByOccupationData.occupation
      LoyaltyByOccupationData.count ["Karyawan Swasta"; "PNS/BUMN"]
      (SegmentasiLoyaltasResponse.loyalty_by_occupation r) in
  (exists high,
     nth_error (SegmentasiLoyaltasResponse.loyalty_segments r) 0 = Some high
     /\ SegmentasiLoyaltasSummary.high_loyalty_count s
        = LoyaltySegmentData.count high
     /\ SegmentasiLoyaltasSummary.high_loyalty_percentage s
        = LoyaltySegmentData.percentage high)
  /\ SegmentasiLoyaltasSummary.loyal_workers_count s = workers
  /\ percent_of workers (SegmentasiLoyaltasResponse.total_passengers r) 1
     = Ok (SegmentasiLoyaltasSummary.loyal_workers_percentage s)
  /\ (exists m,
        Seq.max_by (fun a b => (b <? a)%float)
          LoyaltyByOccupationData.avg_frequency
          (SegmentasiLoyaltasResponse.loyalty_by_occupation r) = Ok m
        /\ SegmentasiLoyaltasSummary.most_loyal_occupation s
           = LoyaltyByOccupationData.occupation m
        /\ SegmentasiLoyaltasSummary.most_loyal_occupation_avg_freq s
           = LoyaltyByOccupationData.avg_frequency m).

Definition loyaltas_post (date : option string)
    (r : SegmentasiLoyaltasResponse.t) : Prop :=
  let segments := SegmentasiLoyaltasResponse.loyalty_segments r in
  SegmentasiLoyaltasResponse.date r = date_or_today get_date date
  /\ 3500 <= SegmentasiLoyaltasResponse.total_passengers r <= 5000
  /\ 0 < Py.isum (map LoyaltySegmentData.count segments)
  /\ Forall2 (segment_ok (Py.isum (map LoyaltySegmentData.count segments)))
       segment_spec segments
  /\ Forall2 occupation_loyalty_ok occupation_spec
       (SegmentasiLoyaltasResponse.loyalty_by_occupation r)
  /\ loyaltas_summary_ok r.

Lemma occupation_counts_bounded (lbo : list LoyaltyByOccupationData.t) :
  Forall2 occupation_loyalty_ok occupation_spec lbo ->
  Forall (fun t => 0 <= LoyaltyByOccupationData.count t <= 12800000) lbo.
Proof.
  assert (Hs : Forall (fun e => 2 <= fst (snd e) /\ snd (snd e) <= 100000)
                 occupation_spec) by spec_ranges.
  intros H. induction H as [|e t spec ts (_ & H1 & H2) _ IH].
  - constructor.
  - inversion Hs as [|? ? [He1 He2] Hs']; subst.
    constructor; [lia|]. apply IH. assumption.
Qed.

Lemma loyalty_occupation_loop_spec (spec : list (string * (Z * Z)))
    (bases : list (string * float * Z)) :
  Forall (fun e => 2 <= fst (snd e) /\ snd (snd e) <= 100000) spec ->
  Forall2 (fun e b => fst (fst b) = fst e
                      /\ fst (snd e) <= snd b <= snd (snd e)) spec bases ->
  returns
    (for_each bases
       (fun '(occupation, avg_freq, count) =>
          u <- uniform (-0.5) 0.5 ;;
          c <- generate_daily_data count 0.1 ;;
          ret {| LoyaltyByOccupationData.occupation := occupation;
                 LoyaltyByOccupationData.avg_frequency :=
                   Py.round (avg_freq + u)%float 1;
                 LoyaltyByOccupationData.count := c |}))
    (Forall2 occupation_loyalty_ok spec).
Proof.
  intros Hspec Hb.
  induction Hb as [|e b spec bases Hbe Hb IH]; cbn [for_each].
  - apply returns_ret. constructor.
  - inversion Hspec as [|? ? He Hspec']; subst.
    destruct e as [sl [lo hi]], b as [[l f] base], Hbe as [Hl Hr].
    cbn [fst snd] in *. subst l.
    eapply returns_bind.
    { eapply returns_bind; [apply uniform_total|]. intros u _.
      eapply returns_bind.
      { apply generate_daily_data_range; [apply small_variance_01|lia]. }
      cbv beta. intros c [Hc1 Hc2]. apply returns_ret.
      instantiate (1 := occupation_loyalty_ok (sl, (lo, hi))).
      unfold occupation_loyalty_ok.
      cbn [fst snd LoyaltyByOccupationData.occupation
           LoyaltyByOccupationData.count].
      repeat split; lia. }
    intros t Ht'.
    eapply returns_bind; [apply IH; assumption|].
    intros ts Hts. apply returns_ret. constructor; assumption.
Qed.

Lemma get_segmentasi_loyaltas_spec (date : option string) :
  returns (get_segmentasi_loyaltas get_date date) (loyaltas_post date).
Proof.
  unfold get_segmentasi_loyaltas.
  eapply returns_bind; [apply (randint_spec 3500 5000); lia|].
  cbv beta. intros total Htotal.
  eapply returns_bind; [apply (randint_spec 1200 1800); lia|].
  cbv beta. intros hb Hhb.
  eapply returns_bind; [apply (randint_spec 1000 1500); lia|].
  cbv beta. intros mb Hmb.
  eapply returns_bind; [apply (randint_spec 800 1200); lia|].
  cbv beta. intros lb Hlb.
  eapply returns_bind.
  { apply generate_daily_data_range; [apply small_variance_015|lia]. }
  cbv beta. intros hc [Hh1 Hh2].
  eapply returns_bind.
  { apply generate_daily_data_range; [apply small_variance_015|lia]. }
  cbv beta. intros mc [Hm1 Hm2].
  eapply returns_bind.
  { apply generate_daily_data_range; [apply small_variance_02|lia]. }
  cbv beta. intros lc [Hl1 Hl2].
  cbn [map LoyaltySegmentData.count].
  set (total_loyalty := Py.isum [hc; mc; lc]).
  assert (Htl : total_loyalty = hc + mc + lc).
  { unfold total_loyalty. rewrite !isum_cons. cbn. lia. }
  eapply returns_bind.
  { apply (returns_for_each
             (fun t t' => exists p,
                percent_of (LoyaltySegmentData.count t) total_loyalty 1 = Ok p
                /\ t' = LoyaltySegmentData.Build_t
                          (LoyaltySegmentData.segment t)
                          (LoyaltySegmentData.count t) p
                          (LoyaltySegmentData.min_freq t)
                          (LoyaltySegmentData.max_freq t))).
    intros t Hin.
    assert (Hc : 0 <= LoyaltySegmentData.count t < 1000000).
    { destruct Hin as [<-|[<-|[<-|[]]]]; cbn [LoyaltySegmentData.count]; lia. }
    eapply returns_bind; [apply percent_spec; lia|]. cbv beta. intros p Hp.
    apply returns_ret. eauto. }
  intros segs Hsegs. invert_Forall2.
  repeat match goal with
         | H : exists p, _ /\ _ |- _ => destruct H as (? & ? & ->)
         end.
  cbn [LoyaltySegmentData.count LoyaltySegmentData.segment
       LoyaltySegmentData.min_freq LoyaltySegmentData.max_freq] in *.
  eapply returns_bind.
  { apply (returns_for_each
             (fun (e : string * (float * float) * (Z * Z))
                  (b : string * float * Z) =>
                fst (fst b) = fst (fst e)
                /\ fst (snd e) <= snd b <= snd (snd e))).
    intros [[occ [flo fhi]] [lo hi]] Hin.
    assert (Hr : lo <= hi).
    { destruct Hin as [E|[E|[E|[E|[E|[]]]]]]; injection E as <- <- <- <- <-; lia. }
    eapply returns_bind; [apply uniform_total|]. intros f _.
    eapply returns_bind; [apply randint_spec; exact Hr|].
    cbv beta. intros c Hc. apply returns_ret. cbn [fst snd]. split; [reflexivity|lia]. }
  intros bases Hbases.
  assert (Hbases' : Forall2 (fun e b => fst (fst b) = fst e
                      /\ fst (snd e) <= snd b <= snd (snd e))
                      occupation_spec bases).
  { unfold occupation_spec. invert_Forall2. repeat constructor;
      cbn [fst snd] in *; intuition lia. }
  clear Hbases.
  eapply returns_bind.
  { apply (loyalty_occupation_loop_spec occupation_spec bases);
      [spec_ranges|exact Hbases']. }
  intros lbo Hlbo.
  eapply returns_bind with
    (P := fun a => a = {| LoyaltySegmentData.segment := "High Loyalty (≥12x)";
                          LoyaltySegmentData.count := hc;
                          LoyaltySegmentData.percentage := x1;
                          LoyaltySegmentData.min_freq := 12;
                          LoyaltySegmentData.max_freq := 14 |}).
  { eapply returns_lift; [apply next_head; vm_compute; reflexivity|reflexivity]. }
  cbv beta. intros ? ->.
  assert (Hm : exists m,
             Seq.max_by (fun a b => (b <? a)%float)
               LoyaltyByOccupationData.avg_frequency lbo = Ok m).
  { pose proof (Forall2_length Hlbo) as L.
    destruct lbo as [|o os]; [discriminate|]. apply max_by_ok. }
  destruct Hm as (m & Em).
  eapply returns_bind with (P := fun a => a = m);
    [eapply returns_lift; [exact Em|reflexivity]|].
  cbv beta. intros ? ->.
  fold (selected_count LoyaltyByOccupationData.occupation
          LoyaltyByOccupationData.count ["Karyawan Swasta"; "PNS/BUMN"] lbo).
  pose proof (selected_count_bounds LoyaltyByOccupationData.occupation
                LoyaltyByOccupationData.count
                ["Karyawan Swasta"; "PNS/BUMN"] _ _
                (occupation_counts_bounded _ Hlbo)
                (eq_sym (Forall2_length Hlbo))) as Hw.
  cbn [List.length occupation_spec] in Hw.
  eapply returns_bind; [apply percent_spec; lia|]. cbv beta. intros pw Hpw.
  apply returns_ret.
  unfold loyaltas_post, loyaltas_summary_ok.
  cbn [SegmentasiLoyaltasResponse.date
       SegmentasiLoyaltasResponse.total_passengers
       SegmentasiLoyaltasResponse.loyalty_segments
       SegmentasiLoyaltasResponse.loyalty_by_occupation
       SegmentasiLoyaltasResponse.summary
       SegmentasiLoyaltasSummary.high_loyalty_count
       SegmentasiLoyaltasSummary.high_loyalty_percentage
       SegmentasiLoyaltasSummary.loyal_workers_count
       SegmentasiLoyaltasSummary.loyal_workers_percentage
       SegmentasiLoyaltasSummary.most_loyal_occupation
       SegmentasiLoyaltasSummary.most_loyal_occupation_avg_freq
       map LoyaltySegmentData.count].
  fold total_loyalty.
  split; [reflexivity|]. split; [assumption|]. split; [lia|].
  split.
  { unfold segment_spec, segment_ok, bucket_ok.
    repeat constructor;
      cbn [fst snd LoyaltySegmentData.segment LoyaltySegmentData.count
           LoyaltySegmentData.percentage LoyaltySegmentData.min_freq
           LoyaltySegmentData.max_freq]; try assumption; lia. }
  split; [assumption|].
  split.
  { eexists. split; [reflexivity|].
    cbn [LoyaltySegmentData.count LoyaltySegmentData.percentage].
    split; reflexivity. }
  split; [reflexivity|]. split; [assumption|]. eauto.
Qed.

(** *** Kategori Korelasi Behavior *)

Definition age_loyalty_ok (group : Z * float)
    (a : AgeLoyaltyCorrelationData.t) : Prop :=
  AgeLoyaltyCorrelationData.age a = fst group
  /\ 100 < AgeLoyaltyCorrelationData.count a < 102400
  /\ exists u, AgeLoyaltyCorrelationData.avg_loyalty_frequency a
               = Py.round (snd group + u)%float 1.

Definition hour_gender_ok (hour : Z) (h : HourGenderData.t) : Prop :=
  let total := HourGenderData.pria_count h + HourGenderData.wanita_count h in
  HourGenderData.hour h = hour
  /\ 12 < total < 76800
  /\ 0 <= HourGenderData.pria_count h
  /\ percent_of (HourGenderData.pria_count h) total 1
     = Ok (HourGenderData.pria_percentage h)
  /\ percent_of (HourGenderData.wanita_count h) total 1
     = Ok (HourGenderData.wanita_percentage h).

Definition zone_preference_ok (base : string * float * float)
    (p : OccupationZonePreferenceData.t) : Prop :=
  OccupationZonePreferenceData.occupation p = fst (fst base)
  /\ OccupationZonePreferenceData.preference p
     = zone_preference (snd (fst base)) (snd base)
  /\ exists total,
       50 < total < 128000
       /\ Py.int_of_float (Py.float_of_int total * snd (fst base))%float
          = Ok (OccupationZonePreferenceData.north_count p)
       /\ OccupationZonePreferenceData.west_count p
          = total - OccupationZonePreferenceData.north_count p.

Definition group_average (items : list AgeLoyaltyCorrelationData.t)
  : result Py.number :=
  guarded_average (loyalty_weight items)
    (Py.isum (map AgeLoyaltyCorrelationData.count items)).

Definition behavior_summary_ok (r : BehaviorCorrelationResponse.t) : Prop :=
  let s := BehaviorCorrelationResponse.summary r in
  let ages := BehaviorCorrelationResponse.age_loyalty_correlation r in
  let hours := BehaviorCorrelationResponse.hour_gender_distribution r in
  (exists young_avg senior_avg,
     group_average (firstn 2 ages) = Ok young_avg
     /\ group_average (skipn 3 ages) = Ok senior_avg
     /\ BehaviorCorrelationSummary.age_loyalty_insight s
        = (if Py.gt senior_avg young_avg then "Positif" else "Negatif/Netral")
     /\ BehaviorCorrelationSummary.young_avg_loyalty s
        = Py.round_number young_avg 1
     /\ BehaviorCorrelationSummary.senior_avg_loyalty s
        = Py.round_number senior_avg 1)
  /\ (exists morning evening,
       nth_error hours 1 = Some morning
       /\ nth_error hours 14 = Some evening
       /\ BehaviorCorrelationSummary.dominant_gender_morning s
          = dominant_gender morning
       /\ BehaviorCorrelationSummary.dominant_gender_evening s
          = dominant_gender evening)
  /\ BehaviorCorrelationSummary.strong_zone_preference_count s
     = Z.of_nat (List.length
         (filter (fun item =>
                    negb (OccupationZonePreferenceData.preference item =? "Neutral"))
                 (BehaviorCorrelationResponse.occupation_zone_preference r))).

Definition behavior_post (date : option string)
    (r : BehaviorCorrelationResponse.t) : Prop :=
  BehaviorCorrelationResponse.date r = date_or_today get_date date
  /\ Forall2 age_loyalty_ok age_groups
       (BehaviorCorrelationResponse.age_loyalty_correlation r)
  /\ Forall2 hour_gender_ok (Seq.range 6 23)
       (BehaviorCorrelationResponse.hour_gender_distribution r)
  /\ Forall2 zone_preference_ok occupation_zone_base
       (BehaviorCorrelationResponse.occupation_zone_preference r)
  /\ behavior_summary_ok r.

Lemma group_average_ok (items : list AgeLoyaltyCorrelationData.t) :
  Py.isum (map AgeLoyaltyCorrelationData.count items) < 2 ^ 1000 ->
  exists a, group_average items = Ok a.
Proof.
  intros Hc. unfold group_average, guarded_average.
  remember (Py.isum (map AgeLoyaltyCorrelationData.count items)) as n eqn:En.
  destruct (Z.ltb_spec 0 n) as [Hp|Hp]; [|eauto].
  unfold loyalty_weight. destruct items as [|a items].
  - cbn in En. lia.
  - rewrite <- (map_map
       (fun item => (AgeLoyaltyCorrelationData.avg_loyalty_frequency item
                     * Py.float_of_int (AgeLoyaltyCorrelationData.count item))%float)
       Py.Float).
    cbn [map].
    match goal with
    | |- context [Py.sum (Py.Float ?x :: map Py.Float ?l)] =>
        destruct (sum_floats_nonempty x l) as (f & Ef); rewrite Ef
    end.
    rewrite truediv_float_int by lia. eauto.
Qed.

Lemma age_loop_spec :
  returns
    (for_each age_groups (fun '(age, base_freq) =>
       base_count <- draw (randint 400 800) ;;
       count <- generate_daily_data base_count 0.2 ;;
       u <- uniform (-1.0) 1.0 ;;
       ret {| AgeLoyaltyCorrelationData.age := age;
              AgeLoyaltyCorrelationData.avg_loyalty_frequency :=
                Py.round (base_freq + u)%float 1;
              AgeLoyaltyCorrelationData.count := count |}))
    (Forall2 age_loyalty_ok age_groups).
Proof.
  apply returns_for_each. intros [age base_freq] _.
  eapply returns_bind; [apply (randint_spec 400 800); lia|].
  cbv beta. intros b Hb.
  eapply returns_bind.
  { apply generate_daily_data_range; [apply small_variance_02|lia]. }
  cbv beta. intros c [Hc1 Hc2].
  eapply returns_bind; [apply uniform_total|]. intros u _.
  apply returns_ret. unfold age_loyalty_ok.
  cbn [fst snd AgeLoyaltyCorrelationData.age AgeLoyaltyCorrelationData.count
       AgeLoyaltyCorrelationData.avg_loyalty_frequency].
  split; [reflexivity|]. split; [lia|]. eauto.
Qed.

Lemma hour_gender_loop_spec :
  returns
    (for_each (Seq.range 6 23) (fun hour =>
       base_count <- draw (randint 50 600) ;;
       u <- uniform (-0.05) 0.05 ;;
       total <- generate_daily_data base_count 0.15 ;;
       pria_count <- lift (Py.int_of_float
         (Py.float_of_int total
          * (if between 6 hour 11 then 0.55 + u
             else if between 16 hour 19 then 0.45 + u else 0.50 + u))%float) ;;
       pria_percentage <- percent pria_count total 1 ;;
       wanita_percentage <- percent (total - pria_count) total 1 ;;
       ret {| HourGenderData.hour := hour;
              HourGenderData.pria_count := pria_count;
              HourGenderData.wanita_count := total - pria_count;
              HourGenderData.pria_percentage := pria_percentage;
              HourGenderData.wanita_percentage := wanita_percentage |}))
    (Forall2 hour_gender_ok (Seq.range 6 23)).
Proof.
  apply returns_for_each. intros hour _.
  eapply returns_bind; [apply (randint_spec 50 600); lia|].
  cbv beta. intros b Hb.
  eapply returns_bind.
  { apply (uniform_neg (-4) (-3) (-3)); try lia; float_range. }
  cbv beta. intros u Hu. change (-4 + 1) with (-3) in Hu.
  change (-3 + 2) with (-1) in Hu.
  eapply returns_bind.
  { apply generate_daily_data_range; [apply small_variance_015|lia]. }
  cbv beta. intros total [Ht1 Ht2].
  assert (Hpct : FloatBounds.Fpos (-2) 2
            (if between 6 hour 11 then 0.55 + u
             else if between 16 hour 19 then 0.45 + u else 0.50 + u)%float).
  { assert (H55 : FloatBounds.Fpos 0 0 0.55) by float_range.
    assert (H45 : FloatBounds.Fpos (-1) (-1) 0.45) by float_range.
    assert (H50 : FloatBounds.Fpos 0 0 0.50) by float_range.
    destruct (between 6 hour 11); [|destruct (between 16 hour 19)].
    - eapply FloatBounds.Fpos_weaken;
        [| |apply (FloatBounds.add_pos_sgn 0 0 (-3) (-1)); try assumption; lia];
        simpl; lia.
    - eapply FloatBounds.Fpos_weaken;
        [| |apply (FloatBounds.add_pos_sgn (-1) (-1) (-3) (-1)); try assumption; lia];
        simpl; lia.
    - eapply FloatBounds.Fpos_weaken;
        [| |apply (FloatBounds.add_pos_sgn 0 0 (-3) (-1)); try assumption; lia];
        simpl; lia. }
  destruct (int_of_product total 4 17 (-2) 2 _ ltac:(lia) ltac:(lia)
              ltac:(lia) Hpct ltac:(lia) ltac:(lia) ltac:(lia))
    as (pc & Epc & Hpc & _).
  change (2 ^ (17 + 2 + 2)) with 2097152 in Hpc.
  eapply returns_bind with (P := fun a => a = pc);
    [eapply returns_lift; [exact Epc|reflexivity]|].
  cbv beta. intros ? ->.
  eapply returns_bind; [apply percent_spec; lia|]. cbv beta. intros pp Hpp.
  eapply returns_bind; [apply percent_spec; lia|]. cbv beta. intros wp Hwp.
  apply returns_ret. unfold hour_gender_ok.
  cbn [HourGenderData.hour HourGenderData.pria_count HourGenderData.wanita_count
       HourGenderData.pria_percentage HourGenderData.wanita_percentage].
  replace (pc + (total - pc)) with total by lia.
  repeat split; try assumption; lia.
Qed.

Lemma zone_preference_loop_spec :
  returns
    (for_each occupation_zone_base
       (fun '(occupation, north_ratio, west_ratio) =>
          base <- draw (randint 200 1000) ;;
          total <- generate_daily_data base 0.2 ;;
          north_count <- lift (Py.int_of_float
                            (Py.float_of_int total * north_ratio)%float) ;;
          ret {| OccupationZonePreferenceData.occupation := occupation;
                 OccupationZonePreferenceData.north_count := north_count;
                 OccupationZonePreferenceData.west_count := total - north_count;
                 OccupationZonePreferenceData.preference :=
                   zone_preference north_ratio west_ratio |}))
    (Forall2 zone_preference_ok occupation_zone_base).
Proof.
  apply returns_for_each. intros [[occ nr] wr] Hin.
  assert (Hnr : FloatBounds.Fpos (-1) 0 nr).
  { destruct Hin as [E|[E|[E|[E|[E|[]]]]]]; injection E as <- <- <-;
      float_range. }
  eapply returns_bind; [apply (randint_spec 200 1000); lia|].
  cbv beta. intros b Hb.
  eapply returns_bind.
  { apply generate_daily_data_range; [apply small_variance_02|lia]. }
  cbv beta. intros total [Ht1 Ht2].
  destruct (int_of_product total 6 17 (-1) 0 nr ltac:(lia) ltac:(lia)
              ltac:(lia) Hnr ltac:(lia) ltac:(lia) ltac:(lia))
    as (nc & Enc & Hnc & _).
  eapply returns_bind with (P := fun a => a = nc);
    [eapply returns_lift; [exact Enc|reflexivity]|].
  cbv beta. intros ? ->.
  apply returns_ret. unfold zone_preference_ok.
  cbn [fst snd OccupationZonePreferenceData.occupation
       OccupationZonePreferenceData.north_count
       OccupationZonePreferenceData.west_count
       OccupationZonePreferenceData.preference].
  split; [reflexivity|]. split; [reflexivity|].
  exists total. repeat split; try assumption; lia.
Qed.


Lemma get_behavior_correlation_spec (date : option string) :
  returns (get_behavior_correlation get_date date) (behavior_post date).
Proof.
  unfold get_behavior_correlation.
  eapply returns_bind; [apply age_loop_spec|]. intros ages Hages.
  eapply returns_bind; [apply hour_gender_loop_spec|]. intros hours Hhours.
  eapply returns_bind; [apply zone_preference_loop_spec|]. intros prefs Hprefs.
  assert (Hcounts : Forall (fun a => 0 <= AgeLoyaltyCorrelationData.count a <= 102400)
                      ages).
  { eapply Forall2_right; [exact Hages|].
    intros g a (_ & Hc & _). lia. }
  assert (Hlen : List.length ages = 5%nat).
  { apply Forall2_length in Hages. rewrite <- Hages. reflexivity. }
  rewrite <- (firstn_skipn 2 ages) in Hcounts.
  apply Forall_app in Hcounts. destruct Hcounts as [Hy Hrest].
  rewrite <- (firstn_skipn 1 (skipn 2 ages)) in Hrest.
  apply Forall_app in Hrest. destruct Hrest as [_ Hs].
  rewrite skipn_skipn in Hs. change (1 + 2)%nat with 3%nat in Hs.
  destruct (group_average_ok (firstn 2 ages)) as (ya & Eya).
  { pose proof (isum_bounds _ _ _
                  (Forall_map_iff AgeLoyaltyCorrelationData.count _ _ Hy)) as B.
    rewrite length_map, length_firstn, Hlen in B.
    change (Z.of_nat (Nat.min 2 5)) with 2 in B.
    apply Z.le_lt_trans with (2 * 102400); [lia|]. vm_compute. reflexivity. }
  destruct (group_average_ok (skipn 3 ages)) as (sa & Esa).
  { pose proof (isum_bounds _ _ _
                  (Forall_map_iff AgeLoyaltyCorrelationData.count _ _ Hs)) as B.
    rewrite length_map, length_skipn, Hlen in B.
    change (Z.of_nat (5 - 3)) with 2 in B.
    apply Z.le_lt_trans with (2 * 102400); [lia|]. vm_compute. reflexivity. }
  eapply returns_bind with (P := fun a => a = ya);
    [eapply returns_lift; [exact Eya|reflexivity]|].
  cbv beta. intros ? ->.
  eapply returns_bind with (P := fun a => a = sa);
    [eapply returns_lift; [exact Esa|reflexivity]|].
  cbv beta. intros ? ->.
  assert (Hhl : List.length hours = 17%nat).
  { apply Forall2_length in Hhours. rewrite <- Hhours. reflexivity. }
  destruct (nth_error hours 1) as [m|] eqn:Em;
    [|apply nth_error_None in Em; lia].
  destruct (nth_error hours 14) as [e|] eqn:Ee;
    [|apply nth_error_None in Ee; lia].
  eapply returns_bind with (P := fun a => a = m).
  { eapply returns_lift; [unfold Seq.index; rewrite Em|]; reflexivity. }
  cbv beta. intros ? ->.
  eapply returns_bind with (P := fun a => a = e).
  { eapply returns_lift; [unfold Seq.index; rewrite Ee|]; reflexivity. }
  cbv beta. intros ? ->.
  apply returns_ret. unfold behavior_post, behavior_summary_ok.
  cbn [BehaviorCorrelationResponse.date
       BehaviorCorrelationResponse.age_loyalty_correlation
       BehaviorCorrelationResponse.hour_gender_distribution
       BehaviorCorrelationResponse.occupation_zone_preference
       BehaviorCorrelationResponse.summary
       BehaviorCorrelationSummary.age_loyalty_insight
       BehaviorCorrelationSummary.young_avg_loyalty
       BehaviorCorrelationSummary.senior_avg_loyalty
       BehaviorCorrelationSummary.dominant_gender_morning
       BehaviorCorrelationSummary.dominant_gender_evening
       BehaviorCorrelationSummary.strong_zone_preference_count].
  repeat (split; [assumption || reflexivity|]).
  split; [exists ya, sa; repeat split; assumption|].
  split; [exists m, e; repeat split; assumption|]. reflexivity.
Qed.

End Specifications.

Local Open Scope Z_scope.
Local Open Scope string_scope.
Local Open Scope monad_scope.

(** * The specification's claims *)

(** ** What a report holds besides its date *)

Definition operational_values (r : OperationalEfficiencyResponse.t) :=
  (OperationalEfficiencyResponse.total_transactions r,
   OperationalEfficiencyResponse.traffic_per_hour r,
   OperationalEfficiencyResponse.gate_utilization r,
   OperationalEfficiencyResponse.traffic_by_zone r,
   OperationalEfficiencyResponse.balance_direction r,
   OperationalEfficiencyResponse.summary r).

Definition demografi_values (r : DemografiResponse.t) :=
  (DemografiResponse.total_passengers r,
   DemografiResponse.age_distribution r,
   DemografiResponse.occupation_distribution r,
   DemografiResponse.gender_distribution r,
   DemografiResponse.origin_station_distribution r,
   DemografiResponse.summary r).

Definition perjalanan_values (r : SegmentasiPerjalananResponse.t) :=
  (SegmentasiPerjalananResponse.total_transactions r,
   SegmentasiPerjalananResponse.origin_distribution r,
   SegmentasiPerjalananResponse.direction_distribution r,
   SegmentasiPerjalananResponse.time_travel_distribution r,
   SegmentasiPerjalananResponse.summary r).

Definition loyaltas_values (r : SegmentasiLoyaltasResponse.t) :=
  (SegmentasiLoyaltasResponse.total_passengers r,
   SegmentasiLoyaltasResponse.loyalty_segments r,
   SegmentasiLoyaltasResponse.loyalty_by_occupation r,
   SegmentasiLoyaltasResponse.summary r).

Definition behavior_values (r : BehaviorCorrelationResponse.t) :=
  (BehaviorCorrelationResponse.age_loyalty_correlation r,
   BehaviorCorrelationResponse.hour_gender_distribution r,
   BehaviorCorrelationResponse.occupation_zone_preference r,
   BehaviorCorrelationResponse.summary r).

Section Observations.

Context {R : Random}.

(** The outcome of a computation seen through [f]: its exception, or the
    view of its value together with the generator state it leaves. *)
Definition observe {A B : Type} (f : A -> B) (m : M A) : M B :=
  fun s =>
    match m s with
    | Ok (a, s') => Ok (f a, s')
    | Raise e => Raise e
    end.

Lemma observe_bind {A B C : Type} (f : B -> C) (m : M A) (k1 k2 : A -> M B) s :
  (forall a s', observe f (k1 a) s' = observe f (k2 a) s') ->
  observe f (bind m k1) s = observe f (bind m k2) s.
Proof.
  intros H. unfold observe, bind in *.
  destruct (m s) as [[a s']|e]; [apply H|reflexivity].
Qed.

End Observations.

Ltac same_draws :=
  repeat first
    [ apply observe_bind; intros
    | match goal with
      | |- context [match ?x with pair _ _ => _ end] => is_var x; destruct x
      end ];
  reflexivity.

Section Claims.

Context {R : Random}.
Variable get_date : string.

Lemma operational_date_irrelevant (d d' : option string) s :
  observe operational_values (get_operational_efficiency get_date d) s
  = observe operational_values (get_operational_efficiency get_date d') s.
Proof. unfold get_operational_efficiency. cbv zeta. same_draws. Qed.

Lemma demografi_date_irrelevant (d d' : option string) s :
  observe demografi_values (get_demografi get_date d) s
  = observe demografi_values (get_demografi get_date d') s.
Proof. unfold get_demografi. cbv zeta. same_draws. Qed.

Lemma perjalanan_date_irrelevant (d d' : option string) s :
  observe perjalanan_values (get_segmentasi_perjalanan get_date d) s
  = observe perjalanan_values (get_segmentasi_perjalanan get_date d') s.
Proof. unfold get_segmentasi_perjalanan. cbv zeta. same_draws. Qed.

Lemma loyaltas_date_irrelevant (d d' : option string) s :
  observe loyaltas_values (get_segmentasi_loyaltas get_date d) s
  = observe loyaltas_values (get_segmentasi_loyaltas get_date d') s.
Proof. unfold get_segmentasi_loyaltas. cbv zeta. same_draws. Qed.

Lemma behavior_date_irrelevant (d d' : option string) s :
  observe behavior_values (get_behavior_correlation get_date d) s
  = observe behavior_values (get_behavior_correlation get_date d') s.
Proof. unfold get_behavior_correlation. cbv zeta. same_draws. Qed.


(** ** Kategori 1 *)

Lemma operational_gates (date : option string)
    (r : OperationalEfficiencyResponse.t) :
  operational_post get_date date r ->
  exists g1 g2 g3 g4 g5 g6 g7 g8,
    OperationalEfficiencyResponse.gate_utilization r
    = [g1; g2; g3; g4; g5; g6; g7; g8]
    /\ Forall (fun g => GateUtilizationData.zone g = "North") [g1; g2; g3; g4]
    /\ Forall (fun g => GateUtilizationData.zone g = "West") [g5; g6; g7; g8]
    /\ Forall (fun g =>
                 percent_of (GateUtilizationData.count g)
                   (OperationalEfficiencyResponse.total_transactions r) 2
                 = Ok (GateUtilizationData.utilization_rate g))
         [g1; g2; g3; g4; g5; g6; g7; g8].
Proof.
  intros (_ & _ & _ & Hg & _). cbv zeta in Hg.
  change (list_prod ["North"; "West"] (Seq.range 1 5))
    with [("North", 1); ("North", 2); ("North", 3); ("North", 4);
          ("West", 1); ("West", 2); ("West", 3); ("West", 4)] in Hg.
  remember (OperationalEfficiencyResponse.gate_utilization r) as gates eqn:Eg.
  clear Eg. invert_Forall2.
  repeat match goal with
         | H : gate_ok _ _ _ _ |- _ => destruct H as (_ & ? & _ & ?)
         end.
  cbn [fst snd] in *.
  do 8 eexists. split; [reflexivity|].
  repeat split; repeat constructor; assumption.
Qed.

(** C7: every one of the 8 gate records of an Operational Efficiency
    report carries [utilization_rate = round(count / total_transactions *
    100, 2)], the quotient, the product and the rounding being the
    binary64 operations of the code, and [total_transactions] the report's
    own total. *)
Theorem gate_utilization_rate_formula (date : option string) :
  returns (get_operational_efficiency get_date date) (fun r =>
    List.length (OperationalEfficiencyResponse.gate_utilization r) = 8%nat
    /\ Forall (fun g =>
         exists q,
           Py.int_truediv (GateUtilizationData.count g)
             (OperationalEfficiencyResponse.total_transactions r) = Ok q
           /\ GateUtilizationData.utilization_rate g
              = Py.round (q * 100)%float 2)
       (OperationalEfficiencyResponse.gate_utilization r)).
Proof.
  eapply returns_conseq; [apply get_operational_efficiency_spec|].
  intros r Hr.
  destruct (operational_gates _ _ Hr) as (g1 & g2 & g3 & g4 & g5 & g6 & g7 & g8
                                          & -> & _ & _ & Hrate).
  split; [reflexivity|].
  eapply Forall_impl; [|exact Hrate].
  intros g Hg. unfold percent_of in Hg.
  destruct (Py.int_truediv (GateUtilizationData.count g)
              (OperationalEfficiencyResponse.total_transactions r)) as [q|e];
    [|discriminate].
  exists q. split; [reflexivity|]. injection Hg as <-. reflexivity.
Qed.

(** C10: in every Operational Efficiency report the North zone record's
    count is the sum of the counts of the 4 North gate records and the
    West zone record's count is the sum of the counts of the 4 West gate
    records. *)
Theorem zone_count_is_sum_of_gates (date : option string) :
  returns (get_operational_efficiency get_date date) (fun r =>
    exists g1 g2 g3 g4 g5 g6 g7 g8 north west,
      OperationalEfficiencyResponse.gate_utilization r
      = [g1; g2; g3; g4; g5; g6; g7; g8]
      /\ Forall (fun g => GateUtilizationData.zone g = "North") [g1; g2; g3; g4]
      /\ Forall (fun g => GateUtilizationData.zone g = "West") [g5; g6; g7; g8]
      /\ OperationalEfficiencyResponse.traffic_by_zone r = [north; west]
      /\ TrafficZoneData.zone north = "TAP-NORTH"
      /\ TrafficZoneData.count north
         = GateUtilizationData.count g1 + GateUtilizationData.count g2
           + GateUtilizationData.count g3 + GateUtilizationData.count g4
      /\ TrafficZoneData.zone west = "TAP-WEST"
      /\ TrafficZoneData.count west
         = GateUtilizationData.count g5 + GateUtilizationData.count g6
           + GateUtilizationData.count g7 + GateUtilizationData.count g8).
Proof.
  eapply returns_conseq; [apply get_operational_efficiency_spec|].
  intros r Hr.
  destruct (operational_gates _ _ Hr) as (g1 & g2 & g3 & g4 & g5 & g6 & g7 & g8
                                          & Eg & HN & HW & _).
  destruct Hr as (_ & _ & _ & _ & Hz & _). cbv zeta in Hz. rewrite Eg in Hz.
  remember (OperationalEfficiencyResponse.traffic_by_zone r) as zones eqn:Ez.
  clear Ez. invert_Forall2.
  repeat match goal with
         | H : zone_ok _ _ _ _ _ |- _ => destruct H as (? & ? & _ & _)
         end.
  cbn [fst snd] in *.
  repeat match goal with
         | H : Forall _ (_ :: _) |- _ => inversion H; subst; clear H
         end.
  unfold zone_gates in *. cbn [filter] in *.
  repeat match goal with
         | H : GateUtilizationData.zone ?g = _, H' : context [GateUtilizationData.zone ?g] |- _ =>
             rewrite H in H'
         end.
  cbn in *.
  exists g1, g2, g3, g4, g5, g6, g7, g8. do 2 eexists.
  split; [exact Eg|]. split; [repeat constructor; assumption|].
  split; [repeat constructor; assumption|]. split; [reflexivity|].
  repeat split; try assumption; lia.
Qed.


(** C6: each of the five category generators returns a report from every
    generator state (no exception is raised, so no division by zero is
    reached), and the denominators of its divisions are strictly positive:
    [total_transactions], [total_passengers], each zone's count, the number
    of gates, the sum of the three loyalty tier counts and each hourly
    gender total. *)
Theorem denominators_are_positive (date : option string) :
  returns (get_operational_efficiency get_date date) (fun r =>
    0 < OperationalEfficiencyResponse.total_transactions r
    /\ Forall (fun z => 0 < TrafficZoneData.count z)
         (OperationalEfficiencyResponse.traffic_by_zone r)
    /\ (0 < List.length (OperationalEfficiencyResponse.gate_utilization r))%nat)
  /\ returns (get_demografi get_date date) (fun r =>
       0 < DemografiResponse.total_passengers r
       /\ (0 < List.length (DemografiResponse.age_distribution r))%nat)
  /\ returns (get_segmentasi_perjalanan get_date date) (fun r =>
       0 < SegmentasiPerjalananResponse.total_transactions r)
  /\ returns (get_segmentasi_loyaltas get_date date) (fun r =>
       0 < SegmentasiLoyaltasResponse.total_passengers r
       /\ 0 < Py.isum (map LoyaltySegmentData.count
                         (SegmentasiLoyaltasResponse.loyalty_segments r)))
  /\ returns (get_behavior_correlation get_date date) (fun r =>
       Forall (fun h => 0 < HourGenderData.pria_count h
                            + HourGenderData.wanita_count h)
         (BehaviorCorrelationResponse.hour_gender_distribution r)).
Proof.
  repeat split.
  - eapply returns_conseq; [apply get_operational_efficiency_spec|].
    intros r Hr.
    destruct (operational_gates _ _ Hr) as (g1 & g2 & g3 & g4 & g5 & g6 & g7
                                            & g8 & Eg & _).
    destruct Hr as (_ & Ht & _ & _ & Hz & _). cbv zeta in Ht, Hz.
    split; [lia|]. split.
    + eapply Forall2_right; [exact Hz|].
      intros lz z (_ & _ & Hc & _). lia.
    + rewrite Eg. cbn. lia.
  - eapply returns_conseq; [apply get_demografi_spec|].
    intros r (_ & Ht & Ha & _). cbv zeta in Ht, Ha. split; [lia|].
    apply Forall2_length in Ha. rewrite <- Ha. cbn. lia.
  - eapply returns_conseq; [apply get_segmentasi_perjalanan_spec|].
    intros r (_ & Ht & _). cbv zeta in Ht. lia.
  - eapply returns_conseq; [apply get_segmentasi_loyaltas_spec|].
    intros r (_ & Ht & Hs & _). cbv zeta in Hs. split; [lia|assumption].
  - eapply returns_conseq; [apply get_behavior_correlation_spec|].
    intros r (_ & _ & Hh & _).
    eapply Forall2_right; [exact Hh|].
    intros hour h (_ & Hc & _). cbv zeta in Hc. lia.
Qed.

(** ** Kategori 3 and 4 *)

(** C9: in every Demographics report the female count is the complement
    of the male count, [male.count + female.count = total_passengers], and
    in every Trip Segmentation report the OUT count is the complement of
    the IN count, [IN.count + OUT.count = total_transactions]. *)
Theorem gender_and_direction_complements (date : option string) :
  returns (get_demografi get_date date) (fun r =>
    exists pria wanita,
      DemografiResponse.gender_distribution r = [pria; wanita]
      /\ GenderDistributionData.gender pria = "Pria"
      /\ GenderDistributionData.gender wanita = "Wanita"
      /\ GenderDistributionData.count wanita
         = DemografiResponse.total_passengers r
           - GenderDistributionData.count pria
      /\ GenderDistributionData.count pria + GenderDistributionData.count wanita
         = DemografiResponse.total_passengers r)
  /\ returns (get_segmentasi_perjalanan get_date date) (fun r =>
       exists d_in d_out,
         SegmentasiPerjalananResponse.direction_distribution r = [d_in; d_out]
         /\ DirectionDistributionData.direction d_in = "IN"
         /\ DirectionDistributionData.direction d_out = "OUT"
         /\ DirectionDistributionData.count d_out
            = SegmentasiPerjalananResponse.total_transactions r
              - DirectionDistributionData.count d_in
         /\ DirectionDistributionData.count d_in
            + DirectionDistributionData.count d_out
            = SegmentasiPerjalananResponse.total_transactions r).
Proof.
  split.
  - eapply returns_conseq; [apply get_demografi_spec|].
    intros r (_ & _ & _ & _ & (pria & wanita & E & Hp & Hw & _ & Hc & _) & _).
    exists pria, wanita. repeat split; try assumption. lia.
  - eapply returns_conseq; [apply get_segmentasi_perjalanan_spec|].
    intros r (_ & _ & _ & (d_in & d_out & E & Hi & Ho & _ & Hc & _) & _).
    exists d_in, d_out. repeat split; try assumption. lia.
Qed.

(** C5: in every Demographics report [summary.average_age] is the mean of
    the midpoints of the five age-range labels (21, 29.5, 39.5, 49.5, and
    60 for the label without a dash), each midpoint computed from its
    label, rounded to 1 decimal; it is the constant 39.9 whatever the
    random draws and the bucket counts are. *)
Theorem average_age_is_constant (date : option string) :
  returns (get_demografi get_date date) (fun r =>
    let midpoints :=
      [Py.Float 21; Py.Float 29.5; Py.Float 39.5; Py.Float 49.5; Py.Int 60] in
    Forall2 (fun a m => forall s,
               age_midpoint (AgeDistributionData.age_range a) s = Ok (m, s))
      (DemografiResponse.age_distribution r) midpoints
    /\ (exists mean,
          Py.truediv (Py.sum midpoints)
            (Py.Int (Z.of_nat (List.length (DemografiResponse.age_distribution r))))
          = Ok mean
          /\ DemografiSummary.average_age (DemografiResponse.summary r)
             = Py.round mean 1)
    /\ DemografiSummary.average_age (DemografiResponse.summary r) = 39.9%float).
Proof.
  eapply returns_conseq; [apply get_demografi_spec|].
  intros r (_ & _ & Ha & _ & _ & _ & Hs & _). cbv zeta in Ha |- *.
  remember (DemografiResponse.age_distribution r) as ages eqn:Ea. clear Ea.
  unfold age_spec in Ha. invert_Forall2.
  repeat match goal with
         | H : bucket_ok _ _ _ _ _ _ |- _ => destruct H as (? & _)
         end.
  cbn [fst snd] in *.
  split.
  - repeat constructor; intros s;
      match goal with
      | H : AgeDistributionData.age_range ?a = _
        |- context [AgeDistributionData.age_range ?a] => rewrite H
      end; vm_compute; reflexivity.
  - split; [|exact Hs]. exists 39.9%float. rewrite Hs.
    split; vm_compute; reflexivity.
Qed.


(** ** Kategori 5 *)

(** C8: in every Loyalty Segmentation report each of the three tier
    percentages is [round(count / T * 100, 1)] where [T] is the sum of the
    three tier counts of the report (not [total_passengers]); tier counts
    [1500, 1200, 900] give the percentages 41.7, 33.3 and 25.0. *)
Theorem loyalty_percentages_of_tier_sum (date : option string) :
  returns (get_segmentasi_loyaltas get_date date) (fun r =>
    let segments := SegmentasiLoyaltasResponse.loyalty_segments r in
    let T := Py.isum (map LoyaltySegmentData.count segments) in
    List.length segments = 3%nat
    /\ Forall (fun ls =>
         exists q,
           Py.int_truediv (LoyaltySegmentData.count ls) T = Ok q
           /\ LoyaltySegmentData.percentage ls = Py.round (q * 100)%float 1)
       segments)
  /\ map (fun count => percent_of count (Py.isum [1500; 1200; 900]) 1)
       [1500; 1200; 900]
     = [Ok 41.7%float; Ok 33.3%float; Ok 25.0%float].
Proof.
  split; [|vm_compute; reflexivity].
  eapply returns_conseq; [apply get_segmentasi_loyaltas_spec|].
  intros r (_ & _ & _ & Hs & _). cbv zeta in Hs |- *. split.
  - apply Forall2_length in Hs. rewrite <- Hs. reflexivity.
  - eapply Forall2_right; [exact Hs|].
    intros spec ls ((_ & _ & _ & Hp) & _). unfold percent_of in Hp.
    destruct (Py.int_truediv (LoyaltySegmentData.count ls)
                (Py.isum (map LoyaltySegmentData.count
                            (SegmentasiLoyaltasResponse.loyalty_segments r))))
      as [q|e]; [|discriminate].
    exists q. split; [reflexivity|]. injection Hp as <-. reflexivity.
Qed.

(** ** Kategori Korelasi Behavior *)

Lemma Forall2_nth_error {A B : Type} (P : A -> B -> Prop) (l : list A)
    (l' : list B) (i : nat) (a : A) (b : B) :
  Forall2 P l l' -> nth_error l i = Some a -> nth_error l' i = Some b -> P a b.
Proof.
  intros H. revert i. induction H as [|x y l l' Hxy _ IH]; intros [|i] Ha Hb;
    cbn in Ha, Hb; try discriminate.
  - injection Ha as <-. injection Hb as <-. exact Hxy.
  - eapply IH; eassumption.
Qed.

(** The labelling [if]/[elif]/[else] read as three equivalences; the two
    thresholds are never both exceeded by one row of the table. *)
Lemma zone_preference_labels (north_ratio west_ratio : float) :
  ((0.55 <? north_ratio) && (0.55 <? west_ratio))%float = false ->
  (zone_preference north_ratio west_ratio = "North"
   <-> (0.55 <? north_ratio)%float = true)
  /\ (zone_preference north_ratio west_ratio = "West"
      <-> (0.55 <? west_ratio)%float = true)
  /\ (zone_preference north_ratio west_ratio = "Neutral"
      <-> (0.55 <? north_ratio)%float = false
          /\ (0.55 <? west_ratio)%float = false).
Proof.
  unfold zone_preference.
  destruct (0.55 <? north_ratio)%float, (0.55 <? west_ratio)%float;
    cbn; intros H; try discriminate H;
    repeat split; intros; try tauto; try discriminate;
    match goal with
    | H' : _ /\ _ |- _ => destruct H'; discriminate
    end.
Qed.

(** C3: in every Behavior Correlation report the five zone-preference
    records follow the ratio table: [west_count] is the complement of
    [north_count] in the record's jittered total, so [north_count +
    west_count] is that total; the label is ["North"] iff the north ratio
    exceeds 0.55, ["West"] iff the west ratio exceeds 0.55 and ["Neutral"]
    otherwise; with the table of the code that is one ["North"] record
    (PNS/BUMN), one ["West"] record (Wisatawan) and three ["Neutral"]
    ones. *)
Theorem zone_preference_records (date : option string) :
  returns (get_behavior_correlation get_date date) (fun r =>
    let prefs := BehaviorCorrelationResponse.occupation_zone_preference r in
    Forall2 (fun '(occupation, north_ratio, west_ratio) p =>
       OccupationZonePreferenceData.occupation p = occupation
       /\ (exists total,
             50 < total < 128000
             /\ Py.int_of_float (Py.float_of_int total * north_ratio)%float
                = Ok (OccupationZonePreferenceData.north_count p)
             /\ OccupationZonePreferenceData.west_count p
                = total - OccupationZonePreferenceData.north_count p
             /\ OccupationZonePreferenceData.north_count p
                + OccupationZonePreferenceData.west_count p = total)
       /\ (OccupationZonePreferenceData.preference p = "North"
           <-> (0.55 <? north_ratio)%float = true)
       /\ (OccupationZonePreferenceData.preference p = "West"
           <-> (0.55 <? west_ratio)%float = true)
       /\ (OccupationZonePreferenceData.preference p = "Neutral"
           <-> (0.55 <? north_ratio)%float = false
               /\ (0.55 <? west_ratio)%float = false))
      occupation_zone_base prefs
    /\ map (fun p => (OccupationZonePreferenceData.occupation p,
                      OccupationZonePreferenceData.preference p)) prefs
       = [ ("Karyawan Swasta", "Neutral"); ("PNS/BUMN", "North");
           ("Pelajar/Mahasiswa", "Neutral"); ("Wiraswasta", "Neutral");
           ("Wisatawan", "West") ]).
Proof.
  eapply returns_conseq; [apply get_behavior_correlation_spec|].
  intros r (_ & _ & _ & Hp & _). cbv zeta.
  remember (BehaviorCorrelationResponse.occupation_zone_preference r)
    as prefs eqn:Ep. clear Ep.
  unfold occupation_zone_base in *. invert_Forall2.
  repeat match goal with
         | H : zone_preference_ok _ _ |- _ =>
             destruct H as (? & ? & (? & ? & ? & ?))
         end.
  cbn [fst snd] in *.
  split.
  - repeat apply Forall2_cons; try apply Forall2_nil;
      (split; [assumption|]);
      (split;
       [match goal with
        | Hn : Py.int_of_float (Py.float_of_int ?t * _)%float
               = Ok (OccupationZonePreferenceData.north_count ?p)
          |- exists _, _ /\ _ = Ok (OccupationZonePreferenceData.north_count ?p)
                       /\ _ =>
            exists t; repeat split; try assumption; lia
        end|]);
      match goal with
      | H : OccupationZonePreferenceData.preference ?p = _
        |- context [OccupationZonePreferenceData.preference ?p] => rewrite H
      end; apply zone_preference_labels; vm_compute; reflexivity.
  - cbn [map].
    repeat match goal with
           | H : OccupationZonePreferenceData.preference ?p = _ |- _ =>
               rewrite H; clear H
           | H : OccupationZonePreferenceData.occupation ?p = _ |- _ =>
               rewrite H; clear H
           end.
    vm_compute. reflexivity.
Qed.

(** C4: in every Behavior Correlation report
    [summary.dominant_gender_morning] is ["Pria"] if the record at position
    1 of [hour_gender_distribution] has [pria_percentage > 50] and
    ["Wanita"] otherwise, and [summary.dominant_gender_evening] is decided
    the same way by the record at position 14; the distribution lists the
    hours 6 to 22 in order, so these two records are those of hour 7 and
    hour 20. *)
Theorem dominant_gender_by_position (date : option string) :
  returns (get_behavior_correlation get_date date) (fun r =>
    let hours := BehaviorCorrelationResponse.hour_gender_distribution r in
    let s := BehaviorCorrelationResponse.summary r in
    map HourGenderData.hour hours = Seq.range 6 23
    /\ exists morning evening,
         nth_error hours 1 = Some morning
         /\ HourGenderData.hour morning = 7
         /\ BehaviorCorrelationSummary.dominant_gender_morning s
            = (if (50 <? HourGenderData.pria_percentage morning)%float
               then "Pria" else "Wanita")
         /\ nth_error hours 14 = Some evening
         /\ HourGenderData.hour evening = 20
         /\ BehaviorCorrelationSummary.dominant_gender_evening s
            = (if (50 <? HourGenderData.pria_percentage evening)%float
               then "Pria" else "Wanita")).
Proof.
  eapply returns_conseq; [apply get_behavior_correlation_spec|].
  intros r (_ & _ & Hh & _ & (_ & (m & e & Em & Ee & Hm & He) & _)).
  cbv zeta. split.
  - clear - Hh. induction Hh as [|hour h l l' (E & _) _ IH]; [reflexivity|].
    cbn [map]. rewrite E, IH. reflexivity.
  - exists m, e.
    pose proof (Forall2_nth_error _ _ _ 1%nat 7 m Hh eq_refl Em) as (E7 & _).
    pose proof (Forall2_nth_error _ _ _ 14%nat 20 e Hh eq_refl Ee) as (E20 & _).
    repeat split; assumption.
Qed.

(** ** The report date *)

(** C2 (as amended): every generator endpoint returns a report for every
    caller-supplied date string, well-formed or not (nothing is parsed,
    validated or rejected); the report's date is that string when it is
    not empty and the current date when it is empty; and the date has no
    effect on the generated values: from one generator state, any two
    dates give the same values, the same exception if any, and the same
    final state. *)
Theorem date_is_an_opaque_label (d : string) (other : option string) (s : rng) :
  (returns (get_operational_efficiency get_date (Some d)) (fun r =>
     OperationalEfficiencyResponse.date r = if d =? "" then get_date else d)
   /\ observe operational_values (get_operational_efficiency get_date (Some d)) s
      = observe operational_values (get_operational_efficiency get_date other) s)
  /\ (returns (get_demografi get_date (Some d)) (fun r =>
        DemografiResponse.date r = if d =? "" then get_date else d)
      /\ observe demografi_values (get_demografi get_date (Some d)) s
         = observe demografi_values (get_demografi get_date other) s)
  /\ (returns (get_segmentasi_perjalanan get_date (Some d)) (fun r =>
        SegmentasiPerjalananResponse.date r = if d =? "" then get_date else d)
      /\ observe perjalanan_values (get_segmentasi_perjalanan get_date (Some d)) s
         = observe perjalanan_values (get_segmentasi_perjalanan get_date other) s)
  /\ (returns (get_segmentasi_loyaltas get_date (Some d)) (fun r =>
        SegmentasiLoyaltasResponse.date r = if d =? "" then get_date else d)
      /\ observe loyaltas_values (get_segmentasi_loyaltas get_date (Some d)) s
         = observe loyaltas_values (get_segmentasi_loyaltas get_date other) s)
  /\ (returns (get_behavior_correlation get_date (Some d)) (fun r =>
        BehaviorCorrelationResponse.date r = if d =? "" then get_date else d)
      /\ observe behavior_values (get_behavior_correlation get_date (Some d)) s
         = observe behavior_values (get_behavior_correlation get_date other) s).
Proof.
  repeat split.
  - eapply returns_conseq; [apply get_operational_efficiency_spec|].
    intros r (E & _). exact E.
  - apply operational_date_irrelevant.
  - eapply returns_conseq; [apply get_demografi_spec|].
    intros r (E & _). exact E.
  - apply demografi_date_irrelevant.
  - eapply returns_conseq; [apply get_segmentasi_perjalanan_spec|].
    intros r (E & _). exact E.
  - apply perjalanan_date_irrelevant.
  - eapply returns_conseq; [apply get_segmentasi_loyaltas_spec|].
    intros r (E & _). exact E.
  - apply loyaltas_date_irrelevant.
  - eapply returns_conseq; [apply get_behavior_correlation_spec|].
    intros r (E & _). exact E.
  - apply behavior_date_irrelevant.
Qed.

End Claims.

(** ** Runs on a scripted generator *)

(** C2, the claim as stated: the empty string is a date string a caller
    can supply, and the report does not carry it. *)
Lemma empty_date_is_not_echoed :
  ~ (forall (d : string) (s : Scripted.state) r s',
       get_operational_efficiency (R := Scripted.source) "2024-05-17" (Some d) s
       = Ok (r, s') ->
       OperationalEfficiencyResponse.date r = d).
Proof.
  intros H.
  destruct (get_operational_efficiency_spec (R := Scripted.source) "2024-05-17"
              (Some "") (Scripted.script [] [])) as (r & s' & E & Hd & _).
  specialize (H "" _ r s' E). rewrite H in Hd. discriminate Hd.
Qed.

(** C1: the run in which every [random()] is 0.75, [randint(4000, 6000)]
    is 5000 and every other [randint] is its lower bound.  The North zone
    counts 1980 and the West zone 1760; the IN and the OUT record of a zone
    are two draws of 45-55% of the zone count, here 1039 and 1039 for North
    and 924 and 924 for West, so IN + OUT is 2078 and 1848. *)
Theorem balance_direction_run :
  exists r s',
    get_operational_efficiency (R := Scripted.source) "2024-05-17" None
      (Scripted.script (repeat 0.75%float 29) [1000]) = Ok (r, s')
    /\ map (fun z => (TrafficZoneData.zone z, TrafficZoneData.count z))
         (OperationalEfficiencyResponse.traffic_by_zone r)
       = [("TAP-NORTH", 1980); ("TAP-WEST", 1760)]
    /\ map (fun b => (DirectionBalanceData.zone b,
                      DirectionBalanceData.direction b,
                      DirectionBalanceData.count b))
         (OperationalEfficiencyResponse.balance_direction r)
       = [ ("NORTH", "IN", 1039); ("NORTH", "OUT", 1039);
           ("WEST", "IN", 924); ("WEST", "OUT", 924) ].
Proof.
  eexists. eexists. split; [vm_compute; reflexivity|].
  vm_compute. split; reflexivity.
Qed.

(** * Further properties of the reports *)

(** ** Python's [max] with a key *)

Lemma max_from_first_maximum {A : Type} (key : A -> Z) (l : list A) :
  forall (p1 p2 : list A) (best : A),
    Forall (fun x => key x < key best) p1 ->
    Forall (fun x => key x <= key best) p2 ->
    exists l1 l2,
      (p1 ++ best :: p2 ++ l = l1 ++ Seq.max_from Z.gtb key best l :: l2)%list
      /\ Forall (fun x => key x < key (Seq.max_from Z.gtb key best l)) l1
      /\ Forall (fun x => key x <= key (Seq.max_from Z.gtb key best l)) l2.
Proof.
  induction l as [|a l IH]; intros p1 p2 best H1 H2; cbn [Seq.max_from].
  - exists p1, p2. rewrite app_nil_r. auto.
  - destruct (Z.gtb_spec (key a) (key best)) as [Hgt|Hle].
    + destruct (IH (p1 ++ best :: p2)%list [] a) as (l1 & l2 & E & Hl1 & Hl2).
      * apply Forall_app. split.
        -- eapply Forall_impl; [|exact H1]. cbv beta. intros; lia.
        -- constructor; [lia|].
           eapply Forall_impl; [|exact H2]. cbv beta. intros; lia.
      * constructor.
      * exists l1, l2. split; [|auto].
        rewrite <- E. rewrite <- app_assoc. reflexivity.
    + destruct (IH p1 (p2 ++ [a])%list best H1) as (l1 & l2 & E & Hl1 & Hl2).
      * apply Forall_app. split; [assumption|]. constructor; [lia|constructor].
      * exists l1, l2. split; [|auto].
        rewrite <- E. rewrite <- app_assoc. reflexivity.
Qed.

(** [max(l, key=key)] on int keys: [ValueError] on the empty list;
    otherwise the first element of [l] whose key is the greatest. *)
Lemma max_by_first_maximum {A : Type} (key : A -> Z) (l : list A) (m : A) :
  Seq.max_by Z.gtb key l = Ok m ->
  exists l1 l2,
    (l = l1 ++ m :: l2)%list
    /\ Forall (fun x => key x < key m) l1
    /\ Forall (fun x => key x <= key m) l2.
Proof.
  destruct l as [|a l]; cbn [Seq.max_by]; [discriminate|].
  intros E. injection E as <-.
  apply (max_from_first_maximum key l [] [] a); constructor.
Qed.

Lemma filter_keep {A : Type} (f : A -> bool) (x : A) (l : list A) :
  f x = true -> filter f (x :: l) = x :: filter f l.
Proof. intros H. cbn [filter]. rewrite H. reflexivity. Qed.

Lemma filter_drop {A : Type} (f : A -> bool) (x : A) (l : list A) :
  f x = false -> filter f (x :: l) = filter f l.
Proof. intros H. cbn [filter]. rewrite H. reflexivity. Qed.

(** Filtering a list whose elements have a known [field], one element at
    a time. *)
Ltac filter_known field :=
  repeat first
    [ rewrite filter_keep
        by (match goal with
            | H : field ?y = _ |- context [field ?y] => rewrite H
            end; reflexivity)
    | rewrite filter_drop
        by (match goal with
            | H : field ?y = _ |- context [field ?y] => rewrite H
            end; reflexivity) ].

Section Reports.

Context {R : Random}.
Variable get_date : string.

(** ** Kategori 1 *)

(** X1: the traffic-per-hour list of an Operational Efficiency report has
    one record per hour from 6 to 22, in order; a record is labelled
    "Morning Peak" when its hour is between 7 and 9, "Evening Peak" when
    it is between 16 and 19, and carries the empty label otherwise; every
    count is positive. *)
Theorem traffic_per_hour_records (date : option string) :
  returns (get_operational_efficiency get_date date) (fun r =>
    let hours := OperationalEfficiencyResponse.traffic_per_hour r in
    map TrafficHourData.hour hours = Seq.range 6 23
    /\ Forall (fun t =>
         TrafficHourData.period t
         = (if between 7 (TrafficHourData.hour t) 9 then "Morning Peak"
            else if between 16 (TrafficHourData.hour t) 19 then "Evening Peak"
            else "")
         /\ 0 < TrafficHourData.count t) hours).
Proof.
  eapply returns_conseq; [apply get_operational_efficiency_spec|].
  intros r (_ & _ & Hh & _). cbv zeta. split.
  - clear - Hh. induction Hh as [|hour h l l' (E & _) _ IH]; [reflexivity|].
    cbn [map]. rewrite E, IH. reflexivity.
  - eapply Forall2_right; [exact Hh|].
    intros hour t (E & Hp & Hc). rewrite E. split; [exact Hp|lia].
Qed.

(** X2: the eight gate records are built zone by zone, North first, with
    the identifiers [TAP-<ZONE>-00<i>] for i = 1..4, the zone name in upper
    case. *)
Theorem gate_identifiers (date : option string) :
  returns (get_operational_efficiency get_date date) (fun r =>
    map (fun g => (GateUtilizationData.gate_id g, GateUtilizationData.zone g))
      (OperationalEfficiencyResponse.gate_utilization r)
    = [ ("TAP-NORTH-001", "North"); ("TAP-NORTH-002", "North");
        ("TAP-NORTH-003", "North"); ("TAP-NORTH-004", "North");
        ("TAP-WEST-001", "West"); ("TAP-WEST-002", "West");
        ("TAP-WEST-003", "West"); ("TAP-WEST-004", "West") ]).
Proof.
  eapply returns_conseq; [apply get_operational_efficiency_spec|].
  intros r (_ & _ & _ & Hg & _). cbv zeta in Hg.
  change (list_prod ["North"; "West"] (Seq.range 1 5))
    with [("North", 1); ("North", 2); ("North", 3); ("North", 4);
          ("West", 1); ("West", 2); ("West", 3); ("West", 4)] in Hg.
  remember (OperationalEfficiencyResponse.gate_utilization r) as gates eqn:Eg.
  clear Eg. invert_Forall2.
  repeat match goal with
         | H : gate_ok _ _ _ _ |- _ => destruct H as (? & ? & _)
         end.
  cbn [fst snd map] in *.
  repeat match goal with
         | H : GateUtilizationData.gate_id _ = _ |- _ => rewrite H; clear H
         | H : GateUtilizationData.zone _ = _ |- _ => rewrite H; clear H
         end.
  reflexivity.
Qed.

(** X3: the balance-direction list holds, for each zone record in turn, an
    IN and an OUT record named after the zone without its [TAP-] prefix;
    each count is positive and each percentage is [round(count /
    zone.count * 100, 1)], a share of the zone's count. *)
Theorem balance_direction_records (date : option string) :
  returns (get_operational_efficiency get_date date) (fun r =>
    exists north west,
      OperationalEfficiencyResponse.traffic_by_zone r = [north; west]
      /\ map (fun b => (DirectionBalanceData.zone b,
                        DirectionBalanceData.direction b))
           (OperationalEfficiencyResponse.balance_direction r)
         = [("NORTH", "IN"); ("NORTH", "OUT"); ("WEST", "IN"); ("WEST", "OUT")]
      /\ Forall2 (fun z b =>
           0 < DirectionBalanceData.count b
           /\ percent_of (DirectionBalanceData.count b)
                (TrafficZoneData.count z) 1
              = Ok (DirectionBalanceData.percentage b))
           [north; north; west; west]
           (OperationalEfficiencyResponse.balance_direction r)).
Proof.
  eapply returns_conseq; [apply get_operational_efficiency_spec|].
  intros r (_ & _ & _ & _ & Hz & Hb & _). cbv zeta in Hz, Hb.
  remember (OperationalEfficiencyResponse.traffic_by_zone r) as zones eqn:Ez.
  remember (OperationalEfficiencyResponse.balance_direction r) as bs eqn:Eb.
  clear Ez Eb.
  inversion Hz as [|? north ? zs' HN Hz']; subst; clear Hz.
  inversion Hz' as [|? west ? zs'' HW Hz'']; subst; clear Hz'.
  inversion Hz''; subst; clear Hz''.
  destruct HN as (EN & _). destruct HW as (EW & _). cbn [fst snd] in EN, EW.
  cbn [list_prod map app] in Hb. invert_Forall2.
  repeat match goal with
         | H : balance_ok _ _ _ |- _ => destruct H as (? & ? & _ & ? & ?)
         end.
  cbn [fst snd] in *. rewrite ?EN, ?EW in *.
  exists north, west. split; [reflexivity|]. split.
  - cbn [map].
    repeat match goal with
           | H : DirectionBalanceData.zone _ = _ |- _ => rewrite H; clear H
           | H : DirectionBalanceData.direction _ = _ |- _ => rewrite H; clear H
           end.
    reflexivity.
  - repeat constructor; assumption.
Qed.

(** X4: the two peak totals of the summary are the sums of the counts of
    the records at positions 1-3 (hours 7-9) and 10-13 (hours 16-19) of
    the traffic-per-hour list, and the peak percentages are their shares
    of [total_transactions], rounded to 1 decimal. *)
Theorem peak_transactions (date : option string) :
  returns (get_operational_efficiency get_date date) (fun r =>
    let hours := OperationalEfficiencyResponse.traffic_per_hour r in
    let s := OperationalEfficiencyResponse.summary r in
    let total := OperationalEfficiencyResponse.total_transactions r in
    OperationalEfficiencySummary.morning_peak_transactions s
    = Py.isum (map TrafficHourData.count (firstn 3 (skipn 1 hours)))
    /\ OperationalEfficiencySummary.evening_peak_transactions s
       = Py.isum (map TrafficHourData.count (firstn 4 (skipn 10 hours)))
    /\ percent_of (OperationalEfficiencySummary.morning_peak_transactions s)
         total 1
       = Ok (OperationalEfficiencySummary.morning_peak_percentage s)
    /\ percent_of (OperationalEfficiencySummary.evening_peak_transactions s)
         total 1
       = Ok (OperationalEfficiencySummary.evening_peak_percentage s)).
Proof.
  eapply returns_conseq; [apply get_operational_efficiency_spec|].
  intros r (_ & _ & Hh & _ & _ & _ & (Hm & Hmp & He & Hep & _)).
  cbv zeta in *. rewrite Hm, He.
  assert (Hpeaks :
    peak_count 7 9 (OperationalEfficiencyResponse.traffic_per_hour r)
    = Py.isum (map TrafficHourData.count
                 (firstn 3 (skipn 1 (OperationalEfficiencyResponse.traffic_per_hour r))))
    /\ peak_count 16 19 (OperationalEfficiencyResponse.traffic_per_hour r)
       = Py.isum (map TrafficHourData.count
                    (firstn 4 (skipn 10 (OperationalEfficiencyResponse.traffic_per_hour r))))).
  { clear - Hh. unfold peak_count.
    remember (OperationalEfficiencyResponse.traffic_per_hour r) as hours eqn:E.
    clear E.
    change (Seq.range 6 23)
      with [6; 7; 8; 9; 10; 11; 12; 13; 14; 15; 16; 17; 18; 19; 20; 21; 22]
      in Hh.
    invert_Forall2.
    repeat match goal with
           | H : hour_ok _ _ |- _ => destruct H as (? & _)
           end.
    split; filter_known TrafficHourData.hour;
      reflexivity. }
  destruct Hpeaks as [E1 E2]. rewrite <- E1, <- E2.
  repeat split; solve [reflexivity|assumption].
Qed.

(** X5: [summary.busiest_gate] names the first gate record whose count no
    other gate exceeds, and [summary.busiest_zone] is "TAP-WEST" when the
    West zone counts more than the North zone and "TAP-NORTH" otherwise,
    ties included. *)
Theorem busiest_gate_and_zone (date : option string) :
  returns (get_operational_efficiency get_date date) (fun r =>
    let s := OperationalEfficiencyResponse.summary r in
    (exists before g after,
       OperationalEfficiencyResponse.gate_utilization r
       = (before ++ g :: after)%list
       /\ OperationalEfficiencySummary.busiest_gate s
          = GateUtilizationData.gate_id g
       /\ Forall (fun x => GateUtilizationData.count x
                           < GateUtilizationData.count g) before
       /\ Forall (fun x => GateUtilizationData.count x
                           <= GateUtilizationData.count g) after)
    /\ exists north west,
         OperationalEfficiencyResponse.traffic_by_zone r = [north; west]
         /\ OperationalEfficiencySummary.busiest_zone s
            = (if TrafficZoneData.count west >? TrafficZoneData.count north
               then "TAP-WEST" else "TAP-NORTH")).
Proof.
  eapply returns_conseq; [apply get_operational_efficiency_spec|].
  intros r (_ & _ & _ & _ & Hz & _ & (_ & _ & _ & _ & _ & Hg & Hbz)).
  cbv zeta in *. split.
  - destruct Hg as (g & Eg & Hid).
    destruct (max_by_first_maximum _ _ _ Eg) as (l1 & l2 & E & H1 & H2).
    exists l1, g, l2. auto.
  - destruct Hbz as (z & Ez & Hzn).
    remember (OperationalEfficiencyResponse.traffic_by_zone r) as zones eqn:E.
    clear E.
    inversion Hz as [|? north ? zs' HN Hz']; subst; clear Hz.
    inversion Hz' as [|? west ? zs'' HW Hz'']; subst; clear Hz'.
    inversion Hz''; subst; clear Hz''.
    destruct HN as (EN & _). destruct HW as (EW & _). cbn [fst snd] in EN, EW.
    exists north, west. split; [reflexivity|].
    cbn [Seq.max_by Seq.max_from] in Ez. injection Ez as <-. rewrite Hzn.
    destruct (TrafficZoneData.count west >? TrafficZoneData.count north);
      assumption.
Qed.

(** ** Buckets *)

Lemma bucket_labels {T : Type} (label : T -> string) (count : T -> Z)
    (percentage : T -> float) (total : Z) (spec : list (string * (Z * Z)))
    (ts : list T) :
  Forall2 (bucket_ok label count percentage total) spec ts ->
  map label ts = map fst spec.
Proof.
  induction 1 as [|e t spec ts (E & _) _ IH]; [reflexivity|].
  cbn [map]. rewrite E, IH. reflexivity.
Qed.

Lemma bucket_shares {T : Type} (label : T -> string) (count : T -> Z)
    (percentage : T -> float) (total : Z) (spec : list (string * (Z * Z)))
    (ts : list T) :
  Forall (fun e => 0 <= fst (snd e)) spec ->
  Forall2 (bucket_ok label count percentage total) spec ts ->
  Forall (fun t => 0 < count t
                   /\ percent_of (count t) total 1 = Ok (percentage t)) ts.
Proof.
  intros Hs H. induction H as [|e t spec ts (_ & Hlo & _ & Hp) _ IH].
  - constructor.
  - inversion Hs as [|? ? He Hs']; subst.
    constructor; [split; [lia|assumption]|]. apply IH. assumption.
Qed.

(** ** Kategori 3 *)

(** X6: a Demographics report draws [total_passengers] in 3500..5000 and
    lists the five age ranges, the five occupations and the nine origin
    stations in the order of the code's tables; every bucket has a positive
    count and the percentage [round(count / total_passengers * 100, 1)]. *)
Theorem demografi_distributions (date : option string) :
  returns (get_demografi get_date date) (fun r =>
    let total := DemografiResponse.total_passengers r in
    3500 <= total <= 5000
    /\ map AgeDistributionData.age_range (DemografiResponse.age_distribution r)
       = ["18-24"; "25-34"; "35-44"; "45-54"; "55+"]
    /\ Forall (fun a =>
         0 < AgeDistributionData.count a
         /\ percent_of (AgeDistributionData.count a) total 1
            = Ok (AgeDistributionData.percentage a))
         (DemografiResponse.age_distribution r)
    /\ map OccupationDistributionData.occupation
         (DemografiResponse.occupation_distribution r)
       = ["Karyawan Swasta"; "PNS/BUMN"; "Pelajar/Mahasiswa"; "Wiraswasta";
          "Wisatawan"]
    /\ Forall (fun o =>
         0 < OccupationDistributionData.count o
         /\ percent_of (OccupationDistributionData.count o) total 1
            = Ok (OccupationDistributionData.percentage o))
         (DemografiResponse.occupation_distribution r)
    /\ map OriginStationData.station
         (DemografiResponse.origin_station_distribution r)
       = ["Bekasi"; "Cikarang"; "Depok"; "Bogor"; "Tangerang"; "Sudirman";
          "Karet"; "Pasar Minggu"; "Tanah Abang"]
    /\ Forall (fun st =>
         0 < OriginStationData.count st
         /\ percent_of (OriginStationData.count st) total 1
            = Ok (OriginStationData.percentage st))
         (DemografiResponse.origin_station_distribution r)).
Proof.
  eapply returns_conseq; [apply get_demografi_spec|].
  intros r (_ & Ht & Ha & Ho & _ & Hs & _). cbv zeta in *.
  assert (Sa : Forall (fun e => 0 <= fst (snd e)) age_spec) by spec_ranges.
  assert (So : Forall (fun e => 0 <= fst (snd e)) occupation_spec)
    by spec_ranges.
  assert (Ss : Forall (fun e => 0 <= fst (snd e)) station_spec) by spec_ranges.
  split; [assumption|].
  split; [exact (bucket_labels _ _ _ _ _ _ Ha)|].
  split; [exact (bucket_shares _ _ _ _ _ _ Sa Ha)|].
  split; [exact (bucket_labels _ _ _ _ _ _ Ho)|].
  split; [exact (bucket_shares _ _ _ _ _ _ So Ho)|].
  split; [exact (bucket_labels _ _ _ _ _ _ Hs)|].
  exact (bucket_shares _ _ _ _ _ _ Ss Hs).
Qed.

(** X7: the summary of a Demographics report counts as productive-age
    passengers the records at positions 1 and 2 of the age distribution
    (25-34 and 35-44) and as workers the records at positions 0 and 1 of
    the occupation distribution (Karyawan Swasta and PNS/BUMN); both
    percentages are shares of [total_passengers]. *)
Theorem demografi_summary_groups (date : option string) :
  returns (get_demografi get_date date) (fun r =>
    let s := DemografiResponse.summary r in
    let total := DemografiResponse.total_passengers r in
    DemografiSummary.productive_age_passengers s
    = Py.isum (map AgeDistributionData.count
                 (firstn 2 (skipn 1 (DemografiResponse.age_distribution r))))
    /\ DemografiSummary.worker_passengers s
       = Py.isum (map OccupationDistributionData.count
                    (firstn 2 (DemografiResponse.occupation_distribution r)))
    /\ percent_of (DemografiSummary.productive_age_passengers s) total 1
       = Ok (DemografiSummary.productive_age_percentage s)
    /\ percent_of (DemografiSummary.worker_passengers s) total 1
       = Ok (DemografiSummary.worker_percentage s)).
Proof.
  eapply returns_conseq; [apply get_demografi_spec|].
  intros r (_ & _ & Ha & Ho & _ & _ & (_ & Hp & Hpp & Hw & Hwp & _)).
  cbv zeta in *.
  assert (E1 :
    selected_count AgeDistributionData.age_range AgeDistributionData.count
      ["25-34"; "35-44"] (DemografiResponse.age_distribution r)
    = Py.isum (map AgeDistributionData.count
                 (firstn 2 (skipn 1 (DemografiResponse.age_distribution r))))).
  { clear - Ha. unfold selected_count.
    remember (DemografiResponse.age_distribution r) as ages eqn:E. clear E.
    unfold age_spec in Ha. invert_Forall2.
    repeat match goal with
           | H : bucket_ok _ _ _ _ _ _ |- _ => destruct H as (? & _)
           end.
    cbn [fst snd] in *. filter_known AgeDistributionData.age_range.
    reflexivity. }
  assert (E2 :
    selected_count OccupationDistributionData.occupation
      OccupationDistributionData.count ["Karyawan Swasta"; "PNS/BUMN"]
      (DemografiResponse.occupation_distribution r)
    = Py.isum (map OccupationDistributionData.count
                 (firstn 2 (DemografiResponse.occupation_distribution r)))).
  { clear - Ho. unfold selected_count.
    remember (DemografiResponse.occupation_distribution r) as occs eqn:E.
    clear E. unfold occupation_spec in Ho. invert_Forall2.
    repeat match goal with
           | H : bucket_ok _ _ _ _ _ _ |- _ => destruct H as (? & _)
           end.
    cbn [fst snd] in *. filter_known OccupationDistributionData.occupation.
    reflexivity. }
  rewrite Hp, Hw, <- E1, <- E2. repeat split; solve [reflexivity|assumption].
Qed.

(** X8: [summary.dominant_origin_station] of a Demographics report names
    the first record of the origin-station distribution whose count no
    other station exceeds. *)
Theorem demografi_dominant_station (date : option string) :
  returns (get_demografi get_date date) (fun r =>
    exists before st after,
      DemografiResponse.origin_station_distribution r
      = (before ++ st :: after)%list
      /\ DemografiSummary.dominant_origin_station (DemografiResponse.summary r)
         = OriginStationData.station st
      /\ Forall (fun x => OriginStationData.count x < OriginStationData.count st)
           before
      /\ Forall (fun x => OriginStationData.count x <= OriginStationData.count st)
           after).
Proof.
  eapply returns_conseq; [apply get_demografi_spec|].
  intros r (_ & _ & _ & _ & _ & _ & (_ & _ & _ & _ & _ & (st & Est & Hst))).
  destruct (max_by_first_maximum _ _ _ Est) as (l1 & l2 & E & H1 & H2).
  exists l1, st, l2. auto.
Qed.

(** ** Kategori 4 *)

(** X9: a Trip Segmentation report draws [total_transactions] in
    4000..6000 and lists the nine origin stations and the three time
    segments in the order of the code's tables, each with a positive count
    and the percentage [round(count / total_transactions * 100, 1)]; the
    IN and OUT percentages are shares of the same total. *)
Theorem perjalanan_distributions (date : option string) :
  returns (get_segmentasi_perjalanan get_date date) (fun r =>
    let total := SegmentasiPerjalananResponse.total_transactions r in
    4000 <= total <= 6000
    /\ map OriginDistributionData.station
         (SegmentasiPerjalananResponse.origin_distribution r)
       = ["Bekasi"; "Cikarang"; "Depok"; "Bogor"; "Tangerang"; "Sudirman";
          "Karet"; "Pasar Minggu"; "Tanah Abang"]
    /\ Forall (fun st =>
         0 < OriginDistributionData.count st
         /\ percent_of (OriginDistributionData.count st) total 1
            = Ok (OriginDistributionData.percentage st))
         (SegmentasiPerjalananResponse.origin_distribution r)
    /\ map TimeTravelData.time_segment
         (SegmentasiPerjalananResponse.time_travel_distribution r)
       = ["Morning (07:00-09:00)"; "Evening (16:00-19:00)"; "Off-Peak"]
    /\ Forall (fun t =>
         0 < TimeTravelData.count t
         /\ percent_of (TimeTravelData.count t) total 1
            = Ok (TimeTravelData.percentage t))
         (SegmentasiPerjalananResponse.time_travel_distribution r)
    /\ Forall (fun d =>
         percent_of (DirectionDistributionData.count d) total 1
         = Ok (DirectionDistributionData.percentage d))
         (SegmentasiPerjalananResponse.direction_distribution r)).
Proof.
  eapply returns_conseq; [apply get_segmentasi_perjalanan_spec|].
  intros r (_ & Ht & Ho & Hd & Htt & _). cbv zeta in *.
  assert (Ss : Forall (fun e => 0 <= fst (snd e)) station_spec) by spec_ranges.
  assert (St : Forall (fun e => 0 <= fst (snd e)) time_spec) by spec_ranges.
  split; [assumption|].
  split; [exact (bucket_labels _ _ _ _ _ _ Ho)|].
  split; [exact (bucket_shares _ _ _ _ _ _ Ss Ho)|].
  split; [exact (bucket_labels _ _ _ _ _ _ Htt)|].
  split; [exact (bucket_shares _ _ _ _ _ _ St Htt)|].
  destruct Hd as (d_in & d_out & -> & _ & _ & _ & _ & Hi & Hout).
  repeat constructor; assumption.
Qed.

(** X10: the summary of a Trip Segmentation report takes its top origin
    station, count and percentage from one record, the first of the origin
    distribution whose count no other exceeds; the dominant direction is
    "OUT" when OUT counts more than IN and "IN" otherwise, ties
    included; the dominant time segment and its percentage come from the
    first time record of greatest count. *)
Theorem perjalanan_summary_records (date : option string) :
  returns (get_segmentasi_perjalanan get_date date) (fun r =>
    let s := SegmentasiPerjalananResponse.summary r in
    (exists before top after,
       SegmentasiPerjalananResponse.origin_distribution r
       = (before ++ top :: after)%list
       /\ SegmentasiPerjalananSummary.top_origin_station s
          = OriginDistributionData.station top
       /\ SegmentasiPerjalananSummary.top_origin_count s
          = OriginDistributionData.count top
       /\ SegmentasiPerjalananSummary.top_origin_percentage s
          = OriginDistributionData.percentage top
       /\ Forall (fun x => OriginDistributionData.count x
                           < OriginDistributionData.count top) before
       /\ Forall (fun x => OriginDistributionData.count x
                           <= OriginDistributionData.count top) after)
    /\ (exists d_in d_out,
          SegmentasiPerjalananResponse.direction_distribution r = [d_in; d_out]
          /\ SegmentasiPerjalananSummary.dominant_direction s
             = (if DirectionDistributionData.count d_out
                   >? DirectionDistributionData.count d_in
                then "OUT" else "IN"))
    /\ (exists before t after,
          SegmentasiPerjalananResponse.time_travel_distribution r
          = (before ++ t :: after)%list
          /\ SegmentasiPerjalananSummary.dominant_time_segment s
             = TimeTravelData.time_segment t
          /\ SegmentasiPerjalananSummary.dominant_time_percentage s
             = TimeTravelData.percentage t
          /\ Forall (fun x => TimeTravelData.count x < TimeTravelData.count t)
               before
          /\ Forall (fun x => TimeTravelData.count x <= TimeTravelData.count t)
               after)).
Proof.
  eapply returns_conseq; [apply get_segmentasi_perjalanan_spec|].
  intros r (_ & _ & _ & Hd & _ & (Htop & Hdir & Htime)). cbv zeta in *.
  split; [|split].
  - destruct Htop as (top & Etop & H1 & H2 & H3).
    destruct (max_by_first_maximum _ _ _ Etop) as (l1 & l2 & E & Hl1 & Hl2).
    exists l1, top, l2. auto 10.
  - destruct Hd as (d_in & d_out & E & Hi & Ho & _).
    destruct Hdir as (d & Ed & Hdd). rewrite E in Ed.
    cbn [Seq.max_by Seq.max_from] in Ed. injection Ed as <-.
    exists d_in, d_out. split; [assumption|]. rewrite Hdd.
    destruct (DirectionDistributionData.count d_out
              >? DirectionDistributionData.count d_in); assumption.
  - destruct Htime as (t & Et & H1 & H2).
    destruct (max_by_first_maximum _ _ _ Et) as (l1 & l2 & E & Hl1 & Hl2).
    exists l1, t, l2. auto 10.
Qed.

(** ** Kategori 5 *)

Lemma max_from_In {A K : Type} (gt : K -> K -> bool) (key : A -> K)
    (l : list A) (best : A) :
  In (Seq.max_from gt key best l) (best :: l).
Proof.
  revert best. induction l as [|a l IH]; intros best; cbn [Seq.max_from].
  - left. reflexivity.
  - destruct (IH (if gt (key a) (key best) then a else best)) as [E|Hin].
    + rewrite <- E. destruct (gt (key a) (key best)); cbn; auto.
    + right. right. exact Hin.
Qed.

Lemma max_by_In {A K : Type} (gt : K -> K -> bool) (key : A -> K)
    (l : list A) (m : A) :
  Seq.max_by gt key l = Ok m -> In m l.
Proof.
  destruct l as [|a l]; cbn [Seq.max_by]; [discriminate|].
  intros E. injection E as <-. apply max_from_In.
Qed.

(** X11: the three loyalty tiers of a Loyalty Segmentation report carry
    the labels and the frequency ranges of the code (12-14, 7-11, 1-6), in
    that order, with positive counts; the summary's high-loyalty count and
    percentage are those of the first tier, the one whose label contains
    "High". *)
Theorem loyalty_tiers (date : option string) :
  returns (get_segmentasi_loyaltas get_date date) (fun r =>
    let s := SegmentasiLoyaltasResponse.summary r in
    map (fun ls => (LoyaltySegmentData.segment ls,
                    LoyaltySegmentData.min_freq ls,
                    LoyaltySegmentData.max_freq ls))
      (SegmentasiLoyaltasResponse.loyalty_segments r)
    = [ ("High Loyalty (≥12x)", 12, 14); ("Medium Loyalty (7-11x)", 7, 11);
        ("Low Loyalty (<7x)", 1, 6) ]
    /\ Forall (fun ls => 0 < LoyaltySegmentData.count ls)
         (SegmentasiLoyaltasResponse.loyalty_segments r)
    /\ exists high rest,
         SegmentasiLoyaltasResponse.loyalty_segments r = high :: rest
         /\ SegmentasiLoyaltasSummary.high_loyalty_count s
            = LoyaltySegmentData.count high
         /\ SegmentasiLoyaltasSummary.high_loyalty_percentage s
            = LoyaltySegmentData.percentage high).
Proof.
  eapply returns_conseq; [apply get_segmentasi_loyaltas_spec|].
  intros r (_ & _ & _ & Hs & _ & ((high & Eh & Hc & Hp) & _)). cbv zeta in *.
  remember (Py.isum (map LoyaltySegmentData.count
                       (SegmentasiLoyaltasResponse.loyalty_segments r))) as T
    eqn:ET. clear ET.
  remember (SegmentasiLoyaltasResponse.loyalty_segments r) as segs eqn:E.
  clear E. unfold segment_spec in Hs. invert_Forall2.
  repeat match goal with
         | H : segment_ok _ _ _ |- _ =>
             destruct H as ((? & ? & _ & _) & ? & ?)
         end.
  cbn [fst snd] in *. split; [|split].
  - cbn [map].
    repeat match goal with
           | H : LoyaltySegmentData.segment _ = _ |- _ => rewrite H; clear H
           | H : LoyaltySegmentData.min_freq _ = _ |- _ => rewrite H; clear H
           | H : LoyaltySegmentData.max_freq _ = _ |- _ => rewrite H; clear H
           end.
    reflexivity.
  - repeat constructor; lia.
  - cbn [nth_error] in Eh. injection Eh as <-. eauto.
Qed.

(** X12: the loyalty-by-occupation list names the five occupations in the
    order of the code's table, with positive counts; the summary counts as
    loyal workers the records at positions 0 and 1 (Karyawan Swasta and
    PNS/BUMN), as a share of [total_passengers]; the most loyal occupation
    and its average frequency are read from one record of the list. *)
Theorem loyalty_by_occupation_records (date : option string) :
  returns (get_segmentasi_loyaltas get_date date) (fun r =>
    let s := SegmentasiLoyaltasResponse.summary r in
    let occupations := SegmentasiLoyaltasResponse.loyalty_by_occupation r in
    map LoyaltyByOccupationData.occupation occupations
    = ["Karyawan Swasta"; "PNS/BUMN"; "Pelajar/Mahasiswa"; "Wiraswasta";
       "Wisatawan"]
    /\ Forall (fun lo => 0 < LoyaltyByOccupationData.count lo) occupations
    /\ SegmentasiLoyaltasSummary.loyal_workers_count s
       = Py.isum (map LoyaltyByOccupationData.count (firstn 2 occupations))
    /\ percent_of (SegmentasiLoyaltasSummary.loyal_workers_count s)
         (SegmentasiLoyaltasResponse.total_passengers r) 1
       = Ok (SegmentasiLoyaltasSummary.loyal_workers_percentage s)
    /\ exists m,
         In m occupations
         /\ SegmentasiLoyaltasSummary.most_loyal_occupation s
            = LoyaltyByOccupationData.occupation m
         /\ SegmentasiLoyaltasSummary.most_loyal_occupation_avg_freq s
            = LoyaltyByOccupationData.avg_frequency m).
Proof.
  eapply returns_conseq; [apply get_segmentasi_loyaltas_spec|].
  intros r (_ & _ & _ & _ & Ho & (_ & Hw & Hwp & (m & Em & Hm1 & Hm2))).
  cbv zeta in *.
  pose proof (max_by_In _ _ _ _ Em) as Hin.
  rewrite Hw. unfold selected_count in *.
  remember (SegmentasiLoyaltasResponse.loyalty_by_occupation r) as occs eqn:E.
  clear E. unfold occupation_spec in Ho. invert_Forall2.
  repeat match goal with
         | H : occupation_loyalty_ok _ _ |- _ => destruct H as (? & ? & _)
         end.
  cbn [fst snd] in *.
  split.
  - cbn [map].
    repeat match goal with
           | H : LoyaltyByOccupationData.occupation _ = _ |- _ => rewrite H
           end.
    reflexivity.
  - split; [repeat constructor; lia|].
    split; [|split; [assumption|exists m; auto]].
    filter_known LoyaltyByOccupationData.occupation. reflexivity.
Qed.

(** ** Kategori Korelasi Behavior *)

(** X13: the age-loyalty list of a Behavior Correlation report has the
    ages 22, 28, 35, 45, 55 with positive counts; the young average of the
    summary is the count-weighted mean of the frequencies of the first two
    records and the senior average that of the last two, each rounded to 1
    decimal; the [else 0] of the guarded divisions is never taken; the
    insight is "Positif" exactly when the senior mean exceeds the young
    one. *)
Theorem age_loyalty_averages (date : option string) :
  returns (get_behavior_correlation get_date date) (fun r =>
    let s := BehaviorCorrelationResponse.summary r in
    let weight a :=
      (AgeLoyaltyCorrelationData.avg_loyalty_frequency a
       * Py.float_of_int (AgeLoyaltyCorrelationData.count a))%float in
    exists a1 a2 a3 a4 a5,
      BehaviorCorrelationResponse.age_loyalty_correlation r
      = [a1; a2; a3; a4; a5]
      /\ map AgeLoyaltyCorrelationData.age [a1; a2; a3; a4; a5]
         = [22; 28; 35; 45; 55]
      /\ Forall (fun a => 0 < AgeLoyaltyCorrelationData.count a)
           [a1; a2; a3; a4; a5]
      /\ let young :=
           ((0 + weight a1 + weight a2)
            / Py.float_of_int (AgeLoyaltyCorrelationData.count a1
                               + AgeLoyaltyCorrelationData.count a2))%float in
         let senior :=
           ((0 + weight a4 + weight a5)
            / Py.float_of_int (AgeLoyaltyCorrelationData.count a4
                               + AgeLoyaltyCorrelationData.count a5))%float in
         BehaviorCorrelationSummary.young_avg_loyalty s
         = Py.Float (Py.round young 1)
         /\ BehaviorCorrelationSummary.senior_avg_loyalty s
            = Py.Float (Py.round senior 1)
         /\ BehaviorCorrelationSummary.age_loyalty_insight s
            = (if (young <? senior)%float then "Positif"
               else "Negatif/Netral")).
Proof.
  eapply returns_conseq; [apply get_behavior_correlation_spec|].
  intros r (_ & Ha & _ & _ & ((ya & sa & Ey & Es & Hi & Hy & Hs) & _)).
  cbv zeta.
  remember (BehaviorCorrelationResponse.age_loyalty_correlation r) as ages
    eqn:E. clear E.
  unfold age_groups in Ha. invert_Forall2.
  repeat match goal with
         | H : age_loyalty_ok _ _ |- _ => destruct H as (? & ? & _)
         end.
  cbn [fst snd] in *.
  do 5 eexists. split; [reflexivity|]. split.
  { cbn [map].
    repeat match goal with
           | H : AgeLoyaltyCorrelationData.age _ = _ |- _ => rewrite H; clear H
           end.
    reflexivity. }
  split; [repeat constructor; lia|].
  unfold group_average, guarded_average, loyalty_weight in Ey, Es.
  cbn [firstn skipn map] in Ey, Es.
  unfold Py.isum, Py.sum in Ey, Es.
  cbn [fold_left Py.add Py.to_float Py.truediv] in Ey, Es.
  change (Py.float_of_int 0) with 0%float in Ey, Es.
  match type of Ey with
  | context [(0 <? ?n)%Z] => replace (0 <? n)%Z with true in Ey
        by (symmetry; apply Z.ltb_lt; lia)
  end.
  match type of Es with
  | context [(0 <? ?n)%Z] => replace (0 <? n)%Z with true in Es
        by (symmetry; apply Z.ltb_lt; lia)
  end.
  unfold Py.float_truediv in Ey, Es.
  match type of Ey with
  | context [is_zero ?x] => destruct (is_zero x); [discriminate|]
  end.
  match type of Es with
  | context [is_zero ?x] => destruct (is_zero x); [discriminate|]
  end.
  injection Ey as <-. injection Es as <-.
  cbn [Py.round_number Py.gt Py.to_float] in Hy, Hs, Hi.
  repeat split; assumption.
Qed.

(** X14: every hourly record of the gender distribution splits one
    jittered total: the male count is not negative, and the two
    percentages are [round(count / (pria_count + wanita_count) * 100, 1)],
    shares of the sum of the record's own two counts. *)
Theorem hour_gender_shares (date : option string) :
  returns (get_behavior_correlation get_date date) (fun r =>
    Forall (fun h =>
      let total := HourGenderData.pria_count h + HourGenderData.wanita_count h in
      0 <= HourGenderData.pria_count h
      /\ percent_of (HourGenderData.pria_count h) total 1
         = Ok (HourGenderData.pria_percentage h)
      /\ percent_of (HourGenderData.wanita_count h) total 1
         = Ok (HourGenderData.wanita_percentage h))
      (BehaviorCorrelationResponse.hour_gender_distribution r)).
Proof.
  eapply returns_conseq; [apply get_behavior_correlation_spec|].
  intros r (_ & _ & Hh & _).
  eapply Forall2_right; [exact Hh|].
  intros hour h (_ & _ & Hp & Hpp & Hwp). cbv zeta in *. auto.
Qed.

(** X15: [summary.strong_zone_preference_count] is 2 in every Behavior
    Correlation report: of the five occupations of the ratio table only
    PNS/BUMN and Wisatawan get a label other than "Neutral". *)
Theorem strong_zone_preference_count_is_two (date : option string) :
  returns (get_behavior_correlation get_date date) (fun r =>
    BehaviorCorrelationSummary.strong_zone_preference_count
      (BehaviorCorrelationResponse.summary r) = 2).
Proof.
  eapply returns_conseq; [apply get_behavior_correlation_spec|].
  intros r (_ & _ & _ & Hp & (_ & _ & Hc)). rewrite Hc. clear Hc.
  remember (BehaviorCorrelationResponse.occupation_zone_preference r)
    as prefs eqn:E. clear E.
  unfold occupation_zone_base in Hp. invert_Forall2.
  repeat match goal with
         | H : zone_preference_ok _ _ |- _ => destruct H as (_ & ? & _)
         end.
  cbn [fst snd] in *.
  filter_known OccupationZonePreferenceData.preference. reflexivity.
Qed.

End Reports.

(** ** Python's [sorted] in descending order *)

Lemma insert_desc_perm {A : Type} (key : A -> Z) (x : A) (l : list A) :
  Permutation (x :: l) (Seq.insert_desc key x l).
Proof.
  induction l as [|y l IH]; cbn [Seq.insert_desc]; [reflexivity|].
  destruct (key y >? key x); [|reflexivity].
  rewrite perm_swap. apply perm_skip. exact IH.
Qed.

Lemma sorted_desc_perm {A : Type} (key : A -> Z) (l : list A) :
  Permutation l (Seq.sorted_desc key l).
Proof.
  induction l as [|x l IH]; cbn [Seq.sorted_desc]; [reflexivity|].
  rewrite <- insert_desc_perm. apply perm_skip. exact IH.
Qed.

Lemma insert_desc_sorted {A : Type} (key : A -> Z) (x : A) (l : list A) :
  StronglySorted (fun a b => key b <= key a) l ->
  StronglySorted (fun a b => key b <= key a) (Seq.insert_desc key x l).
Proof.
  induction 1 as [|y l Hs IH Hy]; cbn [Seq.insert_desc].
  - repeat constructor.
  - destruct (Z.gtb_spec (key y) (key x)) as [Hgt|Hle].
    + constructor; [exact IH|].
      apply (Permutation_Forall (insert_desc_perm key x l)).
      constructor; [lia|exact Hy].
    + constructor; [constructor; assumption|].
      constructor; [exact Hle|].
      eapply Forall_impl; [|exact Hy]. cbv beta. intros; lia.
Qed.

Lemma sorted_desc_sorted {A : Type} (key : A -> Z) (l : list A) :
  StronglySorted (fun a b => key b <= key a) (Seq.sorted_desc key l).
Proof.
  induction l as [|x l IH]; cbn [Seq.sorted_desc]; [constructor|].
  apply insert_desc_sorted. exact IH.
Qed.

Lemma insert_desc_head {A : Type} (key : A -> Z) (x : A) (l : list A) :
  Forall (fun y => key y <= key x) l -> Seq.insert_desc key x l = x :: l.
Proof.
  intros H. destruct l as [|y l]; cbn [Seq.insert_desc]; [reflexivity|].
  inversion H as [|? ? Hy _]; subst.
  destruct (Z.gtb_spec (key y) (key x)); [lia|reflexivity].
Qed.

(** The sorted list starts with the first element of greatest key. *)
Lemma sorted_desc_first_maximum {A : Type} (key : A -> Z)
    (l1 l2 : list A) (m : A) :
  Forall (fun x => key x < key m) l1 ->
  Forall (fun x => key x <= key m) l2 ->
  exists rest, Seq.sorted_desc key (l1 ++ m :: l2) = m :: rest.
Proof.
  intros H1 H2. induction H1 as [|a l1 Ha _ IH]; cbn [app Seq.sorted_desc].
  - exists (Seq.sorted_desc key l2). apply insert_desc_head.
    apply (Permutation_Forall (sorted_desc_perm key l2)). exact H2.
  - destruct IH as (rest & ->). cbn [Seq.insert_desc].
    destruct (Z.gtb_spec (key m) (key a)); [eauto|lia].
Qed.

Lemma sorted_desc_max_by {A : Type} (key : A -> Z) (l : list A) (m : A) :
  Seq.max_by Z.gtb key l = Ok m ->
  exists rest, Seq.sorted_desc key l = m :: rest.
Proof.
  intros E. destruct (max_by_first_maximum key l m E) as (l1 & l2 & -> & H1 & H2).
  apply sorted_desc_first_maximum; assumption.
Qed.

(** ** The transforms of [get_all_data] on generated reports *)

Section Transforms.

Context {R : Random}.
Variable get_date : string.

Lemma date_or_today_idempotent (date : option string) :
  date_or_today get_date (Some (date_or_today get_date date))
  = date_or_today get_date date.
Proof.
  unfold date_or_today. destruct date as [d|].
  - destruct (d =? "") eqn:E.
    + destruct (get_date =? ""); reflexivity.
    + rewrite E. reflexivity.
  - destruct (get_date =? ""); reflexivity.
Qed.

Lemma transform_ops_eff_keys_ok (date : option string)
    (r : OperationalEfficiencyResponse.t) :
  operational_post get_date date r ->
  exists i, transform_ops_eff_keys r = Ok i.
Proof.
  intros Hr.
  destruct (operational_gates _ _ _ Hr) as (g1 & g2 & g3 & g4 & g5 & g6 & g7
                                            & g8 & Eg & _).
  unfold transform_ops_eff_keys. rewrite Eg.
  cbn [map Seq.min_by Seq.max_by and_then].
  match goal with
  | |- context [if ?c then (_, _) else _] => destruct c
  end; eauto.
Qed.

Lemma transform_demog_keys_spec (date : option string)
    (r : DemografiResponse.t) :
  demografi_post get_date date r ->
  exists i pria wanita top rest,
    transform_demog_keys r = Ok i
    /\ DemografiResponse.gender_distribution r = [pria; wanita]
    /\ DemogInsight.pria_pct i = GenderDistributionData.percentage pria
    /\ DemogInsight.wanita_pct i = GenderDistributionData.percentage wanita
    /\ Seq.sorted_desc OriginStationData.count
         (DemografiResponse.origin_station_distribution r) = top :: rest
    /\ OriginStationData.station top
       = DemografiSummary.dominant_origin_station (DemografiResponse.summary r)
    /\ DemogInsight.stasiun_prioritas i
       = String.concat ", "
           (map OriginStationData.station (firstn 3 (top :: rest))).
Proof.
  intros (_ & Ht & Ha & _ & Hg & Hs & (_ & Hp & _ & _ & _ & (st & Est & Hst))).
  cbv zeta in *.
  destruct Hg as (pria & wanita & Eg & Hgp & Hgw & _).
  destruct (sorted_desc_max_by _ _ _ Est) as (rest & Esort).
  assert (Hprod : 0 <= DemografiSummary.productive_age_passengers
                         (DemografiResponse.summary r) <= 12800000 * 5).
  { rewrite Hp.
    apply (selected_count_bounds _ _ _ _ 5).
    - eapply bucket_counts_bounded; [|exact Ha]. spec_ranges.
    - apply Forall2_length in Ha. rewrite <- Ha. reflexivity. }
  unfold transform_demog_keys. rewrite Eg.
  rewrite (next_head _ pria) by (rewrite Hgp; reflexivity).
  cbn [and_then].
  assert (En : Seq.next (fun g => GenderDistributionData.gender g =? "Wanita")
                 [pria; wanita] = Ok wanita).
  { unfold Seq.next. cbn [find]. rewrite Hgp, Hgw. reflexivity. }
  rewrite En. cbn [and_then]. rewrite Esort.
  set (np := DemografiResponse.total_passengers r
             - DemografiSummary.productive_age_passengers
                 (DemografiResponse.summary r)).
  destruct (Z.ltb_spec 0 np) as [Hnp|Hnp].
  - destruct (FloatBounds.int_truediv_ok
                (DemografiSummary.productive_age_passengers
                   (DemografiResponse.summary r)) np) as (q & Eq).
    + lia.
    + apply Z.lt_trans with (12800000 * 5 + 1); [lia|]. reflexivity.
    + rewrite Eq. cbn [and_then].
      eexists _, pria, wanita, st, rest.
      split; [reflexivity|]. cbn [DemogInsight.pria_pct DemogInsight.wanita_pct
                                   DemogInsight.stasiun_prioritas].
      repeat split; try reflexivity. symmetry. exact Hst.
  - cbn [and_then].
    eexists _, pria, wanita, st, rest.
    split; [reflexivity|]. cbn [DemogInsight.pria_pct DemogInsight.wanita_pct
                                 DemogInsight.stasiun_prioritas].
    repeat split; try reflexivity. symmetry. exact Hst.
Qed.

Lemma transform_seg_perj_keys_spec (date : option string)
    (r : SegmentasiPerjalananResponse.t) :
  perjalanan_post get_date date r ->
  exists i d_in d_out morning evening off_peak top rest,
    transform_seg_perj_keys r = Ok i
    /\ SegmentasiPerjalananResponse.direction_distribution r = [d_in; d_out]
    /\ SegmentasiPerjalananResponse.time_travel_distribution r
       = [morning; evening; off_peak]
    /\ SegPerjInsight.in_pct i = DirectionDistributionData.percentage d_in
    /\ SegPerjInsight.out_pct i = DirectionDistributionData.percentage d_out
    /\ SegPerjInsight.morning_pct i = TimeTravelData.percentage morning
    /\ SegPerjInsight.evening_pct i = TimeTravelData.percentage evening
    /\ Seq.sorted_desc OriginDistributionData.count
         (SegmentasiPerjalananResponse.origin_distribution r) = top :: rest
    /\ OriginDistributionData.station top
       = SegmentasiPerjalananSummary.top_origin_station
           (SegmentasiPerjalananResponse.summary r)
    /\ SegPerjInsight.analisis_origin i
       = "Top 3 stasiun asal: "
         ++ String.concat ", "
              (map OriginDistributionData.station (firstn 3 (top :: rest)))
         ++ " menyumbang "
         ++ Str.of_int (Py.isum (map OriginDistributionData.count
                                   (firstn 3 (top :: rest))))
         ++ " transaksi".
Proof.
  intros (_ & _ & _ & Hd & Ht & ((top & Etop & Htop & _) & _)).
  cbv zeta in *.
  destruct Hd as (d_in & d_out & Ed & Hdi & Hdo & _).
  destruct (sorted_desc_max_by _ _ _ Etop) as (rest & Esort).
  unfold transform_seg_perj_keys.
  remember (SegmentasiPerjalananResponse.time_travel_distribution r) as times
    eqn:Et. clear Et.
  unfold time_spec in Ht. invert_Forall2.
  repeat match goal with
         | H : bucket_ok _ _ _ _ _ _ |- _ => destruct H as (? & _)
         end.
  cbn [fst snd] in *.
  rewrite Ed.
  rewrite (next_head _ d_in) by (rewrite Hdi; reflexivity).
  cbn [and_then].
  assert (En : Seq.next (fun d => DirectionDistributionData.direction d =? "OUT")
                 [d_in; d_out] = Ok d_out).
  { unfold Seq.next. cbn [find]. rewrite Hdi, Hdo. reflexivity. }
  rewrite En. cbn [and_then].
  match goal with
  | |- context [Seq.next _ (?m :: ?e :: ?o :: nil)] =>
      assert (Em : Seq.next
                     (fun t => Str.contains "Morning" (TimeTravelData.time_segment t))
                     [m; e; o] = Ok m)
        by (unfold Seq.next; cbn [find];
            repeat match goal with
                   | H : TimeTravelData.time_segment _ = _ |- _ => rewrite H
                   end; reflexivity);
      assert (Ee : Seq.next
                     (fun t => Str.contains "Evening" (TimeTravelData.time_segment t))
                     [m; e; o] = Ok e)
        by (unfold Seq.next; cbn [find];
            repeat match goal with
                   | H : TimeTravelData.time_segment _ = _ |- _ => rewrite H
                   end; reflexivity)
  end.
  rewrite Em, Ee. cbn [and_then]. rewrite Esort.
  do 8 eexists. split; [reflexivity|].
  cbn [SegPerjInsight.in_pct SegPerjInsight.out_pct SegPerjInsight.morning_pct
       SegPerjInsight.evening_pct SegPerjInsight.analisis_origin].
  repeat split; try reflexivity. symmetry. exact Htop.
Qed.

Lemma map_result_ok {A B : Type} (f : A -> result B) (l : list A) :
  Forall (fun a => exists b, f a = Ok b) l ->
  exists bs, map_result f l = Ok bs /\ Forall2 (fun a b => f a = Ok b) l bs.
Proof.
  induction 1 as [|a l (b & Eb) _ (bs & Ebs & Hbs)]; cbn [map_result].
  - exists []. split; [reflexivity|constructor].
  - rewrite Eb. cbn [and_then]. rewrite Ebs. cbn [and_then].
    exists (b :: bs). split; [reflexivity|]. constructor; assumption.
Qed.

Lemma transform_seg_loy_keys_spec (date : option string)
    (r : SegmentasiLoyaltasResponse.t) :
  loyaltas_post get_date date r ->
  exists i high med low,
    transform_seg_loy_keys r = Ok i
    /\ SegmentasiLoyaltasResponse.loyalty_segments r = [high; med; low]
    /\ SegLoyInsight.persentase_loyal_tinggi i = LoyaltySegmentData.percentage high
    /\ SegLoyInsight.persentase_loyal_sedang i = LoyaltySegmentData.percentage med
    /\ SegLoyInsight.persentase_loyal_rendah i = LoyaltySegmentData.percentage low
    /\ SegLoyInsight.jumlah_loyal_tinggi i = LoyaltySegmentData.count high
    /\ SegLoyInsight.jumlah_loyal_sedang i = LoyaltySegmentData.count med
    /\ SegLoyInsight.jumlah_loyal_rendah i = LoyaltySegmentData.count low
    /\ SegLoyInsight.most_loyal_occ i
       = SegmentasiLoyaltasSummary.most_loyal_occupation
           (SegmentasiLoyaltasResponse.summary r)
    /\ SegLoyInsight.most_loyal_freq i
       = SegmentasiLoyaltasSummary.most_loyal_occupation_avg_freq
           (SegmentasiLoyaltasResponse.summary r)
    /\ Forall2 (fun o p =>
         percent_of (LoyaltyByOccupationData.count o)
           (SegmentasiLoyaltasResponse.total_passengers r) 1 = Ok p)
         (SegmentasiLoyaltasResponse.loyalty_by_occupation r)
         (SegLoyInsight.persentase_dari_total i).
Proof.
  intros (_ & Ht & _ & Hs & Ho & (_ & _ & _ & (m & Em & Hm1 & Hm2))).
  cbv zeta in *.
  destruct (map_result_ok
              (fun o => percent_of (LoyaltyByOccupationData.count o)
                          (SegmentasiLoyaltasResponse.total_passengers r) 1)
              (SegmentasiLoyaltasResponse.loyalty_by_occupation r))
    as (ps & Eps & Hps).
  { eapply Forall_impl; [|exact (occupation_counts_bounded _ Ho)].
    cbv beta. intros o Hc.
    destruct (FloatBounds.int_truediv_ok (LoyaltyByOccupationData.count o)
                (SegmentasiLoyaltasResponse.total_passengers r)) as (q & Eq).
    - lia.
    - apply Z.lt_trans with (12800000 + 1); [lia|reflexivity].
    - unfold percent_of. rewrite Eq. eauto. }
  remember (Py.isum (map LoyaltySegmentData.count
                       (SegmentasiLoyaltasResponse.loyalty_segments r))) as T
    eqn:ET. clear ET.
  unfold transform_seg_loy_keys.
  remember (SegmentasiLoyaltasResponse.loyalty_segments r) as segs eqn:Es.
  clear Es.
  unfold segment_spec in Hs. invert_Forall2.
  repeat match goal with
         | H : segment_ok _ _ _ |- _ => destruct H as ((? & _) & _)
         end.
  cbn [fst snd] in *.
  match goal with
  | |- context [Seq.next _ (?h :: ?md :: ?l :: nil)] =>
      assert (Eh : Seq.next
                     (fun s => Str.contains "High" (LoyaltySegmentData.segment s))
                     [h; md; l] = Ok h)
        by (unfold Seq.next; cbn [find];
            repeat match goal with
                   | H : LoyaltySegmentData.segment _ = _ |- _ => rewrite H
                   end; reflexivity);
      assert (Emd : Seq.next
                      (fun s => Str.contains "Medium" (LoyaltySegmentData.segment s))
                      [h; md; l] = Ok md)
        by (unfold Seq.next; cbn [find];
            repeat match goal with
                   | H : LoyaltySegmentData.segment _ = _ |- _ => rewrite H
                   end; reflexivity);
      assert (El : Seq.next
                     (fun s => Str.contains "Low" (LoyaltySegmentData.segment s))
                     [h; md; l] = Ok l)
        by (unfold Seq.next; cbn [find];
            repeat match goal with
                   | H : LoyaltySegmentData.segment _ = _ |- _ => rewrite H
                   end; reflexivity)
  end.
  rewrite Eh, Emd, El. cbn [and_then]. rewrite Em, Eps.
  match goal with
  | |- context [if ?c then (_, _) else _] => destruct c
  end;
    [|match goal with
      | |- context [if ?c then (_, _) else _] => destruct c
      end];
    cbn [and_then]; do 4 eexists; (split; [reflexivity|]);
    cbn [SegLoyInsight.persentase_loyal_tinggi
         SegLoyInsight.persentase_loyal_sedang
         SegLoyInsight.persentase_loyal_rendah
         SegLoyInsight.jumlah_loyal_tinggi SegLoyInsight.jumlah_loyal_sedang
         SegLoyInsight.jumlah_loyal_rendah SegLoyInsight.most_loyal_occ
         SegLoyInsight.most_loyal_freq SegLoyInsight.persentase_dari_total];
    repeat split; try reflexivity; try (symmetry; assumption); exact Hps.
Qed.

Lemma transform_beh_corr_keys_spec (date : option string)
    (r : BehaviorCorrelationResponse.t) :
  behavior_post get_date date r ->
  exists i a1 a2 a3 a4 a5,
    transform_beh_corr_keys r = Ok i
    /\ BehaviorCorrelationResponse.age_loyalty_correlation r
       = [a1; a2; a3; a4; a5]
    /\ BehCorrInsight.young_avg i
       = ((0 + AgeLoyaltyCorrelationData.avg_loyalty_frequency a1
           + AgeLoyaltyCorrelationData.avg_loyalty_frequency a2) / 2)%float
    /\ BehCorrInsight.senior_avg i
       = ((0 + AgeLoyaltyCorrelationData.avg_loyalty_frequency a4
           + AgeLoyaltyCorrelationData.avg_loyalty_frequency a5) / 2)%float
    /\ (let hours :=
          firstn 6 (BehaviorCorrelationResponse.hour_gender_distribution r) in
        BehCorrInsight.morning_gender_dom i
        = if Py.isum (map HourGenderData.pria_count hours)
             >? Py.isum (map HourGenderData.wanita_count hours)
          then "Pria" else "Wanita")
    /\ (let hours :=
          firstn 4 (skipn 10
            (BehaviorCorrelationResponse.hour_gender_distribution r)) in
        BehCorrInsight.evening_gender_dom i
        = if Py.isum (map HourGenderData.wanita_count hours)
             >? Py.isum (map HourGenderData.pria_count hours)
          then "Wanita" else "Pria")
    /\ BehCorrInsight.jumlah_preferensi_kuat i = 2
    /\ BehCorrInsight.analisis_zona_pola i
       = "2 pekerjaan menunjukkan preferensi zona kuat".
Proof.
  intros (_ & Ha & Hh & Hp & _). cbv zeta.
  unfold transform_beh_corr_keys.
  remember (BehaviorCorrelationResponse.age_loyalty_correlation r) as ages
    eqn:Ea. clear Ea.
  remember (BehaviorCorrelationResponse.hour_gender_distribution r) as hours
    eqn:Eh. clear Eh.
  remember (BehaviorCorrelationResponse.occupation_zone_preference r) as prefs
    eqn:Ep. clear Ep.
  unfold age_groups in Ha. unfold occupation_zone_base in Hp.
  change (Seq.range 6 23)
    with [6; 7; 8; 9; 10; 11; 12; 13; 14; 15; 16; 17; 18; 19; 20; 21; 22]
    in Hh.
  invert_Forall2.
  repeat match goal with
         | H : age_loyalty_ok _ _ |- _ => destruct H as (? & _)
         | H : hour_gender_ok _ _ |- _ => destruct H as (? & _)
         | H : zone_preference_ok _ _ |- _ => destruct H as (_ & ? & _)
         end.
  cbn [fst snd] in *.
  filter_known AgeLoyaltyCorrelationData.age.
  filter_known HourGenderData.hour.
  filter_known OccupationZonePreferenceData.preference.
  unfold mean_frequency, Py.sum.
  cbn [filter map fold_left Py.add Py.to_float Py.truediv List.length].
  unfold Py.float_truediv.
  change (Py.float_of_int (Z.of_nat 2)) with 2%float.
  change (is_zero 2) with false. cbv iota. cbn [and_then].
  change (Py.float_of_int 0) with 0%float.
  do 6 eexists. split; [reflexivity|].
  cbn [BehCorrInsight.young_avg BehCorrInsight.senior_avg
       BehCorrInsight.morning_gender_dom BehCorrInsight.evening_gender_dom
       BehCorrInsight.jumlah_preferensi_kuat BehCorrInsight.analisis_zona_pola
       firstn skipn].
  repeat split; reflexivity.
Qed.

Definition all_data_post (date : option string) (out : AllData.t) : Prop :=
  let target := Some (AllData.tanggal out) in
  AllData.tanggal out = date_or_today get_date date
  /\ operational_post get_date target (fst (AllData.efisiensi_operasional out))
  /\ transform_ops_eff_keys (fst (AllData.efisiensi_operasional out))
     = Ok (snd (AllData.efisiensi_operasional out))
  /\ demografi_post get_date target (fst (AllData.demografi out))
  /\ transform_demog_keys (fst (AllData.demografi out))
     = Ok (snd (AllData.demografi out))
  /\ perjalanan_post get_date target (fst (AllData.segmentasi_perjalanan out))
  /\ transform_seg_perj_keys (fst (AllData.segmentasi_perjalanan out))
     = Ok (snd (AllData.segmentasi_perjalanan out))
  /\ loyaltas_post get_date target (fst (AllData.segmentasi_loyaltas out))
  /\ transform_seg_loy_keys (fst (AllData.segmentasi_loyaltas out))
     = Ok (snd (AllData.segmentasi_loyaltas out))
  /\ behavior_post get_date target (fst (AllData.korelasi_perilaku out))
  /\ transform_beh_corr_keys (fst (AllData.korelasi_perilaku out))
     = Ok (snd (AllData.korelasi_perilaku out))
  /\ AllData.dashboard_summary out
     = dashboard_summary (fst (AllData.efisiensi_operasional out))
         (fst (AllData.demografi out))
         (fst (AllData.segmentasi_perjalanan out))
         (snd (AllData.segmentasi_loyaltas out)).

Lemma get_all_data_spec (date : option string) :
  returns (get_all_data get_date date) (all_data_post date).
Proof.
  unfold get_all_data. cbv zeta.
  set (target := date_or_today get_date date).
  eapply returns_bind; [apply get_operational_efficiency_spec|].
  intros ops Hops.
  eapply returns_bind; [apply get_demografi_spec|]. intros demog Hdemog.
  eapply returns_bind; [apply get_segmentasi_perjalanan_spec|].
  intros perj Hperj.
  eapply returns_bind; [apply get_segmentasi_loyaltas_spec|]. intros loy Hloy.
  eapply returns_bind; [apply get_behavior_correlation_spec|].
  intros beh Hbeh.
  destruct (transform_ops_eff_keys_ok _ _ Hops) as (i1 & E1).
  destruct (transform_demog_keys_spec _ _ Hdemog) as (i2 & ? & ? & ? & ? & E2 & _).
  destruct (transform_seg_perj_keys_spec _ _ Hperj)
    as (i3 & ? & ? & ? & ? & ? & ? & ? & E3 & _).
  destruct (transform_seg_loy_keys_spec _ _ Hloy) as (i4 & ? & ? & ? & E4 & _).
  destruct (transform_beh_corr_keys_spec _ _ Hbeh)
    as (i5 & ? & ? & ? & ? & ? & E5 & _).
  eapply returns_bind with (P := fun a => a = i1);
    [eapply returns_lift; [exact E1|reflexivity]|]. cbv beta. intros ? ->.
  eapply returns_bind with (P := fun a => a = i2);
    [eapply returns_lift; [exact E2|reflexivity]|]. cbv beta. intros ? ->.
  eapply returns_bind with (P := fun a => a = i3);
    [eapply returns_lift; [exact E3|reflexivity]|]. cbv beta. intros ? ->.
  eapply returns_bind with (P := fun a => a = i4);
    [eapply returns_lift; [exact E4|reflexivity]|]. cbv beta. intros ? ->.
  eapply returns_bind with (P := fun a => a = i5);
    [eapply returns_lift; [exact E5|reflexivity]|]. cbv beta. intros ? ->.
  apply returns_ret. unfold all_data_post.
  cbn [AllData.tanggal AllData.dashboard_summary AllData.efisiensi_operasional
       AllData.demografi AllData.segmentasi_perjalanan
       AllData.segmentasi_loyaltas AllData.korelasi_perilaku fst snd].
  subst target.
  repeat (split; [first [reflexivity|assumption]|]). reflexivity.
Qed.

(** X16: [get_all_data] returns from every generator state: none of the
    five generators and none of the lookups and divisions of the five
    transforms raises on the reports generated.  The answer carries the
    caller's date, or the current date when it is absent or empty, and
    every one of the five reports carries that same date. *)
Theorem all_data_dates (date : option string) :
  returns (get_all_data get_date date) (fun out =>
    AllData.tanggal out = date_or_today get_date date
    /\ OperationalEfficiencyResponse.date (fst (AllData.efisiensi_operasional out))
       = AllData.tanggal out
    /\ DemografiResponse.date (fst (AllData.demografi out))
       = AllData.tanggal out
    /\ SegmentasiPerjalananResponse.date (fst (AllData.segmentasi_perjalanan out))
       = AllData.tanggal out
    /\ SegmentasiLoyaltasResponse.date (fst (AllData.segmentasi_loyaltas out))
       = AllData.tanggal out
    /\ BehaviorCorrelationResponse.date (fst (AllData.korelasi_perilaku out))
       = AllData.tanggal out).
Proof.
  eapply returns_conseq; [apply get_all_data_spec|].
  intros out (Et & (E1 & _) & _ & (E2 & _) & _ & (E3 & _) & _ & (E4 & _) & _
              & (E5 & _) & _).
  rewrite E1, E2, E3, E4, E5, Et.
  rewrite date_or_today_idempotent. repeat split; reflexivity.
Qed.

(** X17: the dashboard summary of [get_all_data] repeats the reports:
    its totals are the two drawn totals (4000..6000 transactions,
    3500..5000 passengers), its age is 39.9, its busiest gate is the
    summary's busiest gate, shown without the [TAP-] prefix (one of the
    eight names NORTH-001 .. WEST-004), its high-loyalty percentage is that
    of the loyalty summary and its dominant station that of the trip
    summary. *)
Theorem dashboard_summary_values (date : option string) :
  returns (get_all_data get_date date) (fun out =>
    let d := AllData.dashboard_summary out in
    let ops := fst (AllData.efisiensi_operasional out) in
    let demog := fst (AllData.demografi out) in
    let perj := fst (AllData.segmentasi_perjalanan out) in
    let loy := fst (AllData.segmentasi_loyaltas out) in
    DashboardSummary.total_transaksi d
    = OperationalEfficiencyResponse.total_transactions ops
    /\ 4000 <= DashboardSummary.total_transaksi d <= 6000
    /\ DashboardSummary.total_penumpang_unik d
       = DemografiResponse.total_passengers demog
    /\ 3500 <= DashboardSummary.total_penumpang_unik d <= 5000
    /\ DashboardSummary.usia d = 39.9%float
    /\ DashboardSummary.gate_id_full d
       = OperationalEfficiencySummary.busiest_gate
           (OperationalEfficiencyResponse.summary ops)
    /\ DashboardSummary.gate_id_full d = "TAP-" ++ DashboardSummary.gate_tersibuk d
    /\ In (DashboardSummary.gate_tersibuk d)
         ["NORTH-001"; "NORTH-002"; "NORTH-003"; "NORTH-004";
          "WEST-001"; "WEST-002"; "WEST-003"; "WEST-004"]
    /\ DashboardSummary.high_loyalty_persentase d
       = SegmentasiLoyaltasSummary.high_loyalty_percentage
           (SegmentasiLoyaltasResponse.summary loy)
    /\ DashboardSummary.stasiun_asal_dominan d
       = SegmentasiPerjalananSummary.top_origin_station
           (SegmentasiPerjalananResponse.summary perj)).
Proof.
  eapply returns_conseq; [apply get_all_data_spec|].
  intros out (_ & Hops & _ & Hdemog & _ & _ & _ & Hloy & Eloy & _ & _ & Ed).
  cbv zeta. rewrite Ed. unfold dashboard_summary.
  cbn [DashboardSummary.total_transaksi DashboardSummary.total_penumpang_unik
       DashboardSummary.usia DashboardSummary.gate_id_full
       DashboardSummary.gate_tersibuk DashboardSummary.high_loyalty_persentase
       DashboardSummary.stasiun_asal_dominan].
  assert (Hgate :
    In (OperationalEfficiencySummary.busiest_gate
          (OperationalEfficiencyResponse.summary
             (fst (AllData.efisiensi_operasional out))))
       ["TAP-NORTH-001"; "TAP-NORTH-002"; "TAP-NORTH-003"; "TAP-NORTH-004";
        "TAP-WEST-001"; "TAP-WEST-002"; "TAP-WEST-003"; "TAP-WEST-004"]).
  { destruct Hops as (_ & _ & _ & Hg & _ & _ & (_ & _ & _ & _ & _ & Hb & _)).
    cbv zeta in Hg, Hb. destruct Hb as (g & Eg & ->).
    change (list_prod ["North"; "West"] (Seq.range 1 5))
      with [("North", 1); ("North", 2); ("North", 3); ("North", 4);
            ("West", 1); ("West", 2); ("West", 3); ("West", 4)] in Hg.
    remember (OperationalEfficiencyResponse.gate_utilization
                (fst (AllData.efisiensi_operasional out))) as gates eqn:E.
    clear E. invert_Forall2.
    repeat match goal with
           | H : gate_ok _ _ _ _ |- _ => destruct H as (? & _)
           end.
    cbn [fst snd] in *. apply max_by_In in Eg. rename Eg into Hin.
    repeat (destruct Hin as [<-|Hin];
            [match goal with
             | H : GateUtilizationData.gate_id ?g = _
               |- In (GateUtilizationData.gate_id ?g) _ => rewrite H
             end; cbn; tauto|]).
    destruct Hin. }
  destruct Hops as (_ & Ht & _). destruct Hdemog as (_ & Hp & _ & _ & _ & _
                                                     & (Hage & _)).
  cbv zeta in Ht, Hp, Hage.
  split; [reflexivity|]. split; [assumption|]. split; [reflexivity|].
  split; [assumption|]. split; [assumption|]. split; [reflexivity|].
  split; [|split].
  - repeat (destruct Hgate as [E|Hgate]; [rewrite <- E; reflexivity|]).
    destruct Hgate.
  - repeat (destruct Hgate as [E|Hgate]; [rewrite <- E; cbn; tauto|]).
    destruct Hgate.
  - split; [|reflexivity].
    destruct (transform_seg_loy_keys_spec _ _ Hloy)
      as (i & high & med & low & Ei & Es & Hh & _).
    rewrite Eloy in Ei. injection Ei as <-. rewrite Hh.
    destruct Hloy as (_ & _ & _ & _ & _ & ((h & Eh & _ & Hhp) & _)).
    rewrite Es in Eh. cbn [nth_error] in Eh. injection Eh as <-.
    symmetry. exact Hhp.
Qed.

(** X18: the loyalty transform of [get_all_data] finds its three tiers by
    the words "High", "Medium" and "Low" in the labels: they are the
    first, second and third tier of the report; its most loyal occupation
    and frequency agree with the report's summary; and the share it
    computes for each occupation is [round(count / total_passengers * 100,
    1)]. *)
Theorem loyalty_transform (date : option string) :
  returns (get_all_data get_date date) (fun out =>
    let r := fst (AllData.segmentasi_loyaltas out) in
    let i := snd (AllData.segmentasi_loyaltas out) in
    exists high med low,
      SegmentasiLoyaltasResponse.loyalty_segments r = [high; med; low]
      /\ (SegLoyInsight.persentase_loyal_tinggi i,
          SegLoyInsight.persentase_loyal_sedang i,
          SegLoyInsight.persentase_loyal_rendah i)
         = (LoyaltySegmentData.percentage high, LoyaltySegmentData.percentage med,
            LoyaltySegmentData.percentage low)
      /\ (SegLoyInsight.jumlah_loyal_tinggi i,
          SegLoyInsight.jumlah_loyal_sedang i,
          SegLoyInsight.jumlah_loyal_rendah i)
         = (LoyaltySegmentData.count high, LoyaltySegmentData.count med,
            LoyaltySegmentData.count low)
      /\ SegLoyInsight.rekomendasi_medium i
         = "Upgrade program: Target " ++ Str.of_int (LoyaltySegmentData.count med)
           ++ " penumpang Medium untuk naik ke High tier"
      /\ SegLoyInsight.most_loyal_occ i
         = SegmentasiLoyaltasSummary.most_loyal_occupation
             (SegmentasiLoyaltasResponse.summary r)
      /\ SegLoyInsight.most_loyal_freq i
         = SegmentasiLoyaltasSummary.most_loyal_occupation_avg_freq
             (SegmentasiLoyaltasResponse.summary r)
      /\ Forall2 (fun o p =>
           percent_of (LoyaltyByOccupationData.count o)
             (SegmentasiLoyaltasResponse.total_passengers r) 1 = Ok p)
           (SegmentasiLoyaltasResponse.loyalty_by_occupation r)
           (SegLoyInsight.persentase_dari_total i)).
Proof.
  eapply returns_conseq; [apply get_all_data_spec|].
  intros out (_ & _ & _ & _ & _ & _ & _ & Hloy & Eloy & _).
  cbv zeta.
  destruct (transform_seg_loy_keys_spec _ _ Hloy)
    as (i & high & med & low & Ei & Es & H1 & H2 & H3 & H4 & H5 & H6 & H7
        & H8 & H9).
  rewrite Eloy in Ei. injection Ei as Ei.
  exists high, med, low. rewrite Ei.
  split; [assumption|]. split; [rewrite H1, H2, H3; reflexivity|].
  split; [rewrite H4, H5, H6; reflexivity|].
  split; [|auto].
  rewrite <- H5. clear - Eloy Ei Es.
  unfold transform_seg_loy_keys in Eloy. rewrite <- Ei in *.
  repeat match type of Eloy with
         | and_then ?x _ = Ok _ =>
             destruct x; cbn [and_then] in Eloy; [|discriminate]
         | (let '(_, _) := if ?c then _ else _ in _) = Ok _ =>
             destruct c
         end;
    injection Eloy as <-; reflexivity.
Qed.

(** X19: the behaviour transform of [get_all_data] averages the
    frequencies of the ages below 30 and of the ages from 45, which are the
    first two and the last two records of the report; each group has two
    records, so neither division is by zero, and each average is the plain
    mean of two frequencies (the report's summary weights them by count).
    Its morning hours are the first six hourly records and its evening
    hours the records at positions 10-13; it counts 2 strong zone
    preferences, as the summary does. *)
Theorem behavior_transform (date : option string) :
  returns (get_all_data get_date date) (fun out =>
    let r := fst (AllData.korelasi_perilaku out) in
    let i := snd (AllData.korelasi_perilaku out) in
    let hours := BehaviorCorrelationResponse.hour_gender_distribution r in
    (exists a1 a2 a3 a4 a5,
       BehaviorCorrelationResponse.age_loyalty_correlation r
       = [a1; a2; a3; a4; a5]
       /\ BehCorrInsight.young_avg i
          = ((0 + AgeLoyaltyCorrelationData.avg_loyalty_frequency a1
              + AgeLoyaltyCorrelationData.avg_loyalty_frequency a2) / 2)%float
       /\ BehCorrInsight.senior_avg i
          = ((0 + AgeLoyaltyCorrelationData.avg_loyalty_frequency a4
              + AgeLoyaltyCorrelationData.avg_loyalty_frequency a5) / 2)%float)
    /\ BehCorrInsight.korelasi_usia i
       = (if (BehCorrInsight.young_avg i <? BehCorrInsight.senior_avg i)%float
          then "Positif"
          else if (0.5 <? abs (BehCorrInsight.senior_avg i
                               - BehCorrInsight.young_avg i))%float
          then "Negatif" else "Netral")
    /\ BehCorrInsight.morning_gender_dom i
       = (if Py.isum (map HourGenderData.pria_count (firstn 6 hours))
             >? Py.isum (map HourGenderData.wanita_count (firstn 6 hours))
          then "Pria" else "Wanita")
    /\ BehCorrInsight.evening_gender_dom i
       = (if Py.isum (map HourGenderData.wanita_count (firstn 4 (skipn 10 hours)))
             >? Py.isum (map HourGenderData.pria_count (firstn 4 (skipn 10 hours)))
          then "Wanita" else "Pria")
    /\ BehCorrInsight.jumlah_preferensi_kuat i = 2
    /\ BehCorrInsight.jumlah_preferensi_kuat i
       = BehaviorCorrelationSummary.strong_zone_preference_count
           (BehaviorCorrelationResponse.summary r)
    /\ BehCorrInsight.analisis_zona_pola i
       = "2 pekerjaan menunjukkan preferensi zona kuat").
Proof.
  eapply returns_conseq; [apply get_all_data_spec|].
  intros out (_ & _ & _ & _ & _ & _ & _ & _ & _ & Hbeh & Ebeh & _).
  cbv zeta.
  destruct (transform_beh_corr_keys_spec _ _ Hbeh)
    as (i & a1 & a2 & a3 & a4 & a5 & Ei & Ea & Hy & Hs & Hm & He & Hj & Hz).
  cbv zeta in Hm, He.
  rewrite Ebeh in Ei. injection Ei as Ei. rewrite Ei.
  split; [exists a1, a2, a3, a4, a5; auto|].
  split.
  { clear - Ebeh Ei. unfold transform_beh_corr_keys in Ebeh. rewrite <- Ei in *.
    repeat match type of Ebeh with
           | and_then ?x _ = Ok _ =>
               destruct x; cbn [and_then] in Ebeh; [|discriminate]
           end.
    injection Ebeh as <-. reflexivity. }
  split; [assumption|]. split; [assumption|]. split; [assumption|].
  split; [|assumption].
  rewrite Hj. destruct Hbeh as (_ & _ & _ & Hp & (_ & _ & Hc)). rewrite Hc.
  clear - Hp.
  remember (BehaviorCorrelationResponse.occupation_zone_preference
              (fst (AllData.korelasi_perilaku out))) as prefs eqn:E. clear E.
  unfold occupation_zone_base in Hp. invert_Forall2.
  repeat match goal with
         | H : zone_preference_ok _ _ |- _ => destruct H as (_ & ? & _)
         end.
  cbn [fst snd] in *.
  filter_known OccupationZonePreferenceData.preference. reflexivity.
Qed.

Lemma append_assoc (a b c : string) : (a ++ b) ++ c = a ++ b ++ c.
Proof.
  induction a as [|ch a IH]; cbn [append]; [reflexivity|].
  rewrite IH. reflexivity.
Qed.

Lemma top_three {A : Type} (key : A -> Z) (l : list A) :
  (3 <= List.length l)%nat ->
  exists s1 s2 s3 rest,
    Seq.sorted_desc key l = s1 :: s2 :: s3 :: rest
    /\ Permutation l (s1 :: s2 :: s3 :: rest)
    /\ key s2 <= key s1 /\ key s3 <= key s2
    /\ Forall (fun x => key x <= key s3) rest.
Proof.
  intros Hlen.
  pose proof (sorted_desc_perm key l) as Hperm.
  pose proof (sorted_desc_sorted key l) as Hsort.
  pose proof (Permutation_length Hperm) as Hl.
  destruct (Seq.sorted_desc key l) as [|s1 [|s2 [|s3 rest]]];
    cbn [List.length] in Hl; try lia.
  exists s1, s2, s3, rest. split; [reflexivity|]. split; [assumption|].
  inversion Hsort as [|? ? Hs1 H1]; subst.
  inversion Hs1 as [|? ? Hs2 H2]; subst.
  inversion Hs2 as [|? ? Hs3 H3]; subst.
  inversion H1; subst. inversion H2; subst. auto.
Qed.

(** X20: the demographics transform of [get_all_data] reads the male and
    the female percentage from the two gender records, and its priority
    stations are the three origin stations of greatest count, in
    descending order of count and joined by ", "; the first of them is the
    dominant origin station of the report's summary. *)
Theorem demografi_transform (date : option string) :
  returns (get_all_data get_date date) (fun out =>
    let r := fst (AllData.demografi out) in
    let i := snd (AllData.demografi out) in
    (exists pria wanita,
       DemografiResponse.gender_distribution r = [pria; wanita]
       /\ DemogInsight.pria_pct i = GenderDistributionData.percentage pria
       /\ DemogInsight.wanita_pct i = GenderDistributionData.percentage wanita)
    /\ exists s1 s2 s3 rest,
         Permutation (DemografiResponse.origin_station_distribution r)
           (s1 :: s2 :: s3 :: rest)
         /\ OriginStationData.count s2 <= OriginStationData.count s1
         /\ OriginStationData.count s3 <= OriginStationData.count s2
         /\ Forall (fun x => OriginStationData.count x
                             <= OriginStationData.count s3) rest
         /\ OriginStationData.station s1
            = DemografiSummary.dominant_origin_station
                (DemografiResponse.summary r)
         /\ DemogInsight.stasiun_prioritas i
            = OriginStationData.station s1 ++ ", "
              ++ OriginStationData.station s2 ++ ", "
              ++ OriginStationData.station s3).
Proof.
  eapply returns_conseq; [apply get_all_data_spec|].
  intros out (_ & _ & _ & Hdemog & Edemog & _). cbv zeta.
  destruct (transform_demog_keys_spec _ _ Hdemog)
    as (i & pria & wanita & top & rest & Ei & Eg & Hp & Hw & Esort & Htop & Hs).
  rewrite Edemog in Ei. injection Ei as Ei. rewrite Ei.
  split; [exists pria, wanita; auto|].
  destruct (top_three OriginStationData.count
              (DemografiResponse.origin_station_distribution
                 (fst (AllData.demografi out))))
    as (s1 & s2 & s3 & rest' & E3 & Hperm & H21 & H32 & Hrest).
  { destruct Hdemog as (_ & _ & _ & _ & _ & Hst & _). cbv zeta in Hst.
    apply Forall2_length in Hst. rewrite <- Hst. cbn. lia. }
  rewrite E3 in Esort. injection Esort as <- <-.
  exists s1, s2, s3, rest'. repeat split; try assumption.
Qed.

(** X21: the trip transform of [get_all_data] reads the IN and the OUT
    percentage from the two direction records and the morning and evening
    percentages from the first two time records; its origin analysis names
    the three origin stations of greatest count, in descending order, and
    the sum of their counts; the first of them is the top origin station
    of the report's summary. *)
Theorem perjalanan_transform (date : option string) :
  returns (get_all_data get_date date) (fun out =>
    let r := fst (AllData.segmentasi_perjalanan out) in
    let i := snd (AllData.segmentasi_perjalanan out) in
    (exists d_in d_out morning evening off_peak,
       SegmentasiPerjalananResponse.direction_distribution r = [d_in; d_out]
       /\ SegmentasiPerjalananResponse.time_travel_distribution r
          = [morning; evening; off_peak]
       /\ SegPerjInsight.in_pct i = DirectionDistributionData.percentage d_in
       /\ SegPerjInsight.out_pct i = DirectionDistributionData.percentage d_out
       /\ SegPerjInsight.morning_pct i = TimeTravelData.percentage morning
       /\ SegPerjInsight.evening_pct i = TimeTravelData.percentage evening)
    /\ SegPerjInsight.tipe_penumpang i
       = (if ((40 <? SegPerjInsight.in_pct i)
              && (40 <? SegPerjInsight.out_pct i))%float
          then "Komuter harian (2-way)" else "Pengguna sekali jalan")
    /\ exists s1 s2 s3 rest,
         Permutation (SegmentasiPerjalananResponse.origin_distribution r)
           (s1 :: s2 :: s3 :: rest)
         /\ OriginDistributionData.count s2 <= OriginDistributionData.count s1
         /\ OriginDistributionData.count s3 <= OriginDistributionData.count s2
         /\ Forall (fun x => OriginDistributionData.count x
                             <= OriginDistributionData.count s3) rest
         /\ OriginDistributionData.station s1
            = SegmentasiPerjalananSummary.top_origin_station
                (SegmentasiPerjalananResponse.summary r)
         /\ SegPerjInsight.analisis_origin i
            = "Top 3 stasiun asal: "
              ++ OriginDistributionData.station s1 ++ ", "
              ++ OriginDistributionData.station s2 ++ ", "
              ++ OriginDistributionData.station s3
              ++ " menyumbang "
              ++ Str.of_int (OriginDistributionData.count s1
                             + OriginDistributionData.count s2
                             + OriginDistributionData.count s3)
              ++ " transaksi").
Proof.
  eapply returns_conseq; [apply get_all_data_spec|].
  intros out (_ & _ & _ & _ & _ & Hperj & Eperj & _). cbv zeta.
  destruct (transform_seg_perj_keys_spec _ _ Hperj)
    as (i & d_in & d_out & morning & evening & off_peak & top & rest & Ei
        & Ed & Et & Hi & Ho & Hm & He & Esort & Htop & Ha).
  rewrite Eperj in Ei. injection Ei as Ei. rewrite Ei.
  split; [exists d_in, d_out, morning, evening, off_peak; auto 10|].
  split.
  { clear - Eperj Ei. unfold transform_seg_perj_keys in Eperj.
    rewrite <- Ei in *.
    repeat match type of Eperj with
           | and_then ?x _ = Ok _ =>
               destruct x; cbn [and_then] in Eperj; [|discriminate]
           end.
    injection Eperj as <-. reflexivity. }
  destruct (top_three OriginDistributionData.count
              (SegmentasiPerjalananResponse.origin_distribution
                 (fst (AllData.segmentasi_perjalanan out))))
    as (s1 & s2 & s3 & rest' & E3 & Hperm & H21 & H32 & Hrest).
  { destruct Hperj as (_ & _ & Hst & _). cbv zeta in Hst.
    apply Forall2_length in Hst. rewrite <- Hst. cbn. lia. }
  rewrite E3 in Esort. injection Esort as <- <-.
  exists s1, s2, s3, rest'. repeat split; try assumption.
  rewrite Ha. cbn [firstn map String.concat Py.isum fold_left].
  rewrite !append_assoc. reflexivity.
Qed.

End Transforms.

(** ** The helpers *)

Section Helpers.

Context {R : Random}.

(** X22: with one of the variances the program uses and a base of at least
    2, [generate_daily_data] returns from every generator state, and the
    jittered count is positive and within a constant factor of the base
    (more than a quarter of it, less than 128 times it). *)
Theorem generate_daily_data_positive (base_value : Z) (variance : float) :
  In variance [0.03; 0.05; 0.1; 0.15; 0.2]%float ->
  2 <= base_value < 2 ^ 900 ->
  returns (generate_daily_data base_value variance)
          (fun n => 0 < n /\ base_value < 4 * n /\ n < 128 * base_value).
Proof.
  intros Hv Hb.
  eapply returns_conseq.
  - apply generate_daily_data_range; [|exact Hb].
    repeat (destruct Hv as [<-|Hv];
            [first [ apply small_variance_003 | apply small_variance_005
                   | apply small_variance_01 | apply small_variance_015
                   | apply small_variance_02 ]|]).
    destruct Hv.
  - cbv beta. intros n [H1 H2]. lia.
Qed.

(** X23: the percentage expression [round(count / total * 100, nd)] raises
    ZeroDivisionError exactly when [total] is 0, and returns a float for
    every other total (the count being below 2^1023 in absolute value, so
    that the quotient cannot overflow). *)
Theorem percent_of_zero_division (count total : Z) (nd : N) :
  Z.abs count < 2 ^ 1023 ->
  (percent_of count total nd = Raise ZeroDivisionError <-> total = 0)
  /\ (total <> 0 -> exists p, percent_of count total nd = Ok p).
Proof.
  intros Hc.
  assert (Hok : total <> 0 -> exists p, percent_of count total nd = Ok p).
  { intros Ht. destruct (FloatBounds.int_truediv_ok count total Ht Hc) as (q & Eq).
    unfold percent_of. rewrite Eq. eauto. }
  split; [|exact Hok]. split.
  - intros E. destruct (Z.eq_dec total 0) as [|Ht]; [assumption|].
    destruct (Hok Ht) as (p & Ep). rewrite Ep in E. discriminate.
  - intros ->. reflexivity.
Qed.

End Helpers.

Lemma generate_daily_data_positive_run :
  returns (R := Scripted.source) (generate_daily_data 500 0.2)
          (fun n => 0 < n /\ 500 < 4 * n /\ n < 128 * 500).
Proof.
  apply (generate_daily_data_positive (R := Scripted.source) 500 0.2).
  - simpl. tauto.
  - split; [lia|reflexivity].
Defined.

Lemma percent_of_zero_division_run :
  (percent_of 1500 3600 1 = Raise ZeroDivisionError <-> 3600 = 0)
  /\ (3600 <> 0 -> exists p, percent_of 1500 3600 1 = Ok p).
Proof.
  apply (percent_of_zero_division 1500 3600 1). reflexivity.
Defined.
